(** * iptvctl: the crontab schedule manager and the override timer

    A shallow embedding of [crontab_manager.py] and of the status and
    timer parts of [app.py], followed by the properties of the schedule
    registry: parsing and building job-table lines, the next-occurrence
    calculator, the registry operations on the job table, the choice of the
    next schedule, the interface status and the override test.

    Part I is the embedding; Part II holds the lemmas and theorems of the
    registry, Part III further properties of the same functions and of
    the functions around them. *)

From Stdlib Require Import List Ascii String ZArith QArith Lia Bool Arith.
From Stdlib Require Import Permutation Sorted Qround.
Import ListNotations.

Set Implicit Arguments.

(* ================================================================== *)
(** * Part I: the embedding *)
(* ================================================================== *)

(** ** Python built-ins used by the program

    A Python [str] is a list of characters.  Characters are the code points
    0..255 (type [ascii]); on this range the whitespace of [str.strip] and
    [str.split] and the digits of [int] are the tables below. *)

Module Py.

Definition str : Type := list ascii.

(** String literals: [lit "0 17 * * *"]. *)
Definition lit (s : string) : str := list_ascii_of_string s.

(** The line feed, ['\n']. *)
Definition LF : ascii := ascii_of_nat 10.

(** The carriage return, ['\r']. *)
Definition CR : ascii := ascii_of_nat 13.

(** The double quote, written by its code. *)
Definition DQUOTE : ascii := ascii_of_nat 34.

(** [c.isspace()]: TAB LF VT FF CR, FS GS RS US, SPACE, NEL, NBSP. *)
Definition isspace (c : ascii) : bool :=
  let n := nat_of_ascii c in
  ((9 <=? n) && (n <=? 13)) || ((28 <=? n) && (n <=? 32))
  || (n =? 133) || (n =? 160).

(** [c in chars], for a character. *)
Definition char_in (c : ascii) (chars : str) : bool :=
  existsb (Ascii.eqb c) chars.

Fixpoint drop_while (p : ascii -> bool) (s : str) : str :=
  match s with
  | [] => []
  | c :: s' => if p c then drop_while p s' else s
  end.

(** [s.lstrip()], [s.rstrip()], [s.strip()]. *)
Definition lstrip (s : str) : str := drop_while isspace s.
Definition rstrip (s : str) : str := rev (drop_while isspace (rev s)).
Definition strip (s : str) : str := rstrip (lstrip s).

(** [s.lstrip(chars)]: drops every leading character that occurs in
    [chars]. *)
Definition lstrip_chars (chars s : str) : str :=
  drop_while (fun c => char_in c chars) s.

(** [s.startswith(p)]. *)
Fixpoint startswith (s p : str) {struct p} : bool :=
  match p, s with
  | [], _ => true
  | a :: p', b :: s' => Ascii.eqb a b && startswith s' p'
  | _ :: _, [] => false
  end.

(** [s.endswith(p)]. *)
Definition endswith (s p : str) : bool := startswith (rev s) (rev p).

(** [sub in s]: [sub] occurs in [s] as a contiguous substring. *)
Fixpoint contains (s sub : str) : bool :=
  startswith s sub
  || match s with
     | [] => false
     | _ :: s' => contains s' sub
     end.

(** [s.split(sep)] for a one-character separator: never empty. *)
Fixpoint split (sep : ascii) (s : str) : list str :=
  match s with
  | [] => [[]]
  | c :: s' =>
      if Ascii.eqb c sep then [] :: split sep s'
      else match split sep s' with
           | w :: ws => (c :: w) :: ws
           | [] => [[c]]
           end
  end.

(** [s.split()]: the maximal runs of non-whitespace characters. *)
Fixpoint split_ws (s : str) : list str :=
  match s with
  | [] => []
  | c :: s' =>
      if isspace c then split_ws s'
      else match s' with
           | [] => [[c]]
           | d :: _ =>
               if isspace d then [c] :: split_ws s'
               else match split_ws s' with
                    | w :: ws => (c :: w) :: ws
                    | [] => [[c]]
                    end
           end
  end.

(** [sep.join(l)]. *)
Fixpoint join (sep : str) (l : list str) : str :=
  match l with
  | [] => []
  | x :: l' =>
      match l' with
      | [] => x
      | _ :: _ => x ++ sep ++ join sep l'
      end
  end.

(** [s.replace(old, new)]: every occurrence of [old], found left to right
    without overlap, becomes [new].  [skip] counts the characters of a
    matched occurrence that are still to be passed over. *)
Fixpoint replace_from (old new s : str) (skip : nat) : str :=
  match s with
  | [] => []
  | c :: s' =>
      match skip with
      | S k => replace_from old new s' k
      | O =>
          if startswith s old
          then new ++ replace_from old new s' (List.length old - 1)
          else c :: replace_from old new s' 0
      end
  end.

Definition replace (s old new : str) : str :=
  match old with
  | [] => new ++ flat_map (fun c => c :: new) s
  | _ :: _ => replace_from old new s 0
  end.

(** String equality, [a == b]. *)
Definition str_eqb (a b : str) : bool :=
  if list_eq_dec ascii_dec a b then true else false.

(** *** Exceptions *)

Inductive exn : Type :=
| ValueError
| OverflowError
| NameError (name : string).

Inductive result (A : Type) : Type :=
| Ok (a : A)
| Raise (e : exn).

Arguments Ok {A} a.
Arguments Raise {A} e.

Definition bind {A B : Type} (r : result A) (k : A -> result B) : result B :=
  match r with
  | Ok a => k a
  | Raise e => Raise e
  end.

Declare Scope result_scope.
Delimit Scope result_scope with res.
Notation "x <- c ;; k" := (bind c (fun x => k))
  (at level 61, c at next level, right associativity) : result_scope.

(** *** [int(s)] *)

Definition digit_val (c : ascii) : option Z :=
  let n := nat_of_ascii c in
  if (48 <=? n) && (n <=? 57) then Some (Z.of_nat (n - 48)) else None.

(** The whitespace [int] skips around the number: TAB LF VT FF CR, SPACE,
    NEL, NBSP (the separators FS..US are not skipped). *)
Definition int_space (c : ascii) : bool :=
  let n := nat_of_ascii c in
  ((9 <=? n) && (n <=? 13)) || (n =? 32) || (n =? 133) || (n =? 160).

(** The interpreter's default bound on the digits of a decimal literal. *)
Definition int_max_str_digits : nat := 4300.

(** Digits, with single underscores allowed between two digits. *)
Fixpoint parse_digits (s : str) (acc : Z) (after_digit : bool) : option Z :=
  match s with
  | [] => if after_digit then Some acc else None
  | c :: s' =>
      match digit_val c with
      | Some d => parse_digits s' (10 * acc + d) true
      | None =>
          if Ascii.eqb c "_" && after_digit then parse_digits s' acc false
          else None
      end
  end.

Definition count_digits (s : str) : nat :=
  List.length (filter (fun c => match digit_val c with Some _ => true | None => false end) s).

Definition int (s : str) : result Z :=
  let t := rev (drop_while int_space (rev (drop_while int_space s))) in
  let signed :=
    match t with
    | c :: r =>
        if Ascii.eqb c "-" then (true, r)
        else if Ascii.eqb c "+" then (false, r)
        else (false, t)
    | [] => (false, t)
    end in
  if (int_max_str_digits <? count_digits (snd signed))%nat then Raise ValueError
  else match parse_digits (snd signed) 0 false with
       | Some v => Ok (if fst signed then (- v)%Z else v)
       | None => Raise ValueError
       end.

(** [range(a, b)] on integers. *)
Definition range (a b : Z) : list Z :=
  map (fun k => (a + Z.of_nat k)%Z) (seq 0 (Z.to_nat (b - a))).

(** [x in l], for an integer and a list of integers. *)
Definition int_in (x : Z) (l : list Z) : bool := existsb (Z.eqb x) l.

End Py.

(** ** [datetime]

    A naive [datetime] as the program uses it.  The date is carried as its
    proleptic Gregorian ordinal ([toordinal()]: 1 is 0001-01-01, a Monday,
    and [MAXORDINAL] is 9999-12-31); the program only steps days, reads the
    weekday and compares. *)

Module Datetime.

Import Py.

Record datetime : Type := mk {
  ordinal : Z;
  hour : Z;
  minute : Z;
  second : Z;
  microsecond : Z
}.

Definition MAXORDINAL : Z := 3652059.

(** [datetime.max], 9999-12-31 23:59:59.999999. *)
Definition max : datetime := mk MAXORDINAL 23 59 59 999999.

Definition time_fields_ok (h m s us : Z) : bool :=
  ((0 <=? h) && (h <=? 23) && (0 <=? m) && (m <=? 59)
   && (0 <=? s) && (s <=? 59) && (0 <=? us) && (us <=? 999999))%Z.

Definition date_ok (o : Z) : bool := ((1 <=? o) && (o <=? MAXORDINAL))%Z.

(** The values a [datetime] object can hold. *)
Definition valid (d : datetime) : Prop :=
  date_ok (ordinal d) = true
  /\ time_fields_ok (hour d) (minute d) (second d) (microsecond d) = true.

(** [d.weekday()]: Monday is 0, Sunday is 6. *)
Definition weekday (d : datetime) : Z := ((ordinal d + 6) mod 7)%Z.

(** [d.replace(hour=.., minute=.., second=.., microsecond=..)]: an absent
    argument keeps the field; the new time is range-checked (a value too
    large for a machine integer raises [OverflowError] instead, which the
    program catches alike). *)
Definition replace (d : datetime) (h m s us : option Z) : result datetime :=
  let h' := match h with Some v => v | None => hour d end in
  let m' := match m with Some v => v | None => minute d end in
  let s' := match s with Some v => v | None => second d end in
  let us' := match us with Some v => v | None => microsecond d end in
  if time_fields_ok h' m' s' us' then Ok (mk (ordinal d) h' m' s' us')
  else Raise ValueError.

(** [d + timedelta(days=n)]. *)
Definition add_days (d : datetime) (n : Z) : result datetime :=
  let o := (ordinal d + n)%Z in
  if date_ok o then Ok (mk o (hour d) (minute d) (second d) (microsecond d))
  else Raise OverflowError.

(** Comparison is field by field, the date first. *)
Definition compare (a b : datetime) : comparison :=
  match (ordinal a ?= ordinal b)%Z with
  | Eq =>
      match (hour a ?= hour b)%Z with
      | Eq =>
          match (minute a ?= minute b)%Z with
          | Eq =>
              match (second a ?= second b)%Z with
              | Eq => (microsecond a ?= microsecond b)%Z
              | c => c
              end
          | c => c
          end
      | c => c
      end
  | c => c
  end.

(** [a < b]. *)
Definition ltb (a b : datetime) : bool :=
  match compare a b with Lt => true | _ => false end.

(** [a == b]. *)
Definition eqb (a b : datetime) : bool :=
  match compare a b with Eq => true | _ => false end.

End Datetime.

(** [list.sort(key=...)] is a stable sort that compares keys with [<]; it
    is written here as the insertion sort, which returns the same list as
    any stable sort. *)

Section ListSort.

Variables (A K : Type) (ltb : K -> K -> bool) (key : A -> K).

Fixpoint sort_insert (x : A) (l : list A) : list A :=
  match l with
  | [] => [x]
  | y :: l' => if ltb (key y) (key x) then y :: sort_insert x l' else x :: l
  end.

Definition list_sort (l : list A) : list A := fold_right sort_insert [] l.

End ListSort.

(** ** [crontab_manager.py] *)

(** What the program takes from its host: the interpreter's string hash
    (seeded per process), the [crontab] command's verdict on a table it is
    asked to install, and the directory of the script. *)
Class Host : Type := {
  py_hash : Py.str -> Z;
  crontab_accepts : Py.str -> bool;
  script_dir : Py.str
}.

Module CrontabManager.

Import Py.

(** A schedule as [parse_crontab_line] returns it: every key is present. *)
Record schedule : Type := mk_schedule {
  id : Z;
  minute : str;
  hour : str;
  day : str;
  month : str;
  weekday : str;
  action : str;
  command : str;
  enabled : bool;
  raw : str
}.

(** A schedule as callers hand it to [build_crontab_line] and
    [add_schedule]: the keys read with [.get] may be missing. *)
Record new_schedule : Type := mk_new_schedule {
  new_minute : str;
  new_hour : str;
  new_day : str;
  new_month : str;
  new_weekday : str;
  new_action : option str;
  new_command : option str;
  new_enabled : option bool
}.

(** The [updates] of [update_schedule]: every key is read with [.get]. *)
Record updates : Type := mk_updates {
  upd_minute : option str;
  upd_hour : option str;
  upd_day : option str;
  upd_month : option str;
  upd_weekday : option str;
  upd_action : option str;
  upd_enabled : option bool
}.

(** The dictionary [{'schedule': s, 'time': t}] of
    [get_next_schedule_by_action]. *)
Record next_schedule : Type := mk_next_schedule {
  next_of : schedule;
  next_time : Datetime.datetime
}.

Definition get {A : Type} (v : option A) (default : A) : A :=
  match v with
  | Some a => a
  | None => default
  end.

(** *** The job table: state and its monad

    [table] is the text the [crontab] command holds and prints with
    [crontab -l] (empty when there is none); [installs] records every
    table handed to [crontab -], newest first. *)

Record world : Type := mk_world {
  table : str;
  installs : list str
}.

(** [subprocess] in text mode ([text=True]) reads the output of a command
    with every CR LF, and then every CR that is left, replaced by a line
    feed (two calls of [str.replace]).  What is written to a command goes
    out as it is. *)
Definition translate_newlines (data : str) : str :=
  replace (replace data [CR; LF] [LF]) [CR] [LF].

(** The table as the program reads it: the [stdout] of [crontab -l]. *)
Definition crontab (w : world) : str := translate_newlines (table w).

Definition M (A : Type) : Type := world -> A * world.

Definition ret {A : Type} (a : A) : M A := fun w => (a, w).

Definition mbind {A B : Type} (c : M A) (k : A -> M B) : M B :=
  fun w => let (a, w') := c w in k a w'.

Declare Scope state_scope.
Delimit Scope state_scope with st.
Notation "x <- c ;; k" := (mbind c (fun x => k))
  (at level 61, c at next level, right associativity) : state_scope.

Section Program.

Context {host : Host}.

Definition get_crontab : M str := fun w => (crontab w, w).

Definition set_crontab (content : str) : M bool :=
  fun w =>
    if crontab_accepts content
    then (true, mk_world content (content :: installs w))
    else (false, mk_world (table w) (content :: installs w)).

(** *** Parsing *)

Definition parse_crontab_line (line : str) : option schedule :=
  let enabled := negb (startswith (strip line) (lit "#")) in
  let clean_line := strip (lstrip_chars (lit "# ") line) in
  let parts := split_ws clean_line in
  if (List.length parts <? 6)%nat then None
  else
    match parts with
    | minute :: hour :: day :: month :: weekday :: rest =>
        let command := join (lit " ") rest in
        let action :=
          if contains command (lit "up") then lit "on"
          else if contains command (lit "check_and_off") then lit "off"
          else lit "off" in
        Some (mk_schedule (Z.land (py_hash line) 2147483647)
                minute hour day month weekday action command enabled line)
    | _ => None
    end.

(** The test of [extract_iptv_schedules] on a stripped line: one of the two
    command markers occurs in the line or in the line without its [#]. *)
Definition is_iptv_line (line : str) : bool :=
  let clean_line := strip (replace line (lit "#") (lit "")) in
  contains line (lit "ip link set ens1")
  || contains clean_line (lit "ip link set ens1")
  || contains line (lit "check_and_off.sh")
  || contains clean_line (lit "check_and_off.sh").

Fixpoint extract_lines (lines : list str) : list schedule :=
  match lines with
  | [] => []
  | line :: rest =>
      let line := strip line in
      match line with
      | [] => extract_lines rest
      | _ :: _ =>
          if is_iptv_line line then
            match parse_crontab_line line with
            | Some schedule => schedule :: extract_lines rest
            | None => extract_lines rest
            end
          else extract_lines rest
      end
  end.

Definition extract_iptv_schedules (crontab_content : str) : list schedule :=
  extract_lines (split LF crontab_content).

(** *** Building *)

Definition get_script_dir : str := script_dir.

(** [os.path.join(a, b)] on POSIX paths. *)
Definition path_join (a b : str) : str :=
  if startswith b (lit "/") then b
  else match a with
       | [] => b
       | _ :: _ => if endswith a (lit "/") then a ++ b else a ++ lit "/" ++ b
       end.

Definition build_crontab_line (schedule : new_schedule) : str :=
  let command :=
    if match new_action schedule with
       | Some a => str_eqb a (lit "off")
       | None => false
       end
    then path_join get_script_dir (lit "check_and_off.sh")
    else get (new_command schedule) (lit "/sbin/ip link set ens1 up") in
  let line :=
    new_minute schedule ++ lit " " ++ new_hour schedule ++ lit " "
    ++ new_day schedule ++ lit " " ++ new_month schedule ++ lit " "
    ++ new_weekday schedule ++ lit " " ++ command in
  if negb (get (new_enabled schedule) true) then lit "# " ++ line else line.

(** *** Weekdays and the next run *)

Definition cron_to_python_weekday (cron_wd : Z) : Z :=
  if (cron_wd =? 0)%Z then 6%Z else (cron_wd - 1)%Z.

(** One comma-separated term of the weekday field. *)
Definition parse_weekday_part (part : str) : result (list Z) :=
  (if contains part (lit "-") then
     match split "-" part with
     | [start; stop] =>
         a <- int start ;;
         b <- int stop ;;
         Ok (map cron_to_python_weekday (range a (b + 1)))
     | _ => Raise ValueError
     end
   else
     v <- int part ;;
     Ok [cron_to_python_weekday v])%res.

Fixpoint parse_weekday_parts (parts : list str) (weekdays : list Z)
  : result (list Z) :=
  match parts with
  | [] => Ok weekdays
  | part :: rest =>
      (ws <- parse_weekday_part part ;;
       parse_weekday_parts rest (weekdays ++ ws))%res
  end.

Definition parse_weekday (weekday_str : str) : result (list Z) :=
  if str_eqb weekday_str (lit "*") then Ok (range 0 7)
  else parse_weekday_parts (split "," weekday_str) [].

(** The loop [for _ in range(n)] of [calculate_next_run]. *)
Fixpoint next_run_loop (n : nat) (weekdays : list Z) (hour minute : Z)
  (from_time check_time : Datetime.datetime)
  : result (option Datetime.datetime) :=
  match n with
  | O => Ok None
  | S n' =>
      (found <-
         (if int_in (Datetime.weekday check_time) weekdays then
            run_time <-
              Datetime.replace check_time (Some hour) (Some minute) None None ;;
            Ok (if Datetime.ltb from_time run_time then Some run_time
                else None)
          else Ok None) ;;
       match found with
       | Some run_time => Ok (Some run_time)
       | None =>
           check_time' <- Datetime.add_days check_time 1 ;;
           next_run_loop n' weekdays hour minute from_time check_time'
       end)%res
  end.

Definition calculate_next_run (schedule : schedule)
  (from_time : Datetime.datetime) : option Datetime.datetime :=
  match
    (hour <- int (hour schedule) ;;
     minute <- int (minute schedule) ;;
     weekdays <- parse_weekday (weekday schedule) ;;
     check_time <- Datetime.replace from_time None None (Some 0%Z) (Some 0%Z) ;;
     next_run_loop 8 weekdays hour minute from_time check_time)%res
  with
  | Ok next_run => next_run
  | Raise _ => None
  end.

(** *** The registry *)

Definition sort_key (now : Datetime.datetime) (s : schedule)
  : Datetime.datetime :=
  match calculate_next_run s now with
  | Some next_run => next_run
  | None => Datetime.max
  end.

(** [now] is the instant [datetime.now()] returns during the call. *)
Definition get_all_schedules (now : Datetime.datetime) : M (list schedule) :=
  (crontab <- get_crontab ;;
   let schedules := extract_iptv_schedules crontab in
   ret (list_sort Datetime.ltb (sort_key now) schedules))%st.

Definition add_schedule (schedule : new_schedule) : M bool :=
  (crontab <- get_crontab ;;
   let new_line := build_crontab_line schedule in
   let crontab :=
     match crontab with
     | [] => crontab
     | _ :: _ => if negb (endswith crontab [LF]) then crontab ++ [LF]
                 else crontab
     end in
   let crontab := crontab ++ new_line ++ [LF] in
   set_crontab crontab)%st.

(** The first schedule with the given id, as the [for]/[break] finds it. *)
Definition find_schedule (schedule_id : Z) (schedules : list schedule)
  : option schedule :=
  find (fun s => (id s =? schedule_id)%Z) schedules.

Definition delete_schedule (schedule_id : Z) : M bool :=
  (crontab <- get_crontab ;;
   let schedules := extract_iptv_schedules crontab in
   match find_schedule schedule_id schedules with
   | None => ret false
   | Some target =>
       let lines := split LF crontab in
       let new_lines :=
         filter (fun line => negb (contains line (raw target))) lines in
       set_crontab (join [LF] new_lines)
   end)%st.

(** The dictionary [new_schedule] that [update_schedule] builds from
    [updates]. *)
Definition updated_schedule (updates : updates) : new_schedule :=
  let action := get (upd_action updates) (lit "off") in
  let command :=
    if str_eqb action (lit "on")
    then lit "/sbin/ip link set ens1 up && /usr/bin/logger "
         ++ [DQUOTE] ++ lit "IPTV RESTORED: manual schedule" ++ [DQUOTE]
    else path_join get_script_dir (lit "check_and_off.sh") in
  mk_new_schedule
    (get (upd_minute updates) (lit "0"))
    (get (upd_hour updates) (lit "0"))
    (get (upd_day updates) (lit "*"))
    (get (upd_month updates) (lit "*"))
    (get (upd_weekday updates) (lit "*"))
    (Some action)
    (Some command)
    (Some (get (upd_enabled updates) true)).

Definition update_schedule (schedule_id : Z) (updates : updates) : M bool :=
  (deleted <- delete_schedule schedule_id ;;
   if negb deleted then ret false
   else add_schedule (updated_schedule updates))%st.

(** The line [toggle_schedule] writes for a target whose flag it has just
    flipped to [now_enabled]. *)
Definition toggled_line (old_line : str) (now_enabled : bool) : str :=
  if now_enabled then lstrip_chars (lit "# ") old_line
  else if negb (startswith (strip old_line) (lit "#"))
       then lit "# " ++ old_line
       else old_line.

Definition toggle_schedule (schedule_id : Z) : M bool :=
  (crontab <- get_crontab ;;
   let schedules := extract_iptv_schedules crontab in
   match find_schedule schedule_id schedules with
   | None => ret false
   | Some target =>
       let now_enabled := negb (enabled target) in
       let old_line := raw target in
       let new_line := toggled_line old_line now_enabled in
       set_crontab (replace crontab old_line new_line)
   end)%st.

(** *** The next schedule of an action *)

(** The loop of [get_next_schedule_by_action]; [best] is the value of
    [next_schedule] so far. *)
Fixpoint next_schedule_loop (the_action : str) (now : Datetime.datetime)
  (schedules : list schedule) (best : option next_schedule)
  : option next_schedule :=
  match schedules with
  | [] => best
  | s :: rest =>
      if negb (enabled s) then next_schedule_loop the_action now rest best
      else if negb (str_eqb (action s) the_action)
      then next_schedule_loop the_action now rest best
      else
        match calculate_next_run s now with
        | Some t =>
            match best with
            | None =>
                next_schedule_loop the_action now rest
                  (Some (mk_next_schedule s t))
            | Some b =>
                if Datetime.ltb t (next_time b)
                then next_schedule_loop the_action now rest
                       (Some (mk_next_schedule s t))
                else next_schedule_loop the_action now rest best
            end
        | None => next_schedule_loop the_action now rest best
        end
  end.

(** [schedules] is [None] when the caller leaves the argument out; [now]
    is the instant [datetime.now()] returns during the call. *)
Definition get_next_schedule_by_action (the_action : str)
  (schedules : option (list schedule)) (now : Datetime.datetime)
  : M (option next_schedule) :=
  match schedules with
  | Some l => ret (next_schedule_loop the_action now l None)
  | None =>
      (crontab <- get_crontab ;;
       let l := extract_iptv_schedules crontab in
       ret (next_schedule_loop the_action now l None))%st
  end.

Definition get_next_schedule (now : Datetime.datetime)
  : M (option next_schedule) :=
  get_next_schedule_by_action (lit "off") None now.

(** The two calls read the clock one after the other: [now_on], then
    [now_off]. *)
Definition get_next_schedules (now_on now_off : Datetime.datetime)
  : M (option next_schedule * option next_schedule) :=
  (crontab <- get_crontab ;;
   let schedules := extract_iptv_schedules crontab in
   next_on <- get_next_schedule_by_action (lit "on") (Some schedules) now_on ;;
   next_off <-
     get_next_schedule_by_action (lit "off") (Some schedules) now_off ;;
   ret (next_on, next_off))%st.

(** *** The override test, as this module has it

    The names bound at module level when the function runs: the imports of
    the file and its own functions.  The body also imports
    [timer_end_time] from [app]. *)
Definition module_globals : list string :=
  ["subprocess"; "re"; "json"; "os"; "datetime"; "timedelta";
   "CRONTAB_MARKER_START"; "CRONTAB_MARKER_END";
   "get_crontab"; "set_crontab"; "extract_iptv_schedules";
   "parse_crontab_line"; "get_script_dir"; "build_crontab_line";
   "get_all_schedules"; "add_schedule"; "delete_schedule";
   "update_schedule"; "toggle_schedule"; "get_next_schedule";
   "get_next_schedule_by_action"; "get_next_schedules";
   "calculate_next_run"; "parse_weekday"; "cron_to_python_weekday";
   "should_skip_crontab_off"]%string.

(** Reading a global name of the module. *)
Definition load_global (name : string) : result unit :=
  if existsb (String.eqb name) module_globals then Ok tt
  else Raise (NameError name).

(** Clock readings are floats; they are carried as rationals, on which
    [end - now > 0] has the sign the float subtraction has. *)
Definition should_skip_crontab_off (timer_end_time : option Q) (now : Q)
  : result bool :=
  match timer_end_time with
  | Some end_time =>
      (_ <- load_global "time" ;;
       let remaining := (end_time - now)%Q in
       if negb (Qle_bool remaining 0) then Ok true else Ok false)%res
  | None => Ok false
  end.

End Program.

End CrontabManager.

(** ** [app.py]: the interface status and the override timer *)

Module App.

Import Py.

(** The module's global [timer_end_time]. *)
Record state : Type := mk_state {
  timer_end_time : option Q
}.

(** [now] is the reading of [time.time()] during the call. *)
Definition should_skip_crontab_off (st : state) (now : Q) : result bool :=
  match timer_end_time st with
  | Some end_time =>
      let remaining := (end_time - now)%Q in
      if negb (Qle_bool remaining 0) then Ok true else Ok false
  | None => Ok false
  end.

(** [parse_iptv_status]: the first line that names the interface
    decides. *)
Fixpoint status_of_lines (lines : list str) : str :=
  match lines with
  | [] => lit "unknown"
  | line :: rest =>
      if contains line (lit "ens1:") then
        if contains line (lit "UP") then lit "on" else lit "off"
      else status_of_lines rest
  end.

Definition parse_iptv_status (output : str) : str :=
  status_of_lines (split LF output).

(** The result dictionary of [run_status_command], as far as
    [get_current_status] reads it. *)
Record command_result : Type := mk_command_result {
  success : bool;
  stdout : str
}.

(** [get_current_status], on the result its call of [run_status_command]
    returned. *)
Definition get_current_status (result : command_result) : str :=
  if success result then parse_iptv_status (stdout result)
  else lit "unknown".

(** [get_timer_status]: the whole seconds that remain, or nothing; an end
    time that has passed is cleared.  [int] of a positive reading is its
    floor. *)
Definition get_timer_status (st : state) (now : Q) : option Z * state :=
  match timer_end_time st with
  | None => (None, st)
  | Some end_time =>
      let remaining := (end_time - now)%Q in
      if Qle_bool remaining 0 then (None, mk_state None)
      else (Some (Qfloor remaining), st)
  end.

End App.

(** ** Sample hosts, tables and schedules

    A concrete host for the examples: a polynomial string hash, a [crontab]
    that installs every table, and the script in [/opt/iptv]. *)

Module Samples.

Import Py CrontabManager.

Definition poly_hash (s : str) : Z :=
  fold_left (fun h c => (31 * h + Z.of_nat (nat_of_ascii c))%Z) s 7%Z.

Definition sample_host : Host := {|
  py_hash := poly_hash;
  crontab_accepts := fun _ => true;
  script_dir := lit "/opt/iptv"
|}.

(** A host whose [crontab] refuses a table with an entry at minute 99. *)
Definition strict_host : Host := {|
  py_hash := poly_hash;
  crontab_accepts := fun table =>
    negb (existsb (fun l => startswith l (lit "99 ")) (split LF table));
  script_dir := lit "/opt/iptv"
|}.

(** The id [parse_crontab_line] gives a line on this host. *)
Definition id_of (line : str) : Z := Z.land (poly_hash line) 2147483647.

(** *** Lines and tables *)

Definition line_off : str := lit "0 17 * * 1-5 /opt/iptv/check_and_off.sh".
Definition line_on : str := lit "30 7 * * * /sbin/ip link set ens1 up".
Definition line_other : str := lit "15 3 * * * /usr/bin/backup".

(** A line that holds a command marker only once its [#] is taken out. *)
Definition line_split_marker : str :=
  lit "0 6 * * * /sbin/ip link set e#ns1 up".



(** The text of a table whose lines are [ls], each ended by a line feed. *)
Definition table_of (ls : list str) : str :=
  flat_map (fun l => l ++ [LF]) ls.

(** A world with the given table and no installation so far. *)
Definition fresh (text : str) : world := mk_world text [].

(** A table with an on line, a line of another job and an off line. *)
Definition mixed_table : world :=
  fresh (table_of [line_on; line_other; line_off]).


(** *** Schedules *)

(** A weekday schedule at 17:00. *)
Definition schedule_off : schedule :=
  mk_schedule 1 (lit "0") (lit "17") (lit "*") (lit "*") (lit "1-5")
    (lit "off") (lit "/opt/iptv/check_and_off.sh") true line_off.

(** The schedule parsed from a line (the sample schedule when the line
    does not parse). *)
Definition parsed (line : str) : schedule :=
  match @parse_crontab_line sample_host line with
  | Some r => r
  | None => schedule_off
  end.

(** A schedule whose weekday field has two dashes, one at 25:00, and one
    whose weekday range runs backwards. *)
Definition schedule_two_dashes : schedule :=
  parsed (lit "0 17 * * 1-2-3 /sbin/ip link set ens1 up").

Definition schedule_late : schedule :=
  parsed (lit "0 25 * * * /sbin/ip link set ens1 up").

Definition schedule_backwards : schedule :=
  parsed (lit "0 17 * * 5-1 /sbin/ip link set ens1 up").

(** An on schedule for every day at 07:30. *)
Definition schedule_on : schedule := parsed line_on.

(** An instant at 16:00:30.000005 on day 738888, whose weekday number
    is 2. *)
Definition afternoon : Datetime.datetime := Datetime.mk 738888 16 0 30 5.

(** An enabled off schedule, every day at 05:00. *)
Definition new_off : new_schedule :=
  mk_new_schedule (lit "0") (lit "5") (lit "*") (lit "*") (lit "*")
    (Some (lit "off")) None (Some true).

(** An enabled off schedule whose minute field starts with the comment
    character. *)
Definition new_off_hash : new_schedule :=
  mk_new_schedule (lit "#5") (lit "0") (lit "*") (lit "*") (lit "*")
    (Some (lit "off")) None (Some true).

(** An enabled on schedule whose command is not one of this system. *)
Definition new_echo : new_schedule :=
  mk_new_schedule (lit "0") (lit "0") (lit "*") (lit "*") (lit "*")
    (Some (lit "on")) (Some (lit "/bin/echo hi")) (Some true).

(** An off schedule whose day field carries a line feed and the start of a
    second entry. *)
Definition new_two_lines : new_schedule :=
  mk_new_schedule (lit "0") (lit "0") (lit "1" ++ [LF] ++ lit "0 0 *")
    (lit "*") (lit "*") (Some (lit "off")) None (Some true).

(** The same with a carriage return in place of the line feed. *)
Definition new_cr_day : new_schedule :=
  mk_new_schedule (lit "0") (lit "0") (lit "1" ++ [CR] ++ lit "0 0 *")
    (lit "*") (lit "*") (Some (lit "off")) None (Some true).

(** An off schedule whose minute field starts with a carriage return. *)
Definition new_off_cr : new_schedule :=
  mk_new_schedule ([CR] ++ lit "5") (lit "0") (lit "*") (lit "*") (lit "*")
    (Some (lit "off")) None (Some true).


(** Updates that move a schedule to minute 99. *)
Definition updates_minute_99 : updates :=
  mk_updates (Some (lit "99")) (Some (lit "5")) None None None
    (Some (lit "off")) (Some true).

End Samples.

(** ** Vocabulary of the statements *)

Module Spec.

Import Py.

(** A text whose first character is not whitespace. *)
Definition first_nonspace (m : str) : bool :=
  match m with
  | c :: _ => negb (isspace c)
  | [] => false
  end.

(** A non-empty text with no whitespace at either end. *)
Definition edges_nonspace (m : str) : bool :=
  first_nonspace m && first_nonspace (rev m).

(** A text made of whitespace only. *)
Definition all_space (a : str) : bool := forallb isspace a.

(** A text with no whitespace in it. *)
Definition no_space (a : str) : bool := forallb (fun c => negb (isspace c)) a.

(** The decimal text of a one-digit number, [str(n)] for 0 <= n <= 9. *)
Definition digit_str (n : Z) : str := [ascii_of_nat (48 + Z.to_nat n)].

(** A run instant of a schedule with weekday set [weekdays] and time
    [h]:[m], without the day window: a [datetime] value on a matching
    weekday, at [h]:[m]:00, strictly later than [from_time]. *)
Definition run_instant (weekdays : list Z) (h m : Z)
  (from_time r : Datetime.datetime) : Prop :=
  Datetime.valid r
  /\ In (Datetime.weekday r) weekdays
  /\ Datetime.hour r = h /\ Datetime.minute r = m
  /\ Datetime.second r = 0%Z /\ Datetime.microsecond r = 0%Z
  /\ Datetime.ltb from_time r = true.

(** A candidate of [calculate_next_run]: a run instant on one of the 8
    calendar days that start with the day of [from_time]. *)
Definition run_candidate (weekdays : list Z) (h m : Z)
  (from_time r : Datetime.datetime) : Prop :=
  run_instant weekdays h m from_time r
  /\ (Datetime.ordinal from_time <= Datetime.ordinal r
      < Datetime.ordinal from_time + 8)%Z.

(** One comma-separated term of a weekday field as the program reads it,
    with the list it stands for: an integer literal, or two integer
    literals joined by one dash. *)
Definition weekday_term (t : str) (l : list Z) : Prop :=
  (~ In "-"%char t
   /\ exists v, int t = Ok v
                /\ l = [CrontabManager.cron_to_python_weekday v])
  \/ (exists a b x y,
        t = a ++ "-"%char :: b /\ ~ In "-"%char a /\ ~ In "-"%char b
        /\ int a = Ok x /\ int b = Ok y
        /\ l = map CrontabManager.cron_to_python_weekday (range x (y + 1))).

(** Two records with the same entry: time fields, command and action. *)
Definition same_entry (r r' : CrontabManager.schedule) : Prop :=
  CrontabManager.minute r = CrontabManager.minute r'
  /\ CrontabManager.hour r = CrontabManager.hour r'
  /\ CrontabManager.day r = CrontabManager.day r'
  /\ CrontabManager.month r = CrontabManager.month r'
  /\ CrontabManager.weekday r = CrontabManager.weekday r'
  /\ CrontabManager.command r = CrontabManager.command r'
  /\ CrontabManager.action r = CrontabManager.action r'.

(** A schedule that [get_next_schedule_by_action] considers, with its
    next run: enabled, of the asked action, and with a next run. *)
Definition eligible (the_action : str) (now : Datetime.datetime)
  (s : CrontabManager.schedule) (t : Datetime.datetime) : Prop :=
  CrontabManager.enabled s = true
  /\ CrontabManager.action s = the_action
  /\ CrontabManager.calculate_next_run s now = Some t.

(** The same as a test. *)
Definition eligibleb (the_action : str) (now : Datetime.datetime)
  (s : CrontabManager.schedule) : bool :=
  CrontabManager.enabled s
  && str_eqb (CrontabManager.action s) the_action
  && match CrontabManager.calculate_next_run s now with
     | Some _ => true
     | None => false
     end.

(** [res] is the first of the schedules of [l] that run earliest: nothing
    when no schedule is eligible; otherwise an eligible schedule of [l],
    every eligible schedule before it runs strictly later and none after
    it runs earlier. *)
Definition earliest_first (the_action : str) (now : Datetime.datetime)
  (l : list CrontabManager.schedule)
  (res : option CrontabManager.next_schedule) : Prop :=
  match res with
  | None => forall s t, In s l -> ~ eligible the_action now s t
  | Some b =>
      exists l1 l2,
        l = l1 ++ CrontabManager.next_of b :: l2
        /\ eligible the_action now (CrontabManager.next_of b)
             (CrontabManager.next_time b)
        /\ (forall s t, In s l1 -> eligible the_action now s t ->
                        Datetime.ltb (CrontabManager.next_time b) t = true)
        /\ (forall s t, In s l2 -> eligible the_action now s t ->
                        Datetime.ltb t (CrontabManager.next_time b) = false)
  end.

Section Lines.

Context {host : Host}.

Import CrontabManager.

(** A time field as a job-table line can carry it: not empty, and with no
    whitespace in it. *)
Definition field_ok (f : str) : Prop := f <> [] /\ no_space f = true.

Definition well_formed_fields (s : new_schedule) : Prop :=
  field_ok (new_minute s) /\ field_ok (new_hour s) /\ field_ok (new_day s)
  /\ field_ok (new_month s) /\ field_ok (new_weekday s).

(** An off schedule whose script path is free of [up], or an on schedule
    whose command holds [up]. *)
Definition action_commands_ok (s : new_schedule) : Prop :=
  (new_action s = Some (lit "off")
   /\ contains (path_join get_script_dir (lit "check_and_off.sh")) (lit "up")
      = false)
  \/ (new_action s = Some (lit "on")
      /\ contains (get (new_command s) (lit "/sbin/ip link set ens1 up"))
           (lit "up") = true).

(** Parsing the built line gives back the fields, the flag and the
    action. *)
Definition line_round_trip (s : new_schedule) : Prop :=
  exists r,
    parse_crontab_line (build_crontab_line s) = Some r
    /\ minute r = new_minute s /\ hour r = new_hour s
    /\ day r = new_day s /\ month r = new_month s
    /\ weekday r = new_weekday s
    /\ enabled r = get (new_enabled s) true
    /\ Some (action r) = new_action s.

(** The two command markers. *)
Definition is_marker (mk : str) : Prop :=
  mk = lit "ip link set ens1" \/ mk = lit "check_and_off.sh".

(** The line without its [#] characters, stripped. *)
Definition clean (x : str) : str := strip (replace x (lit "#") (lit "")).

(** The character [c] occurs in no field that [update_schedule] writes,
    nor in the script directory. *)
Definition fields_without (c : ascii) (u : updates) : Prop :=
  ~ In c (get (upd_minute u) (lit "0"))
  /\ ~ In c (get (upd_hour u) (lit "0"))
  /\ ~ In c (get (upd_day u) (lit "*"))
  /\ ~ In c (get (upd_month u) (lit "*"))
  /\ ~ In c (get (upd_weekday u) (lit "*"))
  /\ ~ In c get_script_dir.

(** The line [update_schedule] writes is read back as one line: no line
    feed and no carriage return in what it is made of. *)
Definition updates_one_line (u : updates) : Prop :=
  fields_without LF u /\ fields_without CR u.

(** A line that holds one of the two command markers as it stands. *)
Definition holds_marker (l : str) : bool :=
  contains l (lit "ip link set ens1") || contains l (lit "check_and_off.sh").

(** A domain line, as the program decides it: a line of the table that
    passes the marker test of [extract_iptv_schedules].  The test is made
    on the stripped line, and looks for a marker in the line as it stands
    and in the line with every [#] taken out; so it also accepts a line
    that holds a marker only once its [#] characters are gone. *)
Definition is_domain_line (l : str) : bool := is_iptv_line (strip l).

(** The lines of a table that are not domain lines, in order; the lines
    are the segments between line feeds, as the program splits them. *)
Definition other_lines (text : str) : list str :=
  filter (fun l => negb (is_domain_line l)) (split LF text).

(** The same without the empty segments. *)
Definition other_text_lines (text : str) : list str :=
  filter (fun l => match l with [] => false | _ :: _ => true end)
    (other_lines text).

(** The non-empty lines of a table. *)
Definition text_lines (text : str) : list str :=
  filter (fun l => match l with [] => false | _ :: _ => true end)
    (split LF text).

(** A table whose last line is ended by a line feed (or an empty table). *)
Definition terminated (text : str) : Prop :=
  text = [] \/ endswith text [LF] = true.

(** The replacement as the specification words it: only the first
    occurrence of [old] is replaced, [s.replace(old, new, 1)]. *)
Fixpoint replace_first (s old new : str) : str :=
  if startswith s old then new ++ skipn (List.length old) s
  else match s with
       | [] => []
       | c :: s' => c :: replace_first s' old new
       end.

End Lines.

End Spec.

(* ================================================================== *)
(** * Part II: properties *)
(* ================================================================== *)

Import Py.

Unset Implicit Arguments.

(** ** Prefixes and substrings *)

Lemma startswith_spec (s p : str) :
  startswith s p = true <-> exists r, s = p ++ r.
Proof.
  revert s; induction p as [|a p IH]; intros s; simpl.
  - split; [intros _; now exists s | reflexivity].
  - destruct s as [|b s].
    + split; [discriminate | intros [r Hr]; discriminate].
    + rewrite andb_true_iff, Ascii.eqb_eq, IH. split.
      * intros [-> [r ->]]. now exists r.
      * intros [r Hr]. injection Hr as -> ->. split; [reflexivity | now exists r].
Qed.

Lemma startswith_app (p r : str) : startswith (p ++ r) p = true.
Proof. apply startswith_spec. now exists r. Qed.

Lemma startswith_extend (s t p : str) :
  startswith s p = true -> startswith (s ++ t) p = true.
Proof.
  rewrite !startswith_spec. intros [r ->]. exists (r ++ t).
  now rewrite app_assoc.
Qed.

Lemma startswith_head_neq (c d : ascii) (s p : str) :
  d <> c -> startswith (c :: s) (d :: p) = false.
Proof.
  intros Hn. simpl. destruct (Ascii.eqb d c) eqn:E; [|reflexivity].
  apply Ascii.eqb_eq in E. contradiction.
Qed.

Lemma contains_spec (s sub : str) :
  contains s sub = true <-> exists a b, s = a ++ sub ++ b.
Proof.
  induction s as [|c s IH]; simpl.
  - rewrite orb_false_r, startswith_spec. split.
    + intros [r Hr]. exists [], r. exact Hr.
    + intros [a [b H]]. destruct a; [|discriminate].
      simpl in H. now exists b.
  - rewrite orb_true_iff, startswith_spec, IH. split.
    + intros [[r Hr] | [a [b Hab]]].
      * exists [], r. exact Hr.
      * exists (c :: a), b. simpl. now rewrite Hab.
    + intros [a [b H]]. destruct a as [|x a].
      * left. now exists b.
      * right. injection H as -> ->. now exists a, b.
Qed.

Lemma contains_nil (sub : str) : sub <> [] -> contains [] sub = false.
Proof. destruct sub; [congruence | reflexivity]. Qed.

Lemma contains_refl (s : str) : contains s s = true.
Proof. apply contains_spec. exists [], []. now rewrite app_nil_r. Qed.

Lemma contains_trans (y x m : str) :
  contains y x = true -> contains x m = true -> contains y m = true.
Proof.
  rewrite !contains_spec. intros [a [b ->]] [a' [b' ->]].
  exists (a ++ a'), (b' ++ b). now rewrite <- !app_assoc.
Qed.

Lemma contains_app_l (a s sub : str) :
  contains s sub = true -> contains (a ++ s) sub = true.
Proof.
  rewrite !contains_spec. intros [x [y ->]]. exists (a ++ x), y.
  now rewrite <- app_assoc.
Qed.

Lemma contains_app_r (s b sub : str) :
  contains s sub = true -> contains (s ++ b) sub = true.
Proof.
  rewrite !contains_spec. intros [x [y ->]]. exists x, (y ++ b).
  now rewrite <- !app_assoc.
Qed.

Lemma contains_rev (s sub : str) :
  contains (rev s) (rev sub) = contains s sub.
Proof.
  apply eq_true_iff_eq. rewrite !contains_spec. split.
  - intros [a [b H]]. exists (rev b), (rev a).
    apply (f_equal (@rev ascii)) in H.
    rewrite rev_involutive, !rev_app_distr, rev_involutive in H.
    now rewrite H, <- app_assoc.
  - intros [a [b ->]]. exists (rev b), (rev a).
    now rewrite !rev_app_distr, <- app_assoc.
Qed.

(** An occurrence cannot start on a character that is not the first one of
    the substring. *)
Lemma contains_skip (c x : ascii) (s sub : str) :
  x <> c -> contains (c :: s) (x :: sub) = contains s (x :: sub).
Proof.
  intros Hn. change (contains (c :: s) (x :: sub))
    with (startswith (c :: s) (x :: sub) || contains s (x :: sub)).
  now rewrite startswith_head_neq.
Qed.

Lemma contains_skip_prefix (a s : str) (x : ascii) (sub : str) :
  ~ In x a -> contains (a ++ s) (x :: sub) = contains s (x :: sub).
Proof.
  induction a as [|c a IH]; intros Hn; [reflexivity|].
  simpl app. rewrite contains_skip.
  - apply IH. intros H. apply Hn. now right.
  - intros ->. apply Hn. now left.
Qed.

Lemma char_in_spec (c : ascii) (s : str) : char_in c s = true <-> In c s.
Proof.
  unfold char_in. rewrite existsb_exists. split.
  - intros [x [Hx E]]. apply Ascii.eqb_eq in E. now subst.
  - intros H. exists c. split; [exact H | apply Ascii.eqb_refl].
Qed.

Lemma char_in_false (c : ascii) (s : str) : char_in c s = false <-> ~ In c s.
Proof.
  rewrite <- char_in_spec. destruct (char_in c s); split; congruence.
Qed.

Import Spec.

(** ** Stripping *)

Lemma drop_while_split (p : ascii -> bool) (s : str) :
  exists a, s = a ++ drop_while p s /\ forallb p a = true.
Proof.
  induction s as [|c s [a [Ha Hp]]]; simpl.
  - now exists [].
  - destruct (p c) eqn:E.
    + exists (c :: a). simpl. rewrite E, Hp. split; [now f_equal | reflexivity].
    + now exists [].
Qed.

Lemma drop_while_head (p : ascii -> bool) (s : str) (c : ascii) (r : str) :
  drop_while p s = c :: r -> p c = false.
Proof.
  induction s as [|d s IH]; simpl; [discriminate|].
  destruct (p d) eqn:E; [exact IH|]. intros H. injection H as -> _. exact E.
Qed.

Lemma drop_while_all (p : ascii -> bool) (a s : str) :
  forallb p a = true -> drop_while p (a ++ s) = drop_while p s.
Proof.
  induction a as [|c a IH]; simpl; [reflexivity|].
  rewrite andb_true_iff. intros [-> Ha]. now apply IH.
Qed.

Lemma drop_while_stop (p : ascii -> bool) (c : ascii) (s : str) :
  p c = false -> drop_while p (c :: s) = c :: s.
Proof. intros E. simpl. now rewrite E. Qed.

Lemma drop_while_snoc (p : ascii -> bool) (s : str) (c : ascii) :
  p c = false -> drop_while p (s ++ [c]) = drop_while p s ++ [c].
Proof.
  intros E. induction s as [|d s IH]; simpl.
  - now rewrite E.
  - destruct (p d); [exact IH | reflexivity].
Qed.

Lemma forallb_rev (p : ascii -> bool) (a : str) :
  forallb p (rev a) = forallb p a.
Proof.
  apply eq_true_iff_eq. rewrite !forallb_forall. split; intros H x Hx;
    apply H; [now apply in_rev in Hx | now apply in_rev].
Qed.

Lemma rstrip_cons (c : ascii) (s : str) :
  isspace c = false -> rstrip (c :: s) = c :: rstrip s.
Proof.
  intros E. unfold rstrip. simpl rev. rewrite drop_while_snoc by exact E.
  now rewrite rev_app_distr.
Qed.

Lemma rstrip_all (s b : str) :
  all_space b = true -> rstrip (s ++ b) = rstrip s.
Proof.
  intros Hb. unfold rstrip. rewrite rev_app_distr, drop_while_all; [reflexivity|].
  now rewrite forallb_rev.
Qed.

Lemma rstrip_snoc (s : str) (c : ascii) :
  isspace c = false -> rstrip (s ++ [c]) = s ++ [c].
Proof.
  intros E. unfold rstrip. rewrite rev_app_distr. simpl.
  rewrite E. simpl. now rewrite rev_involutive.
Qed.

Lemma first_nonspace_cons (m : str) :
  first_nonspace m = true -> exists c r, m = c :: r /\ isspace c = false.
Proof.
  destruct m as [|c r]; simpl; [discriminate|]. intros H.
  exists c, r. split; [reflexivity | now apply negb_true_iff].
Qed.

Lemma first_nonspace_rev (m : str) :
  first_nonspace (rev m) = true -> exists r c, m = r ++ [c] /\ isspace c = false.
Proof.
  intros H. destruct (first_nonspace_cons _ H) as [c [r [E Hc]]].
  exists (rev r), c. split; [|exact Hc].
  apply (f_equal (@rev ascii)) in E. now rewrite rev_involutive in E.
Qed.

(** [strip] is determined by its result having no whitespace at the ends. *)
Lemma strip_unique (a m b : str) :
  all_space a = true -> all_space b = true ->
  m = [] \/ edges_nonspace m = true ->
  strip (a ++ m ++ b) = m.
Proof.
  intros Ha Hb Hm. unfold strip, lstrip. rewrite drop_while_all by exact Ha.
  destruct Hm as [-> | Hm].
  - simpl. destruct (drop_while_split isspace b) as [x [Hx _]].
    rewrite <- (app_nil_r b) at 1. rewrite (drop_while_all _ _ _ Hb). reflexivity.
  - unfold edges_nonspace in Hm. apply andb_true_iff in Hm as [H1 H2].
    destruct (first_nonspace_cons _ H1) as [c [r [-> Hc]]].
    simpl app. rewrite drop_while_stop by exact Hc.
    change (c :: r ++ b) with ((c :: r) ++ b). rewrite rstrip_all by exact Hb.
    destruct (first_nonspace_rev _ H2) as [r' [d [E Hd]]].
    rewrite E. now apply rstrip_snoc.
Qed.

Lemma lstrip_split (s : str) :
  exists a, s = a ++ lstrip s /\ all_space a = true.
Proof. apply drop_while_split. Qed.

Lemma rstrip_split (s : str) :
  exists b, s = rstrip s ++ b /\ all_space b = true.
Proof.
  unfold rstrip. destruct (drop_while_split isspace (rev s)) as [x [Hx Hp]].
  exists (rev x). split.
  - apply (f_equal (@rev ascii)) in Hx.
    now rewrite rev_involutive, rev_app_distr in Hx.
  - unfold all_space. now rewrite forallb_rev.
Qed.

Lemma rstrip_last (s r : str) (c : ascii) :
  rstrip s = r ++ [c] -> isspace c = false.
Proof.
  unfold rstrip. intros H. apply (f_equal (@rev ascii)) in H.
  rewrite rev_involutive, rev_app_distr in H. simpl in H.
  exact (drop_while_head _ _ _ _ H).
Qed.

Lemma strip_edges (s : str) : strip s = [] \/ edges_nonspace (strip s) = true.
Proof.
  unfold strip. destruct (lstrip s) as [|c r] eqn:E.
  - now left.
  - right. assert (Hc : isspace c = false) by exact (drop_while_head _ _ _ _ E).
    assert (Hm : rstrip (c :: r) = c :: rstrip r) by now apply rstrip_cons.
    unfold edges_nonspace. apply andb_true_iff. split.
    + rewrite Hm. simpl. now rewrite Hc.
    + destruct (rev (rstrip (c :: r))) as [|d t] eqn:R.
      * rewrite Hm in R. apply (f_equal (@List.length ascii)) in R.
        rewrite length_rev in R. discriminate.
      * simpl. apply negb_true_iff.
        apply (f_equal (@rev ascii)) in R. rewrite rev_involutive in R.
        simpl in R. exact (rstrip_last _ _ _ R).
Qed.

Lemma strip_decompose (s : str) :
  exists a b, s = a ++ strip s ++ b /\ all_space a = true /\ all_space b = true.
Proof.
  destruct (lstrip_split s) as [a [Ha Hsa]].
  destruct (rstrip_split (lstrip s)) as [b [Hb Hsb]].
  exists a, b. unfold strip. now rewrite <- Hb.
Qed.

Lemma strip_around (a z b : str) :
  all_space a = true -> all_space b = true -> strip (a ++ z ++ b) = strip z.
Proof.
  intros Ha Hb. destruct (strip_decompose z) as [a' [b' [Hz [Ha' Hb']]]].
  rewrite Hz at 1.
  replace (a ++ (a' ++ strip z ++ b') ++ b)
    with ((a ++ a') ++ strip z ++ (b' ++ b))
    by now rewrite <- !app_assoc.
  apply strip_unique; try apply strip_edges; unfold all_space in *;
    rewrite forallb_app; now rewrite ?Ha, ?Ha', ?Hb, ?Hb'.
Qed.

Lemma strip_fixed (m : str) : edges_nonspace m = true -> strip m = m.
Proof.
  intros H. rewrite <- (app_nil_r m) at 1.
  change (m ++ []) with ([] ++ m ++ []).
  apply strip_unique; try reflexivity. now right.
Qed.

Lemma strip_in (s : str) (c : ascii) : In c (strip s) -> In c s.
Proof.
  destruct (strip_decompose s) as [a [b [Hs _]]]. intros H.
  rewrite Hs. apply in_or_app. right. apply in_or_app. now left.
Qed.

Lemma contains_strip_of (s : str) : contains s (strip s) = true.
Proof.
  apply contains_spec. destruct (strip_decompose s) as [a [b [Hs _]]].
  now exists a, b.
Qed.

Lemma all_space_not_in (a : str) (x : ascii) :
  all_space a = true -> isspace x = false -> ~ In x a.
Proof.
  unfold all_space. rewrite forallb_forall. intros Ha Hx Hin.
  apply Ha in Hin. congruence.
Qed.

(** A text with no whitespace at its ends occurs in [s] exactly when it
    occurs in [strip s]. *)
Lemma contains_lstrip (s m : str) :
  first_nonspace m = true -> contains (lstrip s) m = contains s m.
Proof.
  intros H. destruct (first_nonspace_cons _ H) as [x [r [-> Hx]]].
  destruct (lstrip_split s) as [a [Hs Ha]]. rewrite Hs at 2.
  symmetry. apply contains_skip_prefix. now apply all_space_not_in.
Qed.

Lemma contains_rstrip (s m : str) :
  first_nonspace (rev m) = true -> contains (rstrip s) m = contains s m.
Proof.
  intros H. unfold rstrip.
  rewrite <- contains_rev, rev_involutive.
  change (drop_while isspace (rev s)) with (lstrip (rev s)).
  rewrite contains_lstrip by exact H. apply contains_rev.
Qed.

Lemma contains_strip (s m : str) :
  edges_nonspace m = true -> contains (strip s) m = contains s m.
Proof.
  unfold edges_nonspace. rewrite andb_true_iff. intros [H1 H2].
  unfold strip. now rewrite contains_rstrip, contains_lstrip.
Qed.

(** ** Splitting on a character and joining *)

Lemma split_nonempty (sep : ascii) (s : str) : split sep s <> [].
Proof.
  induction s as [|c s IH]; simpl; [discriminate|].
  destruct (Ascii.eqb c sep); [discriminate|].
  destruct (split sep s); discriminate.
Qed.

Lemma split_cons_sep (sep : ascii) (s : str) :
  split sep (sep :: s) = [] :: split sep s.
Proof. simpl. now rewrite Ascii.eqb_refl. Qed.

Lemma split_cons_other (sep c : ascii) (s : str) :
  c <> sep ->
  exists w ws, split sep s = w :: ws /\ split sep (c :: s) = (c :: w) :: ws.
Proof.
  intros Hn. simpl. destruct (Ascii.eqb c sep) eqn:E.
  - apply Ascii.eqb_eq in E. contradiction.
  - destruct (split sep s) as [|w ws] eqn:S.
    + now apply split_nonempty in S.
    + now exists w, ws.
Qed.

Lemma join_cons (sep x : str) (y : str) (l : list str) :
  join sep (x :: y :: l) = x ++ sep ++ join sep (y :: l).
Proof. reflexivity. Qed.

Lemma join_split (sep : ascii) (s : str) : join [sep] (split sep s) = s.
Proof.
  induction s as [|c s IH]; [reflexivity|].
  destruct (ascii_dec c sep) as [->|Hn].
  - rewrite split_cons_sep. destruct (split sep s) as [|w ws] eqn:S.
    + now apply split_nonempty in S.
    + rewrite join_cons, IH. reflexivity.
  - destruct (split_cons_other sep c s Hn) as [w [ws [S1 S2]]].
    rewrite S2. rewrite S1 in IH. rewrite <- IH.
    destruct ws; reflexivity.
Qed.

Lemma split_app_sep (sep : ascii) (a b : str) :
  split sep (a ++ sep :: b) = split sep a ++ split sep b.
Proof.
  induction a as [|c a IH].
  - simpl app. now rewrite split_cons_sep.
  - rewrite <- app_comm_cons. destruct (ascii_dec c sep) as [->|Hn].
    + rewrite (split_cons_sep sep a), (split_cons_sep sep (a ++ sep :: b)), IH.
      reflexivity.
    + destruct (split_cons_other sep c a Hn) as [w [ws [S1 S2]]].
      destruct (split_cons_other sep c (a ++ sep :: b) Hn) as [w' [ws' [S1' S2']]].
      rewrite S2, S2'. rewrite IH, S1 in S1'. simpl in S1'.
      injection S1' as <- <-. reflexivity.
Qed.

Lemma split_nosep (sep : ascii) (a : str) : ~ In sep a -> split sep a = [a].
Proof.
  induction a as [|c a IH]; intros Hn; [reflexivity|].
  assert (Hc : c <> sep) by (intros ->; apply Hn; now left).
  destruct (split_cons_other sep c a Hc) as [w [ws [S1 S2]]].
  rewrite S2. rewrite IH in S1 by (intros H; apply Hn; now right).
  now injection S1 as <- <-.
Qed.

Lemma split_app_nosep (sep : ascii) (a x : str) :
  ~ In sep a ->
  exists hd tl, split sep x = hd :: tl /\ split sep (a ++ x) = (a ++ hd) :: tl.
Proof.
  induction a as [|c a IH]; intros Hn.
  - destruct (split sep x) as [|hd tl] eqn:S.
    + now apply split_nonempty in S.
    + now exists hd, tl.
  - destruct IH as [hd [tl [S1 S2]]]; [intros H; apply Hn; now right|].
    exists hd, tl. split; [exact S1|].
    assert (Hc : c <> sep) by (intros ->; apply Hn; now left).
    destruct (split_cons_other sep c (a ++ x) Hc) as [w [ws [T1 T2]]].
    rewrite <- !app_comm_cons. rewrite T2. rewrite S2 in T1. now injection T1 as <- <-.
Qed.

Lemma split_pieces (sep : ascii) (s l : str) :
  In l (split sep s) -> ~ In sep l.
Proof.
  revert l. induction s as [|c s IH]; intros l.
  - simpl. intros [<- | []]. intros [].
  - destruct (ascii_dec c sep) as [->|Hn].
    + rewrite split_cons_sep. intros [<- | H]; [intros [] | now apply IH].
    + destruct (split_cons_other sep c s Hn) as [w [ws [S1 S2]]].
      rewrite S2. rewrite S1 in IH. intros [<- | H].
      * intros [E | H]; [congruence|]. apply (IH w); [now left | exact H].
      * apply IH. now right.
Qed.

Lemma split_join (sep : ascii) (ls : list str) :
  ls <> [] -> (forall l, In l ls -> ~ In sep l) ->
  split sep (join [sep] ls) = ls.
Proof.
  induction ls as [|x ls IH]; intros Hne Hall; [congruence|].
  destruct ls as [|y ls].
  - simpl. apply split_nosep. apply Hall. now left.
  - rewrite join_cons.
    change (x ++ [sep] ++ join [sep] (y :: ls))
      with (x ++ sep :: join [sep] (y :: ls)).
    rewrite split_app_sep, IH.
    + rewrite split_nosep; [reflexivity | apply Hall; now left].
    + discriminate.
    + intros l Hl. apply Hall. now right.
Qed.

Lemma join_snoc (sep : str) (ls : list str) (x : str) :
  ls <> [] -> join sep (ls ++ [x]) = join sep ls ++ sep ++ x.
Proof.
  induction ls as [|y ls IH]; intros Hne; [congruence|].
  destruct ls as [|z ls].
  - reflexivity.
  - change ((y :: z :: ls) ++ [x]) with (y :: (z :: ls) ++ [x]).
    simpl app at 1. rewrite !join_cons.
    change (z :: ls ++ [x]) with ((z :: ls) ++ [x]).
    rewrite IH by discriminate. now rewrite <- !app_assoc.
Qed.

(** ** Replacing *)

Lemma replace_from_skip (old new s : str) (k : nat) :
  replace_from old new s k = replace_from old new (skipn k s) 0.
Proof.
  revert k. induction s as [|c s IH]; intros k.
  - now destruct k.
  - destruct k as [|k]; [reflexivity|]. simpl skipn. simpl replace_from at 1.
    apply IH.
Qed.

Lemma replace_nil (old new : str) : old <> [] -> replace [] old new = [].
Proof. destruct old; [congruence | reflexivity]. Qed.

Lemma replace_from_cons (old new : str) (c : ascii) (s : str) :
  replace_from old new (c :: s) 0
  = if startswith (c :: s) old
    then new ++ replace_from old new s (List.length old - 1)
    else c :: replace_from old new s 0.
Proof. reflexivity. Qed.

(** The two equations of [replace] for a non-empty [old]. *)
Lemma replace_match (old new rest : str) :
  old <> [] -> replace (old ++ rest) old new = new ++ replace rest old new.
Proof.
  destruct old as [|o old]; [congruence|]. intros _. unfold replace.
  rewrite <- app_comm_cons, replace_from_cons.
  rewrite app_comm_cons, startswith_app. f_equal.
  rewrite replace_from_skip.
  replace (List.length (o :: old) - 1)%nat with (List.length old)
    by (simpl; lia).
  rewrite skipn_app, skipn_all, Nat.sub_diag. reflexivity.
Qed.

Lemma replace_step (old new : str) (c : ascii) (s : str) :
  old <> [] -> startswith (c :: s) old = false ->
  replace (c :: s) old new = c :: replace s old new.
Proof.
  destruct old as [|o old]; [congruence|]. intros _ H. unfold replace.
  rewrite replace_from_cons. now rewrite H.
Qed.

Lemma replace_absent (s old new : str) :
  old <> [] -> contains s old = false -> replace s old new = s.
Proof.
  intros Hne. induction s as [|c s IH]; intros H.
  - now apply replace_nil.
  - simpl in H. apply orb_false_iff in H as [H1 H2].
    rewrite replace_step by assumption. now rewrite IH.
Qed.

(** Characters that are not the first of [old] pass through. *)
Lemma replace_skip_prefix (a rest : str) (o : ascii) (old new : str) :
  ~ In o a ->
  replace (a ++ rest) (o :: old) new = a ++ replace rest (o :: old) new.
Proof.
  induction a as [|c a IH]; intros Hn; [reflexivity|].
  simpl app. rewrite replace_step.
  - rewrite IH; [reflexivity | intros H; apply Hn; now right].
  - discriminate.
  - apply startswith_head_neq. intros ->. apply Hn. now left.
Qed.

(** A line that is [old] between whitespace: the one occurrence is
    replaced. *)
Lemma replace_padded (a b old new : str) :
  first_nonspace old = true -> all_space a = true -> all_space b = true ->
  replace (a ++ old ++ b) old new = a ++ new ++ b.
Proof.
  intros H Ha Hb. destruct (first_nonspace_cons _ H) as [o [r [-> Ho]]].
  rewrite replace_skip_prefix by now apply all_space_not_in.
  rewrite replace_match by discriminate.
  rewrite <- (app_nil_r b) at 1. rewrite replace_skip_prefix
    by now apply all_space_not_in.
  now rewrite replace_nil, app_nil_r by discriminate.
Qed.

Lemma replace_contains_new (s old new : str) :
  old <> [] -> contains s old = true -> contains (replace s old new) new = true.
Proof.
  intros Hne. induction s as [|c s IH]; intros H.
  - destruct old; [congruence | discriminate].
  - destruct (startswith (c :: s) old) eqn:E.
    + apply startswith_spec in E as [r Hr]. rewrite Hr.
      rewrite replace_match by exact Hne.
      apply contains_spec. now exists [], (replace r old new).
    + rewrite replace_step by assumption.
      simpl in H. rewrite E in H. simpl in H.
      change (c :: replace s old new) with ([c] ++ replace s old new).
      apply contains_app_l. now apply IH.
Qed.

(** Removing one character: [s.replace(c, '')] keeps the others. *)
Lemma replace_char_empty (s : str) (c : ascii) :
  replace s [c] [] = filter (fun x => negb (Ascii.eqb c x)) s.
Proof.
  induction s as [|x s IH]; [reflexivity|].
  destruct (Ascii.eqb c x) eqn:E.
  - apply Ascii.eqb_eq in E. subst x.
    change (c :: s) with ([c] ++ s). rewrite replace_match by discriminate.
    rewrite IH. simpl. now rewrite Ascii.eqb_refl.
  - rewrite replace_step.
    + rewrite IH. simpl. now rewrite E.
    + discriminate.
    + simpl. now rewrite E.
Qed.

(** Replacement works line by line when neither text holds a line feed. *)
Lemma split_replace_len (n : nat) (sep : ascii) (old new text : str) :
  (List.length text <= n)%nat ->
  old <> [] -> ~ In sep old -> ~ In sep new ->
  split sep (replace text old new)
  = map (fun l => replace l old new) (split sep text).
Proof.
  revert text. induction n as [|n IH]; intros text Hlen Hne Ho Hn.
  - destruct text; [|simpl in Hlen; lia].
    rewrite replace_nil by exact Hne. simpl. now rewrite replace_nil.
  - destruct text as [|c t].
    + rewrite replace_nil by exact Hne. simpl. now rewrite replace_nil.
    + destruct (startswith (c :: t) old) eqn:E.
      * apply startswith_spec in E as [rest Hr]. rewrite Hr.
        rewrite replace_match by exact Hne.
        assert (Hl : (List.length rest <= n)%nat).
        { apply (f_equal (@List.length ascii)) in Hr.
          rewrite length_app in Hr. simpl in Hr, Hlen.
          destruct old; [congruence|]. simpl in Hr. lia. }
        specialize (IH rest Hl Hne Ho Hn).
        destruct (split_app_nosep sep new (replace rest old new) Hn)
          as [hd [tl [S1 S2]]].
        destruct (split_app_nosep sep old rest Ho) as [hd' [tl' [S1' S2']]].
        rewrite S2, S2'. rewrite S1, S1' in IH. simpl in IH.
        injection IH as -> ->. simpl. now rewrite replace_match.
      * rewrite replace_step by assumption.
        assert (Hl : (List.length t <= n)%nat) by (simpl in Hlen; lia).
        specialize (IH t Hl Hne Ho Hn).
        destruct (ascii_dec c sep) as [->|Hc].
        -- rewrite !split_cons_sep, IH. simpl. now rewrite replace_nil.
        -- destruct (split_cons_other sep c t Hc) as [w [ws [S1 S2]]].
           destruct (split_cons_other sep c (replace t old new) Hc)
             as [w' [ws' [T1 T2]]].
           rewrite S2, T2. rewrite S1, T1 in IH. simpl in IH.
           injection IH as -> ->. simpl. f_equal.
           rewrite replace_step; [reflexivity | exact Hne |].
           destruct (startswith (c :: w) old) eqn:F; [|reflexivity].
           exfalso. assert (G : startswith (c :: t) old = true).
           { pose proof (join_split sep t) as J. rewrite S1 in J.
             destruct ws as [|y ws].
             - simpl in J. now rewrite <- J.
             - rewrite join_cons in J. rewrite <- J.
               change (c :: w ++ [sep] ++ join [sep] (y :: ws))
                 with ((c :: w) ++ [sep] ++ join [sep] (y :: ws)).
               now apply startswith_extend. }
           congruence.
Qed.

Lemma split_replace (sep : ascii) (old new text : str) :
  old <> [] -> ~ In sep old -> ~ In sep new ->
  split sep (replace text old new)
  = map (fun l => replace l old new) (split sep text).
Proof. now apply (split_replace_len (List.length text)). Qed.

(** ** Carriage returns and the table as it is read *)

Lemma not_in_contains (c : ascii) (s rest : str) :
  ~ In c s -> contains s (c :: rest) = false.
Proof.
  intros H. destruct (contains s (c :: rest)) eqn:E; [|reflexivity].
  apply contains_spec in E. destruct E as [a [b ->]].
  exfalso. apply H. apply in_or_app. right. now left.
Qed.

Lemma replace_keeps_out (c : ascii) (old new s : str) :
  old <> [] -> ~ In c s -> ~ In c new -> ~ In c (replace s old new).
Proof.
  intros Hold Hs Hnew.
  assert (H : forall n s, (List.length s < n)%nat -> ~ In c s ->
                ~ In c (replace s old new)).
  { clear s Hs. induction n as [|n IH]; intros s Hl Hs; [lia|].
    destruct s as [|x s]; [now rewrite replace_nil|].
    destruct (startswith (x :: s) old) eqn:E.
    - apply startswith_spec in E. destruct E as [r Hr].
      rewrite Hr, replace_match by exact Hold.
      intros H. apply in_app_or in H. destruct H as [H | H];
        [contradiction|]. revert H. apply IH.
      + apply (f_equal (@List.length ascii)) in Hr.
        rewrite length_app in Hr. destruct old; [congruence|].
        simpl in Hr, Hl. lia.
      + intros H. apply Hs. rewrite Hr. apply in_or_app. now right.
    - rewrite replace_step by assumption.
      intros [H | H]; [apply Hs; now left|]. revert H. apply IH.
      + simpl in Hl. lia.
      + intros H. apply Hs. now right. }
  apply (H (S (List.length s))); [lia | exact Hs].
Qed.

Lemma replace_char_out (c : ascii) (new s : str) :
  ~ In c new -> ~ In c (replace s [c] new).
Proof.
  intros Hnew. induction s as [|x s IH].
  - rewrite replace_nil by discriminate. intros [].
  - destruct (Ascii.eqb c x) eqn:E.
    + apply Ascii.eqb_eq in E. subst x.
      change (c :: s) with ([c] ++ s). rewrite replace_match by discriminate.
      intros H. apply in_app_or in H. tauto.
    + rewrite replace_step; [|discriminate | simpl; now rewrite E].
      intros [H | H]; [|contradiction].
      subst x. now rewrite Ascii.eqb_refl in E.
Qed.

Lemma translate_newlines_fixed (s : str) :
  ~ In CR s -> CrontabManager.translate_newlines s = s.
Proof.
  intros H. unfold CrontabManager.translate_newlines.
  rewrite (replace_absent s [CR; LF] [LF]);
    [|discriminate | now apply not_in_contains].
  apply replace_absent; [discriminate | now apply not_in_contains].
Qed.

Lemma translate_newlines_no_cr (s : str) : ~ In CR (CrontabManager.translate_newlines s).
Proof.
  unfold CrontabManager.translate_newlines. apply replace_char_out.
  intros [H | []]. discriminate.
Qed.

(** The table the program reads holds no carriage return. *)
Lemma crontab_no_cr (w : CrontabManager.world) : ~ In CR (CrontabManager.crontab w).
Proof. apply translate_newlines_no_cr. Qed.

Lemma join_in (sep l : str) (ls : list str) (c : ascii) :
  In l ls -> In c l -> In c (join sep ls).
Proof.
  induction ls as [|x ls IH]; [intros []|].
  intros Hl Hc. destruct ls as [|y ls].
  - destruct Hl as [<- | []]. exact Hc.
  - rewrite join_cons. destruct Hl as [<- | Hl].
    + apply in_or_app. now left.
    + apply in_or_app. right. apply in_or_app. right. now apply IH.
Qed.

Lemma join_chars (sep : str) (ls : list str) (c : ascii) :
  In c (join sep ls) -> In c sep \/ exists l, In l ls /\ In c l.
Proof.
  induction ls as [|x ls IH]; [intros []|].
  destruct ls as [|y ls].
  - intros H. right. exists x. split; [now left | exact H].
  - rewrite join_cons. intros H. apply in_app_or in H.
    destruct H as [H | H].
    + right. exists x. split; [now left | exact H].
    + apply in_app_or in H. destruct H as [H | H]; [now left|].
      destruct (IH H) as [Hs | [l [Hl Hc]]]; [now left|].
      right. exists l. split; [now right | exact Hc].
Qed.

Lemma split_chars (sep c : ascii) (s l : str) :
  In l (split sep s) -> In c l -> In c s.
Proof.
  intros Hl Hc. rewrite <- (join_split sep s).
  exact (join_in [sep] l _ c Hl Hc).
Qed.

Lemma CR_not_LF : CR <> LF.
Proof.
  intros H. apply (f_equal nat_of_ascii) in H. vm_compute in H. discriminate.
Qed.

Lemma join_filter_keeps_out (c : ascii) (keep : str -> bool) (text : str) :
  c <> LF -> ~ In c text ->
  ~ In c (join [LF] (filter keep (split LF text))).
Proof.
  intros Hc Ht H. apply join_chars in H.
  destruct H as [[H | []] | [l [Hl Hin]]]; [congruence|].
  apply filter_In in Hl. destruct Hl as [Hl _].
  apply Ht. exact (split_chars LF c text l Hl Hin).
Qed.


Import CrontabManager.

(** ** The override test *)

(** [app.py]: the answer is true exactly when an end time is set and lies
    strictly after [now]; the function never raises. *)
Lemma app_should_skip_spec (st : App.state) (now : Q) :
  exists b, App.should_skip_crontab_off st now = Ok b
    /\ (b = true <->
        exists end_time, App.timer_end_time st = Some end_time
                         /\ (0 < end_time - now)%Q).
Proof.
  unfold App.should_skip_crontab_off.
  destruct (App.timer_end_time st) as [e|].
  - destruct (Qle_bool (e - now) 0) eqn:E; simpl.
    + exists false. split; [reflexivity|]. split; [discriminate|].
      intros [e' [He Hlt]]. injection He as <-.
      apply Qle_bool_iff in E. exfalso. exact (Qlt_not_le _ _ Hlt E).
    + exists true. split; [reflexivity|]. split; [|reflexivity].
      intros _. exists e. split; [reflexivity|].
      apply Qnot_le_lt. intros H. apply Qle_bool_iff in H. congruence.
  - exists false. split; [reflexivity|]. split; [discriminate|].
    intros [e [He _]]. discriminate.
Qed.

(** C9 (the version in [crontab_manager.py]): whenever an end time is set,
    the call raises [NameError], because the module never imports [time];
    it does not return true for an end time in the future. *)
Theorem should_skip_crontab_off_raises (end_time now : Q) :
  CrontabManager.should_skip_crontab_off (Some end_time) now
  = Raise (NameError "time").
Proof. reflexivity. Qed.

(** ** Weekday sets *)

Lemma str_eqb_neq (a b : str) : str_eqb a b = false <-> a <> b.
Proof.
  unfold str_eqb. destruct (list_eq_dec ascii_dec a b); split; congruence.
Qed.

Lemma in_range (a b i : Z) : In i (range a b) <-> (a <= i < b)%Z.
Proof.
  unfold range. rewrite in_map_iff. split.
  - intros [k [<- Hk]]. apply in_seq in Hk. lia.
  - intros H. exists (Z.to_nat (i - a)). split; [lia|]. apply in_seq. lia.
Qed.

Lemma parse_weekday_parts_acc (parts : list str) (acc : list Z) :
  parse_weekday_parts parts acc
  = bind (parse_weekday_parts parts []) (fun r => Ok (acc ++ r)).
Proof.
  revert acc. induction parts as [|p parts IH]; intros acc; simpl.
  - now rewrite app_nil_r.
  - destruct (parse_weekday_part p) as [ws|e]; simpl; [|reflexivity].
    rewrite (IH (acc ++ ws)), (IH ws).
    destruct (parse_weekday_parts parts []); simpl; [|reflexivity].
    now rewrite app_assoc.
Qed.

(** A term that is not [*] and holds no comma is parsed as one part. *)
Lemma parse_weekday_term (t : str) :
  t <> lit "*" -> ~ In ","%char t ->
  parse_weekday t = parse_weekday_part t.
Proof.
  intros Hs Hc. unfold parse_weekday.
  rewrite (proj2 (str_eqb_neq _ _) Hs), split_nosep by exact Hc.
  simpl. now destruct (parse_weekday_part t).
Qed.

Lemma join_comma_not_star (terms : list str) :
  terms <> [] -> (forall t, In t terms -> t <> lit "*") ->
  join [","%char] terms <> lit "*".
Proof.
  intros Hne Hall. destruct terms as [|x [|y l]]; [congruence| |].
  - simpl. apply Hall. now left.
  - rewrite join_cons. intros H.
    assert (Hin : In ","%char (lit "*")).
    { rewrite <- H. apply in_or_app. right. now left. }
    simpl in Hin. destruct Hin as [E | []]. discriminate.
Qed.

Lemma Forall2_in_left {A B : Type} (P : A -> B -> Prop) (l1 : list A)
  (l2 : list B) (x : A) :
  Forall2 P l1 l2 -> In x l1 -> exists y, In y l2 /\ P x y.
Proof.
  induction 1 as [|a b l1 l2 Hab HF IH]; intros Hin; [destruct Hin|].
  destruct Hin as [<- | Hin].
  - exists b. split; [now left | exact Hab].
  - destruct (IH Hin) as [y [Hy Hp]]. exists y. split; [now right | exact Hp].
Qed.

Lemma parse_weekday_comma_list (terms : list str) (sets : list (list Z)) :
  terms <> [] ->
  Forall2 (fun t l => t <> lit "*" /\ ~ In ","%char t
                      /\ parse_weekday t = Ok l) terms sets ->
  parse_weekday (join [","%char] terms) = Ok (List.concat sets).
Proof.
  intros Hne HF.
  assert (Hstar : forall t, In t terms -> t <> lit "*").
  { intros t Ht. destruct (Forall2_in_left _ _ _ t HF Ht) as [l [_ H]].
    tauto. } 
  assert (Hcomma : forall t, In t terms -> ~ In ","%char t).
  { intros t Ht. destruct (Forall2_in_left _ _ _ t HF Ht) as [l [_ H]].
    tauto. }
  unfold parse_weekday.
  rewrite (proj2 (str_eqb_neq _ _) (join_comma_not_star terms Hne Hstar)).
  rewrite split_join by assumption. clear Hne Hstar Hcomma.
  induction HF as [|t l terms sets [Hs [Hc Hp]] HF IH]; [reflexivity|].
  simpl. rewrite <- parse_weekday_term, Hp by assumption. simpl.
  rewrite parse_weekday_parts_acc, IH. reflexivity.
Qed.

(** C3: [parse_weekday] on [*], on a dash range of two digits, on [1-5],
    and on a comma list of terms; the conversion is [cron_to_python_weekday]:
    0 becomes 6 and 1..6 become 0..5. *)
Theorem parse_weekday_sets :
  parse_weekday (lit "*") = Ok [0; 1; 2; 3; 4; 5; 6]%Z
  /\ (forall a b : Z, (0 <= a <= b)%Z -> (b <= 6)%Z ->
      parse_weekday (digit_str a ++ lit "-" ++ digit_str b)
        = Ok (map cron_to_python_weekday (range a (b + 1)))
      /\ forall x, In x (map cron_to_python_weekday (range a (b + 1)))
                   <-> exists i, (a <= i <= b)%Z /\ x = cron_to_python_weekday i)
  /\ (cron_to_python_weekday 0 = 6%Z
      /\ forall n : Z, (1 <= n <= 6)%Z -> cron_to_python_weekday n = (n - 1)%Z)
  /\ parse_weekday (lit "1-5") = Ok [0; 1; 2; 3; 4]%Z
  /\ (forall (terms : list str) (sets : list (list Z)),
      terms <> [] ->
      Forall2 (fun t l => t <> lit "*" /\ ~ In ","%char t
                          /\ parse_weekday t = Ok l) terms sets ->
      parse_weekday (join [","%char] terms) = Ok (List.concat sets)
      /\ forall x, In x (List.concat sets) <-> exists l, In l sets /\ In x l).
Proof.
  split; [reflexivity|]. split; [|split; [|split; [reflexivity|]]].
  - intros a b Hab Hb. split.
    + assert (Ha : (a = 0 \/ a = 1 \/ a = 2 \/ a = 3 \/ a = 4 \/ a = 5 \/ a = 6)%Z)
        by lia.
      assert (Hb' : (b = 0 \/ b = 1 \/ b = 2 \/ b = 3 \/ b = 4 \/ b = 5 \/ b = 6)%Z)
        by lia.
      destruct Ha as [->|[->|[->|[->|[->|[->| ->]]]]]];
        destruct Hb' as [->|[->|[->|[->|[->|[->| ->]]]]]];
        try lia; reflexivity.
    + intros x. rewrite in_map_iff. split.
      * intros [i [<- Hi]]. apply in_range in Hi. exists i. split; [lia | reflexivity].
      * intros [i [Hi ->]]. exists i. split; [reflexivity|]. apply in_range. lia.
  - split; [reflexivity|]. intros n Hn. unfold cron_to_python_weekday.
    destruct (Z.eqb_spec n 0); [lia | reflexivity].
  - intros terms sets Hne HF. split.
    + now apply parse_weekday_comma_list.
    + intros x. rewrite in_concat. split; intros [l H]; exists l; tauto.
Qed.

(** ** The next run *)

Lemma int_in_spec (x : Z) (l : list Z) : int_in x l = true <-> In x l.
Proof.
  unfold int_in. rewrite existsb_exists. split.
  - intros [y [Hy E]]. apply Z.eqb_eq in E. now subst.
  - intros H. exists x. split; [exact H | apply Z.eqb_refl].
Qed.

Lemma time_fields_ok_spec (h m s us : Z) :
  Datetime.time_fields_ok h m s us = true
  <-> (0 <= h <= 23 /\ 0 <= m <= 59 /\ 0 <= s <= 59 /\ 0 <= us <= 999999)%Z.
Proof.
  unfold Datetime.time_fields_ok. rewrite !andb_true_iff, !Z.leb_le. lia.
Qed.

Lemma date_ok_spec (o : Z) :
  Datetime.date_ok o = true <-> (1 <= o <= Datetime.MAXORDINAL)%Z.
Proof. unfold Datetime.date_ok. rewrite andb_true_iff, !Z.leb_le. lia. Qed.

(** On equal times of day, an instant of a later or the same day is not
    earlier. *)
Lemma ltb_same_time (a b : Datetime.datetime) :
  (Datetime.ordinal b <= Datetime.ordinal a)%Z ->
  Datetime.hour a = Datetime.hour b ->
  Datetime.minute a = Datetime.minute b ->
  Datetime.second a = Datetime.second b ->
  Datetime.microsecond a = Datetime.microsecond b ->
  Datetime.ltb a b = false.
Proof.
  intros Ho Hh Hm Hs Hu. unfold Datetime.ltb, Datetime.compare.
  rewrite Hh, Hm, Hs, Hu, !Z.compare_refl.
  destruct (Z.compare_spec (Datetime.ordinal a) (Datetime.ordinal b));
    [reflexivity | lia | reflexivity].
Qed.

Section NextRun.

Variables (weekdays : list Z) (h m : Z) (from_time : Datetime.datetime).

Hypothesis h_range : (0 <= h <= 23)%Z.
Hypothesis m_range : (0 <= m <= 59)%Z.
Hypothesis from_valid : Datetime.valid from_time.

Let o0 : Z := Datetime.ordinal from_time.

(** The value of [check_time] on day [k] of the walk. *)
Let check (k : Z) : Datetime.datetime :=
  Datetime.mk (o0 + k) (Datetime.hour from_time) (Datetime.minute from_time) 0 0.

Let run (k : Z) : Datetime.datetime := Datetime.mk (o0 + k) h m 0 0.

Lemma run_instant_on_day (r : Datetime.datetime) (k : Z) :
  run_instant weekdays h m from_time r ->
  Datetime.ordinal r = (o0 + k)%Z -> r = run k.
Proof.
  intros [_ [_ [Hh [Hm [Hs [Hu _]]]]]] Ho. destruct r as [o hh mm ss us].
  simpl in *. subst. reflexivity.
Qed.

Lemma replace_check (k : Z) :
  Datetime.replace (check k) (Some h) (Some m) None None = Ok (run k).
Proof.
  unfold Datetime.replace, check, run. simpl.
  now rewrite (proj2 (time_fields_ok_spec h m 0 0)) by lia.
Qed.

Lemma add_days_check (k : Z) :
  Datetime.add_days (check k) 1
  = if Datetime.date_ok (o0 + (k + 1)) then Ok (check (k + 1))
    else Raise OverflowError.
Proof.
  unfold Datetime.add_days, check. simpl.
  now replace (o0 + k + 1)%Z with (o0 + (k + 1))%Z by lia.
Qed.

(** The walk from day [k] on, for [n] more days, when no run instant lies
    on an earlier day. *)
Lemma next_run_loop_spec (n : nat) (k : Z) :
  (0 <= k)%Z -> Datetime.date_ok (o0 + k) = true ->
  (forall r, run_instant weekdays h m from_time r ->
             (o0 <= Datetime.ordinal r)%Z -> (o0 + k <= Datetime.ordinal r)%Z) ->
  match next_run_loop n weekdays h m from_time (check k) with
  | Ok (Some r) =>
      run_instant weekdays h m from_time r
      /\ (o0 + k <= Datetime.ordinal r < o0 + k + Z.of_nat n)%Z
      /\ forall r', run_instant weekdays h m from_time r' ->
                    (o0 <= Datetime.ordinal r')%Z -> Datetime.ltb r' r = false
  | Ok None =>
      forall r, run_instant weekdays h m from_time r ->
                (o0 <= Datetime.ordinal r)%Z ->
                (o0 + k + Z.of_nat n <= Datetime.ordinal r)%Z
  | Raise _ =>
      forall r, run_instant weekdays h m from_time r ->
                (o0 <= Datetime.ordinal r)%Z -> False
  end.
Proof.
  revert k. induction n as [|n IH]; intros k Hk Hdate Hpre.
  - simpl. intros r Hr Ho. specialize (Hpre r Hr Ho). lia.
  - cbn [next_run_loop]. rewrite replace_check.
    assert (Hnext :
      (forall r, run_instant weekdays h m from_time r ->
                 Datetime.ordinal r <> (o0 + k)%Z) ->
      match
        bind (Datetime.add_days (check k) 1)
          (fun check_time' =>
             next_run_loop n weekdays h m from_time check_time')
      with
      | Ok (Some r) =>
          run_instant weekdays h m from_time r
          /\ (o0 + k <= Datetime.ordinal r < o0 + k + Z.of_nat (S n))%Z
          /\ forall r', run_instant weekdays h m from_time r' ->
                        (o0 <= Datetime.ordinal r')%Z ->
                        Datetime.ltb r' r = false
      | Ok None =>
          forall r, run_instant weekdays h m from_time r ->
                    (o0 <= Datetime.ordinal r)%Z ->
                    (o0 + k + Z.of_nat (S n) <= Datetime.ordinal r)%Z
      | Raise _ =>
          forall r, run_instant weekdays h m from_time r ->
                    (o0 <= Datetime.ordinal r)%Z -> False
      end).
    { intros Hnone.
      assert (Hpre' : forall r, run_instant weekdays h m from_time r ->
                (o0 <= Datetime.ordinal r)%Z ->
                (o0 + (k + 1) <= Datetime.ordinal r)%Z).
      { intros r Hr Ho. specialize (Hpre r Hr Ho). specialize (Hnone r Hr). lia. }
      rewrite add_days_check.
      destruct (Datetime.date_ok (o0 + (k + 1))) eqn:D; simpl.
      - specialize (IH (k + 1)%Z ltac:(lia) D Hpre').
        destruct (next_run_loop n weekdays h m from_time (check (k + 1)))
          as [[r|]|e].
        + destruct IH as [Hr [Hw Hmin]]. split; [exact Hr|]. split; [lia | exact Hmin].
        + intros r Hr Ho. specialize (IH r Hr Ho). lia.
        + exact IH.
      - intros r Hr Ho. specialize (Hpre' r Hr Ho).
        destruct Hr as [[Hd _] _]. apply date_ok_spec in Hd, Hdate.
        destruct (date_ok_spec (o0 + (k + 1))) as [_ Hc].
        assert (Datetime.date_ok (o0 + (k + 1)) = true) by (apply Hc; lia).
        congruence. }
    destruct (int_in (Datetime.weekday (check k)) weekdays) eqn:W; cbn [bind].
    + destruct (Datetime.ltb from_time (run k)) eqn:L.
      * split; [|split].
        -- unfold run_instant. repeat split; try reflexivity.
           ++ exact Hdate.
           ++ apply time_fields_ok_spec. simpl. lia.
           ++ apply int_in_spec. exact W.
           ++ exact L.
        -- simpl. lia.
        -- intros r' Hr' Ho. specialize (Hpre r' Hr' Ho).
           destruct Hr' as [_ [_ [Hh [Hm [Hs [Hu _]]]]]].
           apply ltb_same_time; simpl; try assumption.
      * apply Hnext. intros r Hr Ho.
        rewrite (run_instant_on_day r k Hr Ho) in Hr.
        destruct Hr as [_ [_ [_ [_ [_ [_ Hl]]]]]]. congruence.
    + apply Hnext. intros r Hr Ho.
      rewrite (run_instant_on_day r k Hr Ho) in Hr.
      destruct Hr as [_ [Hin _]]. apply int_in_spec in Hin.
      unfold Datetime.weekday in *. simpl in *. congruence.
Qed.

End NextRun.

(** C2: with hour and minute in range and a weekday field that parses,
    [calculate_next_run] returns the earliest candidate of the 8 days that
    start with the day of [from_time], or nothing when there is none; the
    day and month fields play no part. *)
Theorem calculate_next_run_earliest (s : schedule)
  (from_time : Datetime.datetime) (h m : Z) (weekdays : list Z) :
  int (hour s) = Ok h -> int (minute s) = Ok m ->
  (0 <= h <= 23)%Z -> (0 <= m <= 59)%Z ->
  parse_weekday (weekday s) = Ok weekdays ->
  Datetime.valid from_time ->
  match calculate_next_run s from_time with
  | Some r =>
      run_candidate weekdays h m from_time r
      /\ forall r', run_candidate weekdays h m from_time r' ->
                    Datetime.ltb r' r = false
  | None => forall r', ~ run_candidate weekdays h m from_time r'
  end
  /\ forall (day' month' : str) (from_time' : Datetime.datetime),
       calculate_next_run
         (mk_schedule (id s) (minute s) (hour s) day' month' (weekday s)
            (action s) (command s) (enabled s) (raw s)) from_time'
       = calculate_next_run s from_time'.
Proof.
  intros Hh Hm Hhr Hmr Hw Hv. split; [|reflexivity].
  unfold calculate_next_run. rewrite Hh, Hm, Hw. cbn [bind].
  destruct Hv as [Hd Ht]. pose proof Ht as Ht'.
  apply time_fields_ok_spec in Ht'.
  unfold Datetime.replace.
  rewrite (proj2 (time_fields_ok_spec _ _ 0 0)) by lia. cbn [bind].
  pose proof (next_run_loop_spec weekdays h m from_time Hhr Hmr 8 0
                ltac:(lia)) as L.
  cbv zeta in L.
  rewrite Z.add_0_r in L. specialize (L Hd ltac:(intros; lia)).
  assert (E : Datetime.mk (Datetime.ordinal from_time + 0)
                (Datetime.hour from_time) (Datetime.minute from_time) 0 0
              = Datetime.mk (Datetime.ordinal from_time)
                  (Datetime.hour from_time) (Datetime.minute from_time) 0 0)
    by (f_equal; lia).
  rewrite E in L. clear E.
  match type of L with
  | match ?X with _ => _ end => destruct X as [[r|]|e]
  end; cbv beta iota.
  - destruct L as [Hr [Hwin Hmin]]. split.
    + split; [exact Hr | lia].
    + intros r' [Hr' Hwin']. apply Hmin; [exact Hr' | lia].
  - intros r' [Hr' Hwin']. specialize (L r' Hr'). lia.
  - intros r' [Hr' Hwin']. apply (L r' Hr'). lia.
Qed.

(** A computed next run is a [datetime] value at a whole minute. *)
Lemma calculate_next_run_shape (s : schedule) (from_time r : Datetime.datetime) :
  Datetime.date_ok (Datetime.ordinal from_time) = true ->
  calculate_next_run s from_time = Some r ->
  Datetime.valid r /\ Datetime.second r = 0%Z.
Proof.
  intros Hd. unfold calculate_next_run.
  destruct (int (hour s)) as [h|]; [|discriminate].
  destruct (int (minute s)) as [m|]; [|discriminate].
  destruct (parse_weekday (weekday s)) as [wds|]; [|discriminate].
  cbn [bind].
  destruct (Datetime.replace from_time None None (Some 0%Z) (Some 0%Z))
    as [c|] eqn:C; [|discriminate]. cbn [bind].
  assert (Hc : Datetime.date_ok (Datetime.ordinal c) = true
               /\ Datetime.second c = 0%Z).
  { unfold Datetime.replace in C.
    destruct (Datetime.time_fields_ok _ _ _ _); [|discriminate].
    injection C as <-. split; [exact Hd | reflexivity]. }
  clear C Hd. generalize 8%nat. intros n. revert c Hc.
  induction n as [|n IH]; intros c [Hc Hs]; [discriminate|].
  cbn [next_run_loop].
  assert (Hnext :
    match bind (Datetime.add_days c 1)
            (fun c' => next_run_loop n wds h m from_time c') with
    | Ok next_run => next_run
    | Raise _ => None
    end = Some r -> Datetime.valid r /\ Datetime.second r = 0%Z).
  { unfold Datetime.add_days.
    destruct (Datetime.date_ok (Datetime.ordinal c + 1)) eqn:D;
      [|discriminate]. cbn [bind]. apply IH. split; [exact D | exact Hs]. }
  destruct (int_in (Datetime.weekday c) wds); cbn [bind]; [|exact Hnext].
  unfold Datetime.replace at 1.
  destruct (Datetime.time_fields_ok h m (Datetime.second c)
              (Datetime.microsecond c)) eqn:T; [|discriminate].
  cbn [bind].
  destruct (Datetime.ltb from_time _); [|exact Hnext].
  intros E. injection E as <-. unfold Datetime.valid. simpl.
  repeat split; assumption.
Qed.

Lemma calculate_next_run_earliest_witness :
  int (hour Samples.schedule_off) = Ok 17%Z
  /\ int (minute Samples.schedule_off) = Ok 0%Z
  /\ (0 <= 17 <= 23)%Z /\ (0 <= 0 <= 59)%Z
  /\ parse_weekday (weekday Samples.schedule_off) = Ok [0; 1; 2; 3; 4]%Z
  /\ Datetime.valid Samples.afternoon
  /\ calculate_next_run Samples.schedule_off Samples.afternoon
     = Some (Datetime.mk 738888 17 0 0 0)
  /\ (match calculate_next_run Samples.schedule_off Samples.afternoon with
      | Some r =>
          run_candidate [0; 1; 2; 3; 4]%Z 17 0 Samples.afternoon r
          /\ forall r', run_candidate [0; 1; 2; 3; 4]%Z 17 0 Samples.afternoon r' ->
                        Datetime.ltb r' r = false
      | None =>
          forall r', ~ run_candidate [0; 1; 2; 3; 4]%Z 17 0 Samples.afternoon r'
      end
      /\ forall (day' month' : str) (from_time' : Datetime.datetime),
           calculate_next_run
             (mk_schedule (id Samples.schedule_off) (minute Samples.schedule_off)
                (hour Samples.schedule_off) day' month'
                (weekday Samples.schedule_off) (action Samples.schedule_off)
                (command Samples.schedule_off) (enabled Samples.schedule_off)
                (raw Samples.schedule_off)) from_time'
           = calculate_next_run Samples.schedule_off from_time').
Proof.
  assert (H1 : int (hour Samples.schedule_off) = Ok 17%Z) by reflexivity.
  assert (H2 : int (minute Samples.schedule_off) = Ok 0%Z) by reflexivity.
  assert (H3 : (0 <= 17 <= 23)%Z) by lia.
  assert (H4 : (0 <= 0 <= 59)%Z) by lia.
  assert (H5 : parse_weekday (weekday Samples.schedule_off)
               = Ok [0; 1; 2; 3; 4]%Z) by reflexivity.
  assert (H6 : Datetime.valid Samples.afternoon) by (split; reflexivity).
  refine (conj H1 (conj H2 (conj H3 (conj H4 (conj H5 (conj H6 (conj _ _))))))).
  - reflexivity.
  - exact (calculate_next_run_earliest Samples.schedule_off Samples.afternoon
             17 0 [0; 1; 2; 3; 4]%Z H1 H2 H3 H4 H5 H6).
Defined.

(** ** Ordering of instants *)

Lemma datetime_ltb_spec (a b : Datetime.datetime) :
  Datetime.ltb a b = true <->
  (Datetime.ordinal a < Datetime.ordinal b
   \/ Datetime.ordinal a = Datetime.ordinal b
      /\ (Datetime.hour a < Datetime.hour b
          \/ Datetime.hour a = Datetime.hour b
             /\ (Datetime.minute a < Datetime.minute b
                 \/ Datetime.minute a = Datetime.minute b
                    /\ (Datetime.second a < Datetime.second b
                        \/ Datetime.second a = Datetime.second b
                           /\ Datetime.microsecond a
                              < Datetime.microsecond b))))%Z.
Proof.
  unfold Datetime.ltb, Datetime.compare.
  destruct (Z.compare_spec (Datetime.ordinal a) (Datetime.ordinal b));
    [|split; [lia | reflexivity] | split; [discriminate | lia]].
  destruct (Z.compare_spec (Datetime.hour a) (Datetime.hour b));
    [|split; [lia | reflexivity] | split; [discriminate | lia]].
  destruct (Z.compare_spec (Datetime.minute a) (Datetime.minute b));
    [|split; [lia | reflexivity] | split; [discriminate | lia]].
  destruct (Z.compare_spec (Datetime.second a) (Datetime.second b));
    [|split; [lia | reflexivity] | split; [discriminate | lia]].
  destruct (Z.compare_spec (Datetime.microsecond a) (Datetime.microsecond b));
    [split; [discriminate | lia] | split; [lia | reflexivity]
    | split; [discriminate | lia]].
Qed.

Lemma datetime_ltb_false (a b : Datetime.datetime) :
  Datetime.ltb a b = false <-> ~ (Datetime.ltb a b = true).
Proof. destruct (Datetime.ltb a b); split; congruence. Qed.

Lemma datetime_ltb_asym (a b : Datetime.datetime) :
  Datetime.ltb a b = true -> Datetime.ltb b a = false.
Proof.
  intros H. apply datetime_ltb_false. rewrite datetime_ltb_spec in *. lia.
Qed.

Lemma datetime_le_trans (a b c : Datetime.datetime) :
  Datetime.ltb b a = false -> Datetime.ltb c b = false ->
  Datetime.ltb c a = false.
Proof.
  rewrite !datetime_ltb_false, !datetime_ltb_spec. lia.
Qed.

Lemma datetime_eqb_eq (a b : Datetime.datetime) :
  Datetime.eqb a b = true <-> a = b.
Proof.
  unfold Datetime.eqb, Datetime.compare. split.
  - destruct a as [oa ha ma sa ua], b as [ob hb mb sb ub]. simpl.
    destruct (Z.compare_spec oa ob); try discriminate.
    destruct (Z.compare_spec ha hb); try discriminate.
    destruct (Z.compare_spec ma mb); try discriminate.
    destruct (Z.compare_spec sa sb); try discriminate.
    destruct (Z.compare_spec ua ub); try discriminate.
    intros _. now subst.
  - intros ->. now rewrite !Z.compare_refl.
Qed.

(** ** The stable sort *)

Section SortFacts.

Variables (A K : Type) (ltb : K -> K -> bool) (key : A -> K).
Variable keq : K -> K -> bool.

Hypothesis ltb_asym : forall a b, ltb a b = true -> ltb b a = false.
Hypothesis le_trans :
  forall a b c, ltb b a = false -> ltb c b = false -> ltb c a = false.
Hypothesis keq_eq : forall a b, keq a b = true <-> a = b.

(** [a] may stand before [b]: the key of [b] is not smaller. *)
Let ordered (a b : A) : Prop := ltb (key b) (key a) = false.

Lemma sort_insert_perm (x : A) (l : list A) :
  Permutation (x :: l) (sort_insert ltb key x l).
Proof.
  induction l as [|y l IH]; simpl; [apply Permutation_refl|].
  destruct (ltb (key y) (key x)); [|apply Permutation_refl].
  eapply perm_trans; [apply perm_swap|]. now apply perm_skip.
Qed.

Lemma list_sort_perm (l : list A) : Permutation l (list_sort ltb key l).
Proof.
  induction l as [|x l IH]; simpl; [apply perm_nil|].
  eapply perm_trans; [apply perm_skip, IH | apply sort_insert_perm].
Qed.

Lemma sort_insert_sorted (x : A) (l : list A) :
  StronglySorted ordered l -> StronglySorted ordered (sort_insert ltb key x l).
Proof.
  induction 1 as [|y l Hs IH Hy]; simpl.
  - constructor; constructor.
  - destruct (ltb (key y) (key x)) eqn:E.
    + constructor; [exact IH|].
      apply (Permutation_Forall (sort_insert_perm x l)).
      constructor; [|exact Hy]. unfold ordered. now apply ltb_asym.
    + constructor; [now constructor|]. constructor; [exact E|].
      rewrite Forall_forall in *. intros z Hz. unfold ordered in *.
      eapply le_trans; [exact E | now apply Hy].
Qed.

Lemma list_sort_sorted (l : list A) :
  StronglySorted ordered (list_sort ltb key l).
Proof.
  induction l as [|x l IH]; simpl; [constructor|].
  now apply sort_insert_sorted.
Qed.

Lemma ltb_irrefl (a : K) : ltb a a = false.
Proof.
  destruct (ltb a a) eqn:E; [|reflexivity].
  pose proof (ltb_asym _ _ E) as E'. congruence.
Qed.

(** Insertion passes [x] only over keys strictly below its own, so the
    elements of any one key keep their order. *)
Lemma sort_insert_filter (k : K) (x : A) (l : list A) :
  filter (fun a => keq (key a) k) (sort_insert ltb key x l)
  = filter (fun a => keq (key a) k) (x :: l).
Proof.
  induction l as [|y l IH]; [reflexivity|]. simpl sort_insert.
  destruct (ltb (key y) (key x)) eqn:E; [|reflexivity].
  simpl filter in *. rewrite IH.
  destruct (keq (key x) k) eqn:Ex; [|reflexivity].
  destruct (keq (key y) k) eqn:Ey; [|reflexivity].
  apply keq_eq in Ex, Ey. rewrite Ex, Ey, ltb_irrefl in E. discriminate.
Qed.

Lemma list_sort_stable (k : K) (l : list A) :
  filter (fun a => keq (key a) k) (list_sort ltb key l)
  = filter (fun a => keq (key a) k) l.
Proof.
  induction l as [|x l IH]; [reflexivity|]. simpl list_sort.
  rewrite sort_insert_filter. simpl. now rewrite IH.
Qed.

End SortFacts.

Lemma StronglySorted_after {A : Type} (R : A -> A -> Prop) (l1 : list A)
  (x : A) (l2 : list A) :
  StronglySorted R (l1 ++ x :: l2) -> Forall (R x) l2.
Proof.
  induction l1 as [|y l1 IH]; simpl; intros H.
  - now apply StronglySorted_inv in H.
  - apply StronglySorted_inv in H. now apply IH.
Qed.

Lemma before_datetime_max (r : Datetime.datetime) :
  Datetime.valid r -> Datetime.second r = 0%Z ->
  Datetime.ltb r Datetime.max = true.
Proof.
  intros [Hd Ht] Hs. apply date_ok_spec in Hd.
  apply time_fields_ok_spec in Ht. apply datetime_ltb_spec. simpl. lia.
Qed.

(** ** The registry *)

Section Registry.

Context {host : Host}.

Lemma find_schedule_none (schedule_id : Z) (schedules : list schedule) :
  (forall s, In s schedules -> id s <> schedule_id) ->
  find_schedule schedule_id schedules = None.
Proof.
  intros H. unfold find_schedule.
  destruct (find _ schedules) as [s|] eqn:F; [|reflexivity].
  apply find_some in F as [Hin E]. apply Z.eqb_eq in E.
  now apply H in Hin.
Qed.

(** C6: when no extracted schedule has the given id, [update_schedule] and
    [delete_schedule] return false and leave the world as it was: the table
    is unchanged and nothing was handed to [crontab]. *)
Theorem update_delete_not_found (schedule_id : Z) (u : updates) (w : world) :
  (forall s, In s (extract_iptv_schedules (crontab w)) ->
             id s <> schedule_id) ->
  update_schedule schedule_id u w = (false, w)
  /\ delete_schedule schedule_id w = (false, w).
Proof.
  intros H. apply find_schedule_none in H.
  assert (D : delete_schedule schedule_id w = (false, w)).
  { unfold delete_schedule, mbind, get_crontab. now rewrite H. }
  split; [|exact D].
  unfold update_schedule, mbind. now rewrite D.
Qed.

(** C7: [get_all_schedules] returns the extracted schedules, reordered so
    that the sort keys ascend; schedules with no next run come after all
    others, and schedules of equal key keep their order in the table. *)
Theorem get_all_schedules_sorted (now : Datetime.datetime) (w : world) :
  Datetime.valid now ->
  exists out,
    get_all_schedules now w = (out, w)
    /\ Permutation (extract_iptv_schedules (crontab w)) out
    /\ StronglySorted
         (fun a b => Datetime.ltb (sort_key now b) (sort_key now a) = false)
         out
    /\ (forall a b, calculate_next_run a now = Some b ->
                    sort_key now a = b)
    /\ (forall l1 x l2, out = l1 ++ x :: l2 ->
          calculate_next_run x now = None ->
          forall y, In y l2 -> calculate_next_run y now = None)
    /\ (forall k,
          filter (fun s => Datetime.eqb (sort_key now s) k) out
          = filter (fun s => Datetime.eqb (sort_key now s) k)
              (extract_iptv_schedules (crontab w))).
Proof.
  intros [Hd _].
  exists (list_sort Datetime.ltb (sort_key now)
            (extract_iptv_schedules (crontab w))).
  split; [reflexivity|]. split; [apply list_sort_perm|].
  assert (S : StronglySorted
         (fun a b => Datetime.ltb (sort_key now b) (sort_key now a) = false)
         (list_sort Datetime.ltb (sort_key now)
            (extract_iptv_schedules (crontab w)))).
  { apply list_sort_sorted.
    - exact datetime_ltb_asym.
    - exact datetime_le_trans. }
  split; [exact S|]. split; [|split].
  - intros a b E. unfold sort_key. now rewrite E.
  - intros l1 x l2 E Hx y Hy. rewrite E in S.
    apply StronglySorted_after in S. rewrite Forall_forall in S.
    specialize (S y Hy). cbv beta in S. unfold sort_key in S. rewrite Hx in S.
    destruct (calculate_next_run y now) as [r|] eqn:R; [|reflexivity].
    destruct (calculate_next_run_shape y now r Hd R) as [Hv Hs].
    rewrite (before_datetime_max r Hv Hs) in S. discriminate.
  - intros k. apply list_sort_stable.
    + exact datetime_ltb_asym.
    + exact datetime_eqb_eq.
Qed.

End Registry.

Lemma update_delete_not_found_witness :
  (forall s,
     In s (@extract_iptv_schedules Samples.sample_host
             (crontab (Samples.fresh
                (Samples.table_of [Samples.line_other; Samples.line_off])))) ->
     id s <> 0%Z)
  /\ (@update_schedule Samples.sample_host 0
        (mk_updates None None None None None None None)
        (Samples.fresh (Samples.table_of [Samples.line_other; Samples.line_off]))
      = (false,
         Samples.fresh (Samples.table_of [Samples.line_other; Samples.line_off]))
      /\ @delete_schedule Samples.sample_host 0
           (Samples.fresh
              (Samples.table_of [Samples.line_other; Samples.line_off]))
         = (false,
            Samples.fresh
              (Samples.table_of [Samples.line_other; Samples.line_off]))).
Proof.
  assert (H : forall s,
     In s (@extract_iptv_schedules Samples.sample_host
             (crontab (Samples.fresh
                (Samples.table_of [Samples.line_other; Samples.line_off])))) ->
     id s <> 0%Z).
  { intros s Hs. vm_compute in Hs. destruct Hs as [<- | []].
    vm_compute. discriminate. }
  split; [exact H|].
  exact (@update_delete_not_found Samples.sample_host 0
           (mk_updates None None None None None None None) _ H).
Defined.

Lemma get_all_schedules_sorted_witness :
  Datetime.valid Samples.afternoon
  /\ exists out,
    @get_all_schedules Samples.sample_host Samples.afternoon
      Samples.mixed_table
    = (out, Samples.mixed_table)
    /\ Permutation
         (@extract_iptv_schedules Samples.sample_host
            (crontab Samples.mixed_table)) out
    /\ StronglySorted
         (fun a b =>
            Datetime.ltb (sort_key Samples.afternoon b)
              (sort_key Samples.afternoon a) = false) out
    /\ (forall a b, calculate_next_run a Samples.afternoon = Some b ->
                    sort_key Samples.afternoon a = b)
    /\ (forall l1 x l2, out = l1 ++ x :: l2 ->
          calculate_next_run x Samples.afternoon = None ->
          forall y, In y l2 -> calculate_next_run y Samples.afternoon = None)
    /\ (forall k,
          filter (fun s => Datetime.eqb (sort_key Samples.afternoon s) k) out
          = filter (fun s => Datetime.eqb (sort_key Samples.afternoon s) k)
              (@extract_iptv_schedules Samples.sample_host
                 (crontab Samples.mixed_table))).
Proof.
  assert (H : Datetime.valid Samples.afternoon) by (split; reflexivity).
  exact (conj H (@get_all_schedules_sorted Samples.sample_host
                   Samples.afternoon Samples.mixed_table H)).
Defined.

(** ** Splitting on whitespace *)

Lemma split_ws_space (c : ascii) (s : str) :
  isspace c = true -> split_ws (c :: s) = split_ws s.
Proof. intros E. simpl. now rewrite E. Qed.

Lemma split_ws_nonempty (d : ascii) (s : str) :
  isspace d = false -> split_ws (d :: s) <> [].
Proof.
  intros E. simpl. rewrite E. destruct s as [|e s]; [discriminate|].
  destruct (isspace e); [discriminate|].
  destruct (split_ws (e :: s)); discriminate.
Qed.

(** The three shapes of [split_ws] on a text that starts a token. *)
Lemma split_ws_cons (c : ascii) (s : str) :
  isspace c = false ->
  (s = [] /\ split_ws (c :: s) = [[c]])
  \/ (exists d s', s = d :: s' /\ isspace d = true
                   /\ split_ws (c :: s) = [c] :: split_ws s)
  \/ (exists d s' w ws, s = d :: s' /\ isspace d = false
                        /\ split_ws s = w :: ws
                        /\ split_ws (c :: s) = (c :: w) :: ws).
Proof.
  intros E. destruct s as [|d s'].
  - left. split; [reflexivity|]. simpl. now rewrite E.
  - right. destruct (isspace d) eqn:D.
    + left. exists d, s'. repeat split; try assumption.
      change (split_ws (c :: d :: s'))
        with (if isspace c then split_ws (d :: s')
              else if isspace d then [c] :: split_ws (d :: s')
                   else match split_ws (d :: s') with
                        | w :: ws => (c :: w) :: ws
                        | [] => [[c]]
                        end).
      now rewrite E, D.
    + right. destruct (split_ws (d :: s')) as [|w ws] eqn:S.
      * now apply split_ws_nonempty in S.
      * exists d, s', w, ws. repeat split; try assumption.
        change (split_ws (c :: d :: s'))
          with (if isspace c then split_ws (d :: s')
                else if isspace d then [c] :: split_ws (d :: s')
                     else match split_ws (d :: s') with
                          | w :: ws => (c :: w) :: ws
                          | [] => [[c]]
                          end).
        now rewrite E, D, S.
Qed.

Lemma split_ws_all_space (a s : str) :
  all_space a = true -> split_ws (a ++ s) = split_ws s.
Proof.
  induction a as [|c a IH]; [reflexivity|]. unfold all_space. simpl forallb.
  rewrite andb_true_iff. intros [Hc Ha]. rewrite <- app_comm_cons.
  rewrite split_ws_space by exact Hc. now apply IH.
Qed.

Lemma split_ws_only_space (b : str) : all_space b = true -> split_ws b = [].
Proof.
  intros H. rewrite <- (app_nil_r b). now rewrite split_ws_all_space.
Qed.

Lemma split_ws_trailing (m b : str) :
  all_space b = true -> split_ws (m ++ b) = split_ws m.
Proof.
  intros Hb. induction m as [|c m IH].
  - simpl. now apply split_ws_only_space.
  - rewrite <- app_comm_cons. destruct (isspace c) eqn:E.
    + now rewrite !split_ws_space.
    + destruct (split_ws_cons c m E) as [[-> S] | [[d [s' [-> [D S]]]]
                                        | [d [s' [w [ws [-> [D [S1 S2]]]]]]]]].
      * rewrite S. simpl app. destruct b as [|d b].
        -- simpl. now rewrite E.
        -- unfold all_space in Hb. simpl in Hb. apply andb_true_iff in Hb as [Hd Hb].
           destruct (split_ws_cons c (d :: b) E)
             as [[F _] | [[d' [s'' [F [D' S']]]] | [d' [s'' [w [ws [F [D' _]]]]]]]];
             try discriminate.
           ++ rewrite S'. now rewrite split_ws_only_space
                by (unfold all_space; simpl; now rewrite Hd, Hb).
           ++ injection F as <- <-. congruence.
      * rewrite S.
        destruct (split_ws_cons c ((d :: s') ++ b) E)
          as [[F _] | [[d' [s'' [F [D' S']]]] | [d' [s'' [w [ws [F [D' _]]]]]]]];
          try discriminate.
        -- rewrite S', IH. reflexivity.
        -- rewrite <- app_comm_cons in F. injection F as <- <-. congruence.
      * rewrite S2.
        destruct (split_ws_cons c ((d :: s') ++ b) E)
          as [[F _] | [[d' [s'' [F [D' S']]]]
                       | [d' [s'' [w' [ws' [F [D' [T1 T2]]]]]]]]];
          try discriminate.
        -- rewrite <- app_comm_cons in F. injection F as <- <-. congruence.
        -- rewrite T2. rewrite IH, S1 in T1. now injection T1 as <- <-.
Qed.

Lemma split_ws_strip (s : str) : split_ws (strip s) = split_ws s.
Proof.
  destruct (strip_decompose s) as [a [b [Hs [Ha Hb]]]].
  rewrite Hs at 2. now rewrite split_ws_all_space, split_ws_trailing.
Qed.

(** A token followed by a whitespace character is split off. *)
Lemma split_ws_token (w : str) (c : ascii) (rest : str) :
  w <> [] -> no_space w = true -> isspace c = true ->
  split_ws (w ++ c :: rest) = w :: split_ws rest.
Proof.
  intros Hne Hw Hc. induction w as [|x w IH]; [congruence|].
  unfold no_space in Hw. simpl in Hw. apply andb_true_iff in Hw as [Hx Hw].
  apply negb_true_iff in Hx. rewrite <- app_comm_cons.
  destruct (split_ws_cons x (w ++ c :: rest) Hx)
    as [[F _] | [[d [s' [F [D S]]]] | [d [s' [w' [ws [F [D [S1 S2]]]]]]]]].
  - destruct w; discriminate.
  - rewrite S. destruct w as [|y w].
    + simpl app. now rewrite split_ws_space.
    + rewrite <- app_comm_cons in F. injection F as <- <-.
      simpl in Hw. apply andb_true_iff in Hw as [Hy _].
      apply negb_true_iff in Hy. congruence.
  - rewrite S2. destruct w as [|y w].
    + simpl in F. injection F as <- <-. congruence.
    + rewrite IH in S1 by (try discriminate; exact Hw).
      now injection S1 as <- <-.
Qed.

Lemma join_cons_head (sep : str) (c : ascii) (w : str) (ws : list str) :
  join sep ((c :: w) :: ws) = c :: join sep (w :: ws).
Proof. destruct ws; reflexivity. Qed.

(** A whitespace-free text is a prefix of the normalised text exactly when
    it is a prefix of the text with its leading whitespace dropped. *)
Lemma startswith_join_split_ws (s sub : str) :
  no_space sub = true ->
  startswith (join (lit " ") (split_ws s)) sub = startswith (lstrip s) sub.
Proof.
  revert sub. induction s as [|c s IH]; intros sub Hsub; [reflexivity|].
  destruct (isspace c) eqn:E.
  - rewrite split_ws_space by exact E. unfold lstrip. simpl drop_while.
    rewrite E. now apply IH.
  - unfold lstrip. rewrite drop_while_stop by exact E.
    destruct sub as [|a sub]; [reflexivity|].
    unfold no_space in Hsub. simpl in Hsub.
    apply andb_true_iff in Hsub as [Ha Hsub]. apply negb_true_iff in Ha.
    destruct (split_ws_cons c s E)
      as [[-> S] | [[d [s' [-> [D S]]]] | [d [s' [w [ws [-> [D [S1 S2]]]]]]]]].
    + now rewrite S.
    + rewrite S. destruct sub as [|b sub].
      { destruct (split_ws (d :: s')); simpl; now rewrite !andb_true_r. }
      simpl in Hsub. apply andb_true_iff in Hsub as [Hb _].
      apply negb_true_iff in Hb.
      assert (Hbd : Ascii.eqb b d = false).
      { destruct (Ascii.eqb b d) eqn:F; [|reflexivity].
        apply Ascii.eqb_eq in F. congruence. }
      assert (Hbs : Ascii.eqb b " " = false).
      { destruct (Ascii.eqb b " ") eqn:F; [|reflexivity].
        apply Ascii.eqb_eq in F. subst b. discriminate. }
      destruct (split_ws (d :: s')) as [|w ws]; simpl; rewrite ?Hbd, ?Hbs;
        now rewrite ?andb_false_r.
    + rewrite S2, join_cons_head, <- S1. simpl startswith. f_equal.
      rewrite IH by exact Hsub. unfold lstrip.
      now rewrite drop_while_stop.
Qed.

(** A whitespace-free text occurs in the normalised text exactly when it
    occurs in the text. *)
Lemma contains_join_split_ws (s sub : str) :
  sub <> [] -> no_space sub = true ->
  contains (join (lit " ") (split_ws s)) sub = contains s sub.
Proof.
  intros Hne Hsub. induction s as [|c s IH]; [reflexivity|].
  destruct sub as [|a sub]; [congruence|].
  assert (Ha : isspace a = false).
  { unfold no_space in Hsub. simpl in Hsub.
    apply andb_true_iff in Hsub as [Ha _]. now apply negb_true_iff in Ha. }
  destruct (isspace c) eqn:E.
  - rewrite split_ws_space by exact E. rewrite IH. symmetry.
    apply contains_skip. intros ->. congruence.
  - pose proof (startswith_join_split_ws (c :: s) (a :: sub) Hsub) as Q.
    unfold lstrip in Q. rewrite drop_while_stop in Q by exact E.
    change (contains (c :: s) (a :: sub))
      with (startswith (c :: s) (a :: sub) || contains s (a :: sub)).
    rewrite <- Q.
    destruct (split_ws_cons c s E)
      as [[-> S] | [[d [s' [-> [D S]]]] | [d [s' [w [ws [-> [D [S1 S2]]]]]]]]].
    + rewrite S. reflexivity.
    + rewrite S in *. destruct (split_ws (d :: s')) as [|w ws] eqn:T.
      * simpl join in *. rewrite <- IH. reflexivity.
      * rewrite join_cons.
        change ([c] ++ lit " " ++ join (lit " ") (w :: ws))
          with (c :: " "%char :: join (lit " ") (w :: ws)).
        change (contains (c :: " "%char :: join (lit " ") (w :: ws)) (a :: sub))
          with (startswith (c :: " "%char :: join (lit " ") (w :: ws)) (a :: sub)
                || contains (" "%char :: join (lit " ") (w :: ws)) (a :: sub)).
        f_equal. rewrite contains_skip; [exact IH|].
        intros ->. discriminate.
    + rewrite S2 in *. rewrite join_cons_head in *. rewrite <- S1, <- IH.
      reflexivity.
Qed.

Lemma split_ws_has_token (s sub : str) :
  sub <> [] -> no_space sub = true -> contains s sub = true ->
  split_ws s <> [].
Proof.
  intros Hne Hsub H E.
  rewrite <- (contains_join_split_ws s sub Hne Hsub), E in H.
  simpl join in H. rewrite contains_nil in H by exact Hne. discriminate.
Qed.

(** ** Building a line and parsing it back *)

Lemma split_ws_field (f rest : str) :
  f <> [] -> no_space f = true ->
  split_ws (f ++ lit " " ++ rest) = f :: split_ws rest.
Proof. intros Hne Hf. now apply (split_ws_token f " "%char rest). Qed.

Lemma strip_first (c : ascii) (s : str) :
  isspace c = false -> exists t, strip (c :: s) = c :: t.
Proof.
  intros E. unfold strip, lstrip. rewrite drop_while_stop by exact E.
  exists (rstrip s). now apply rstrip_cons.
Qed.

Section BuildParse.

Context {host : Host}.

(** Parsing a line from the tokens of its cleaned text. *)
Lemma parse_crontab_line_tokens (line m h d mo w x : str) (xs : list str) :
  split_ws (strip (lstrip_chars (lit "# ") line))
    = m :: h :: d :: mo :: w :: x :: xs ->
  exists r,
    parse_crontab_line line = Some r
    /\ minute r = m /\ hour r = h /\ day r = d /\ month r = mo
    /\ weekday r = w
    /\ command r = join (lit " ") (x :: xs)
    /\ action r = (if contains (join (lit " ") (x :: xs)) (lit "up")
                   then lit "on" else lit "off")
    /\ enabled r = negb (startswith (strip line) (lit "#"))
    /\ raw r = line
    /\ id r = Z.land (py_hash line) 2147483647.
Proof.
  intros H. unfold parse_crontab_line. rewrite H.
  eexists. split; [reflexivity|]. cbn [minute hour day month weekday command
    action enabled raw id]. repeat split.
  destruct (contains (join (lit " ") (x :: xs)) (lit "up")); [reflexivity|].
  now destruct (contains (join (lit " ") (x :: xs)) (lit "check_and_off")).
Qed.

(** C10, amended: for fields that are non-empty and free of whitespace, a
    minute that does not start with [#], and an off schedule whose script
    path is free of [up] or an on schedule whose command holds [up], parsing
    the built line succeeds and gives back the five fields, the flag and the
    action. *)
Theorem parse_build_round_trip (s : new_schedule) :
  well_formed_fields s ->
  startswith (new_minute s) (lit "#") = false ->
  action_commands_ok s ->
  line_round_trip s.
Proof.
  intros [[Hm1 Hm2] [[Hh1 Hh2] [[Hd1 Hd2] [[Ho1 Ho2] [Hw1 Hw2]]]]] Hhash Hact.
  set (cmd := if match new_action s with
                 | Some a => str_eqb a (lit "off")
                 | None => false
                 end
              then path_join get_script_dir (lit "check_and_off.sh")
              else get (new_command s) (lit "/sbin/ip link set ens1 up")).
  set (line0 := new_minute s ++ lit " " ++ new_hour s ++ lit " "
                ++ new_day s ++ lit " " ++ new_month s ++ lit " "
                ++ new_weekday s ++ lit " " ++ cmd).
  assert (Hbuild : build_crontab_line s
                   = if negb (get (new_enabled s) true) then lit "# " ++ line0
                     else line0) by reflexivity.
  (* the command: its tokens and its action *)
  assert (Hcmd : split_ws cmd <> []
                 /\ Some (if contains (join (lit " ") (split_ws cmd)) (lit "up")
                          then lit "on" else lit "off") = new_action s).
  { rewrite contains_join_split_ws by (try discriminate; reflexivity).
    destruct Hact as [[Ha Hp] | [Ha Hc]]; subst cmd; rewrite Ha.
    - replace (str_eqb (lit "off") (lit "off")) with true by reflexivity.
      cbv iota. rewrite Hp. split; [|reflexivity].
      apply (split_ws_has_token _ (lit "check_and_off.sh"));
        [discriminate | reflexivity |].
      unfold path_join. simpl startswith.
      destruct get_script_dir as [|c dir]; [reflexivity|].
      destruct (endswith (c :: dir) (lit "/")).
      + apply contains_app_l. reflexivity.
      + apply contains_app_l, contains_app_l. reflexivity.
    - replace (str_eqb (lit "on") (lit "off")) with false by reflexivity.
      cbv iota. rewrite Hc. split; [|reflexivity].
      now apply (split_ws_has_token _ (lit "up")). }
  destruct Hcmd as [Hne Haction].
  (* the first character of the line *)
  destruct (new_minute s) as [|m0 mrest] eqn:Em; [congruence|].
  assert (Hm0 : isspace m0 = false).
  { unfold no_space in Hm2. simpl in Hm2.
    apply andb_true_iff in Hm2 as [H _]. now apply negb_true_iff in H. }
  assert (Hm0h : Ascii.eqb "#" m0 = false).
  { simpl in Hhash. now rewrite andb_true_r in Hhash. }
  assert (Hm0s : Ascii.eqb m0 " " = false).
  { destruct (Ascii.eqb m0 " ") eqn:F; [|reflexivity].
    apply Ascii.eqb_eq in F. subst m0. discriminate. }
  assert (Hm0c : char_in m0 (lit "# ") = false).
  { unfold char_in. simpl. rewrite Hm0s, orb_false_r.
    rewrite Ascii.eqb_sym. now rewrite Hm0h. }
  assert (Hclean0 : lstrip_chars (lit "# ") line0 = line0).
  { subst line0. unfold lstrip_chars. rewrite <- app_comm_cons.
    now rewrite drop_while_stop. }
  assert (Htok : split_ws (strip line0)
                 = (m0 :: mrest) :: new_hour s :: new_day s :: new_month s
                   :: new_weekday s :: split_ws cmd).
  { rewrite split_ws_strip. subst line0.
    rewrite !split_ws_field; try assumption; reflexivity. }
  destruct (split_ws cmd) as [|x xs] eqn:Ecmd; [congruence|].
  unfold line_round_trip. rewrite Hbuild.
  destruct (get (new_enabled s) true) eqn:En; cbn [negb].
  - destruct (parse_crontab_line_tokens line0 _ _ _ _ _ _ _
                ltac:(rewrite Hclean0; exact Htok))
      as [r [Hp [F1 [F2 [F3 [F4 [F5 [F6 [F7 [F8 _]]]]]]]]]].
    exists r. repeat split; try assumption; try (rewrite Em; assumption).
    + rewrite F8. subst line0. rewrite <- app_comm_cons.
      destruct (strip_first m0 (mrest ++ lit " " ++ new_hour s ++ lit " "
                  ++ new_day s ++ lit " " ++ new_month s ++ lit " "
                  ++ new_weekday s ++ lit " " ++ cmd) Hm0) as [t ->].
      change (lit "#") with ["#"%char]. cbn [startswith].
      now rewrite Hm0h.
    + now rewrite F7.
  - assert (Hclean1 : lstrip_chars (lit "# ") (lit "# " ++ line0) = line0).
    { rewrite <- Hclean0 at 2. reflexivity. }
    destruct (parse_crontab_line_tokens (lit "# " ++ line0) _ _ _ _ _ _ _
                ltac:(rewrite Hclean1; exact Htok))
      as [r [Hp [F1 [F2 [F3 [F4 [F5 [F6 [F7 [F8 _]]]]]]]]]].
    exists r. repeat split; try assumption; try (rewrite Em; assumption).
    + rewrite F8.
      destruct (strip_first "#"%char (" "%char :: line0) eq_refl) as [t E].
      change (lit "# " ++ line0) with ("#"%char :: " "%char :: line0).
      now rewrite E.
    + now rewrite F7.
Qed.

End BuildParse.

Lemma parse_build_round_trip_witness :
  @well_formed_fields Samples.new_off
  /\ startswith (new_minute Samples.new_off) (lit "#") = false
  /\ @action_commands_ok Samples.sample_host Samples.new_off
  /\ @line_round_trip Samples.sample_host Samples.new_off.
Proof.
  assert (H1 : well_formed_fields Samples.new_off).
  { unfold well_formed_fields, field_ok. simpl.
    repeat split; try discriminate. }
  assert (H2 : startswith (new_minute Samples.new_off) (lit "#") = false)
    by reflexivity.
  assert (H3 : @action_commands_ok Samples.sample_host Samples.new_off).
  { left. split; reflexivity. }
  exact (conj H1 (conj H2 (conj H3
           (@parse_build_round_trip Samples.sample_host _ H1 H2 H3)))).
Defined.

(** C10 as stated fails: with the minute field [#5], well formed and free
    of whitespace, the built line of an enabled schedule is parsed as a
    disabled one. *)
Lemma parse_build_round_trip_counterexample :
  well_formed_fields Samples.new_off_hash
  /\ @action_commands_ok Samples.sample_host Samples.new_off_hash
  /\ ~ @line_round_trip Samples.sample_host Samples.new_off_hash.
Proof.
  split; [|split].
  - unfold well_formed_fields, field_ok. simpl.
    repeat split; try discriminate.
  - left. split; reflexivity.
  - intros [r [Hp [_ [_ [_ [_ [_ [He _]]]]]]]].
    vm_compute in Hp. injection Hp as <-. discriminate.
Qed.

(** ** Domain lines *)

Lemma marker_edges (mk : str) : is_marker mk -> edges_nonspace mk = true.
Proof. intros [-> | ->]; reflexivity. Qed.

Lemma marker_first (mk : str) :
  is_marker mk -> exists c r, mk = c :: r /\ char_in c (lit "# ") = false.
Proof. intros [-> | ->]; eexists; eexists; split; reflexivity. Qed.

Lemma remove_hash_app (a b : str) :
  replace (a ++ b) (lit "#") (lit "")
  = replace a (lit "#") (lit "") ++ replace b (lit "#") (lit "").
Proof.
  change (lit "#") with ["#"%char]. change (lit "") with (@nil ascii).
  rewrite !replace_char_empty. apply filter_app.
Qed.

Lemma remove_hash_space (a : str) :
  all_space a = true -> replace a (lit "#") (lit "") = a.
Proof.
  change (lit "#") with ["#"%char]. change (lit "") with (@nil ascii).
  rewrite replace_char_empty. unfold all_space.
  induction a as [|c a IH]; [reflexivity|]. cbn [filter forallb].
  rewrite andb_true_iff. intros [Hc Ha].
  destruct (Ascii.eqb "#" c) eqn:E.
  - apply Ascii.eqb_eq in E. subst c. discriminate.
  - cbn [negb]. now rewrite IH.
Qed.

Lemma remove_hash_all_space (p : str) :
  (forall c, In c p -> char_in c (lit "# ") = true) ->
  all_space (replace p (lit "#") (lit "")) = true.
Proof.
  change (lit "#") with ["#"%char]. change (lit "") with (@nil ascii).
  rewrite replace_char_empty. unfold all_space.
  induction p as [|c p IH]; intros H; [reflexivity|]. cbn [filter].
  assert (Hc := H c (or_introl eq_refl)).
  assert (Hp : forall d, In d p -> char_in d (lit "# ") = true)
    by (intros d Hd; apply H; now right).
  destruct (Ascii.eqb "#" c) eqn:E; cbn [negb forallb]; [now apply IH|].
  rewrite IH by exact Hp. rewrite andb_true_r.
  unfold char_in in Hc. change (lit "# ") with ["#"%char; " "%char] in Hc.
  cbn [existsb] in Hc. rewrite Ascii.eqb_sym, E in Hc.
  rewrite orb_false_l, orb_false_r in Hc. apply Ascii.eqb_eq in Hc.
  now subst c.
Qed.

Lemma clean_strip (y : str) : clean (strip y) = clean y.
Proof.
  unfold clean. destruct (strip_decompose y) as [a [b [Hy [Ha Hb]]]].
  rewrite Hy at 2. rewrite !remove_hash_app.
  rewrite (remove_hash_space a Ha), (remove_hash_space b Hb).
  now rewrite strip_around.
Qed.

Lemma clean_contains (x y mk : str) :
  edges_nonspace mk = true -> contains y x = true ->
  contains (clean x) mk = true -> contains (clean y) mk = true.
Proof.
  intros Hm Hyx. unfold clean. rewrite !contains_strip by exact Hm.
  apply contains_spec in Hyx as [a [b ->]]. intros H.
  rewrite !remove_hash_app. now apply contains_app_l, contains_app_r.
Qed.

Lemma is_iptv_line_spec (x : str) :
  is_iptv_line x = true <->
  exists mk, is_marker mk
             /\ (contains x mk = true \/ contains (clean x) mk = true).
Proof.
  unfold is_iptv_line. fold (clean x). rewrite !orb_true_iff. split.
  - intros [[[H | H] | H] | H].
    + exists (lit "ip link set ens1"). split; [now left | now left].
    + exists (lit "ip link set ens1"). split; [now left | now right].
    + exists (lit "check_and_off.sh"). split; [now right | now left].
    + exists (lit "check_and_off.sh"). split; [now right | now right].
  - intros [mk [[-> | ->] [H | H]]]; tauto.
Qed.

(** A line that contains a text passing the marker test passes it too,
    stripped or not. *)
Lemma is_iptv_line_super (x y : str) :
  is_iptv_line x = true -> contains y x = true ->
  is_iptv_line y = true /\ is_iptv_line (strip y) = true.
Proof.
  rewrite !is_iptv_line_spec. intros [mk [Hmk H]] Hyx.
  pose proof (marker_edges mk Hmk) as He.
  split; exists mk; (split; [exact Hmk|]); rewrite ?clean_strip,
    ?contains_strip by exact He; destruct H as [H | H].
  - left. exact (contains_trans _ _ _ Hyx H).
  - right. exact (clean_contains x y mk He Hyx H).
  - left. exact (contains_trans _ _ _ Hyx H).
  - right. exact (clean_contains x y mk He Hyx H).
Qed.

Lemma contains_marker_domain (y mk : str) :
  is_marker mk -> contains y mk = true -> is_domain_line y = true.
Proof.
  intros Hmk H. unfold is_domain_line. apply is_iptv_line_spec.
  exists mk. split; [exact Hmk|]. left.
  now rewrite contains_strip by now apply marker_edges.
Qed.

Lemma lstrip_chars_split (chars s : str) :
  exists p, s = p ++ lstrip_chars chars s
            /\ forall c, In c p -> char_in c chars = true.
Proof.
  unfold lstrip_chars.
  destruct (drop_while_split (fun c => char_in c chars) s) as [p [Hs Hp]].
  exists p. split; [exact Hs|]. now apply forallb_forall.
Qed.

(** Dropping the leading [#] and blanks keeps the marker test. *)
Lemma is_iptv_line_lstrip (x : str) :
  is_iptv_line x = true -> is_iptv_line (lstrip_chars (lit "# ") x) = true.
Proof.
  rewrite !is_iptv_line_spec. intros [mk [Hmk H]].
  exists mk. split; [exact Hmk|].
  destruct (lstrip_chars_split (lit "# ") x) as [p [Hx Hp]].
  destruct H as [H | H].
  - left. destruct (marker_first mk Hmk) as [c [r [-> Hc]]].
    rewrite Hx in H. rewrite contains_skip_prefix in H; [exact H|].
    intros Hin. apply Hp in Hin. congruence.
  - right. unfold clean in *. rewrite Hx, remove_hash_app in H.
    rewrite <- (app_nil_r (replace (lstrip_chars (lit "# ") x) _ _)) in H.
    rewrite strip_around in H; [exact H | | reflexivity].
    now apply remove_hash_all_space.
Qed.

Lemma is_iptv_line_toggled (x : str) (now_enabled : bool) :
  is_iptv_line x = true -> is_iptv_line (toggled_line x now_enabled) = true.
Proof.
  intros H. unfold toggled_line. destruct now_enabled.
  - now apply is_iptv_line_lstrip.
  - destruct (negb (startswith (strip x) (lit "#"))); [|exact H].
    apply (is_iptv_line_super x); [exact H|].
    apply contains_app_l, contains_refl.
Qed.

(** ** Extraction *)

Lemma endswith_spec (s p : str) :
  endswith s p = true <-> exists r, s = r ++ p.
Proof.
  unfold endswith. rewrite startswith_spec. split.
  - intros [r H]. exists (rev r). apply (f_equal (@rev ascii)) in H.
    now rewrite rev_involutive, rev_app_distr, rev_involutive in H.
  - intros [r ->]. exists (rev r). now rewrite rev_app_distr.
Qed.

Lemma filter_absorb {A : Type} (p q : A -> bool) (l : list A) :
  (forall x, In x l -> q x = false -> p x = false) ->
  filter p (filter q l) = filter p l.
Proof.
  induction l as [|x l IH]; intros H; [reflexivity|]. simpl.
  assert (Hl : forall y, In y l -> q y = false -> p y = false)
    by (intros y Hy; apply H; now right).
  destruct (q x) eqn:Q; simpl.
  - now rewrite IH.
  - rewrite (H x (or_introl eq_refl) Q). now apply IH.
Qed.

Lemma filter_map_frame {A : Type} (p : A -> bool) (f : A -> A) (l : list A) :
  (forall x, In x l -> f x = x \/ (p x = false /\ p (f x) = false)) ->
  filter p (map f l) = filter p l.
Proof.
  induction l as [|x l IH]; intros H; [reflexivity|]. simpl.
  rewrite IH by (intros y Hy; apply H; now right).
  destruct (H x (or_introl eq_refl)) as [-> | [-> ->]]; reflexivity.
Qed.

Section Extraction.

Context {host : Host}.

Lemma parse_crontab_line_raw (line : str) (r : schedule) :
  parse_crontab_line line = Some r ->
  raw r = line /\ id r = Z.land (py_hash line) 2147483647
  /\ enabled r = negb (startswith (strip line) (lit "#")).
Proof.
  unfold parse_crontab_line.
  destruct (_ <? 6)%nat; [discriminate|].
  destruct (split_ws _) as [|m [|h [|d [|mo [|w rest]]]]]; try discriminate.
  intros E. injection E as <-. repeat split.
Qed.

Lemma extract_lines_app (a b : list str) :
  extract_lines (a ++ b) = extract_lines a ++ extract_lines b.
Proof.
  induction a as [|l a IH]; [reflexivity|]. simpl.
  destruct (strip l); [exact IH|].
  destruct (is_iptv_line _); [|exact IH].
  destruct (parse_crontab_line _); [|exact IH].
  simpl. now rewrite IH.
Qed.

Lemma extract_lines_one (l : str) (r : schedule) :
  is_iptv_line (strip l) = true -> parse_crontab_line (strip l) = Some r ->
  extract_lines [l] = [r].
Proof.
  intros Hi Hp. simpl. destruct (strip l) as [|c t] eqn:E.
  - vm_compute in Hi. discriminate.
  - now rewrite Hi, Hp.
Qed.

Lemma extract_lines_in (ls : list str) (r : schedule) :
  In r (extract_lines ls) ->
  exists l, In l ls /\ strip l <> [] /\ is_iptv_line (strip l) = true
            /\ parse_crontab_line (strip l) = Some r.
Proof.
  induction ls as [|l ls IH]; simpl; [intros []|].
  assert (Hrest : In r (extract_lines ls) ->
    exists l0, (l = l0 \/ In l0 ls) /\ strip l0 <> []
               /\ is_iptv_line (strip l0) = true
               /\ parse_crontab_line (strip l0) = Some r).
  { intros H. destruct (IH H) as [l0 [Hin Hl0]]. exists l0. tauto. }
  destruct (strip l) as [|c t] eqn:E; [exact Hrest|].
  destruct (is_iptv_line (c :: t)) eqn:I; [|exact Hrest].
  destruct (parse_crontab_line (c :: t)) as [s|] eqn:P; [|exact Hrest].
  intros [<- | H]; [|now apply Hrest].
  exists l. rewrite E. repeat split; try assumption; [now left | discriminate].
Qed.

(** What is known of the raw text of an extracted schedule. *)
Lemma extracted_raw (text : str) (r : schedule) :
  In r (extract_iptv_schedules text) ->
  raw r <> [] /\ edges_nonspace (raw r) = true /\ ~ In LF (raw r)
  /\ is_iptv_line (raw r) = true
  /\ parse_crontab_line (raw r) = Some r
  /\ exists l, In l (split LF text) /\ strip l = raw r.
Proof.
  intros H. apply extract_lines_in in H as [l [Hl [Hne [Hi Hp]]]].
  destruct (parse_crontab_line_raw _ _ Hp) as [Hraw _]. rewrite Hraw.
  repeat split; try assumption.
  - destruct (strip_edges l) as [E | E]; [congruence | exact E].
  - intros Hin. apply strip_in in Hin. now apply split_pieces in Hl.
  - now exists l.
Qed.

Lemma find_schedule_some (schedule_id : Z) (ss : list schedule) (t : schedule) :
  find_schedule schedule_id ss = Some t -> In t ss /\ id t = schedule_id.
Proof.
  unfold find_schedule. intros H. apply find_some in H as [Hin E].
  split; [exact Hin | now apply Z.eqb_eq].
Qed.

Lemma toggled_line_no_lf (x : str) (now_enabled : bool) :
  ~ In LF x -> ~ In LF (toggled_line x now_enabled).
Proof.
  intros Hx. unfold toggled_line. destruct now_enabled.
  - destruct (lstrip_chars_split (lit "# ") x) as [p [E _]].
    intros H. apply Hx. rewrite E. apply in_or_app. now right.
  - destruct (negb _); [|exact Hx].
    intros [E | [E | H]]; [discriminate | discriminate | now apply Hx].
Qed.

Lemma toggled_line_no_cr (x : str) (now_enabled : bool) :
  ~ In CR x -> ~ In CR (toggled_line x now_enabled).
Proof.
  intros Hx. unfold toggled_line. destruct now_enabled.
  - destruct (lstrip_chars_split (lit "# ") x) as [p [E _]].
    intros H. apply Hx. rewrite E. apply in_or_app. now right.
  - destruct (negb _); [|exact Hx].
    intros [E | [E | H]]; [discriminate | discriminate | now apply Hx].
Qed.

(** The raw line of an extracted schedule holds what its table holds. *)
Lemma extracted_raw_chars (text : str) (r : schedule) (c : ascii) :
  In r (extract_iptv_schedules text) -> ~ In c text -> ~ In c (raw r).
Proof.
  intros Hr Ht Hc.
  destruct (extracted_raw text r Hr) as [_ [_ [_ [_ [_ [l [Hl Hs]]]]]]].
  rewrite <- Hs in Hc. apply strip_in in Hc.
  apply Ht. exact (split_chars LF c text l Hl Hc).
Qed.


(** A line of the table that contains the raw text of an extracted
    schedule is a domain line. *)
Lemma contains_raw_domain (text l : str) (r : schedule) :
  In r (extract_iptv_schedules text) -> contains l (raw r) = true ->
  is_domain_line l = true.
Proof.
  intros Hr Hc. destruct (extracted_raw text r Hr) as [_ [_ [_ [Hi _]]]].
  exact (proj2 (is_iptv_line_super _ _ Hi Hc)).
Qed.

(** *** The frame of each operation *)

Lemma set_crontab_cases (content : str) (w : world) :
  ~ In CR content ->
  crontab (snd (set_crontab content w)) = content
  \/ crontab (snd (set_crontab content w)) = crontab w.
Proof.
  intros H. unfold set_crontab. destruct (crontab_accepts content).
  - left. now apply translate_newlines_fixed.
  - now right.
Qed.

Lemma set_crontab_true (content : str) (w : world) :
  ~ In CR content ->
  fst (set_crontab content w) = true ->
  crontab (snd (set_crontab content w)) = content.
Proof.
  intros H. unfold set_crontab. destruct (crontab_accepts content).
  - intros _. now apply translate_newlines_fixed.
  - discriminate.
Qed.

Lemma Forall2_map_right {A B : Type} (P : A -> B -> Prop) (g : A -> B)
  (l : list A) :
  (forall x, In x l -> P x (g x)) -> Forall2 P l (map g l).
Proof.
  induction l as [|x l IH]; intros H; [constructor|].
  constructor; [apply H; now left|]. apply IH. intros y Hy. apply H.
  now right.
Qed.

Lemma filter_comm {A : Type} (p q : A -> bool) (l : list A) :
  filter p (filter q l) = filter q (filter p l).
Proof.
  induction l as [|x l IH]; [reflexivity|]. simpl.
  destruct (q x) eqn:Q, (p x) eqn:P; simpl; rewrite ?Q, ?P, IH; reflexivity.
Qed.

(** What [toggle_schedule] and [delete_schedule] write holds no carriage
    return, since what they read holds none. *)
Lemma toggle_content_no_cr (w : world) (t : schedule) (now_enabled : bool) :
  In t (extract_iptv_schedules (crontab w)) ->
  ~ In CR (replace (crontab w) (raw t) (toggled_line (raw t) now_enabled)).
Proof.
  intros Hin. destruct (extracted_raw _ _ Hin) as [Hne _].
  apply replace_keeps_out; [exact Hne | apply crontab_no_cr |].
  apply toggled_line_no_cr.
  exact (extracted_raw_chars _ t CR Hin (crontab_no_cr w)).
Qed.

Lemma delete_content_no_cr (w : world) (keep : str -> bool) :
  ~ In CR (join [LF] (filter keep (split LF (crontab w)))).
Proof.
  apply join_filter_keeps_out; [exact CR_not_LF | apply crontab_no_cr].
Qed.

Lemma toggle_frame (schedule_id : Z) (w : world) :
  other_lines (crontab (snd (toggle_schedule schedule_id w)))
  = other_lines (crontab w).
Proof.
  unfold toggle_schedule, mbind, get_crontab.
  destruct (find_schedule _ _) as [t|] eqn:F; [|reflexivity].
  apply find_schedule_some in F as [Hin _].
  destruct (extracted_raw _ _ Hin) as [Hne [_ [Hlf [Hi _]]]].
  destruct (set_crontab_cases
              (replace (crontab w) (raw t)
                 (toggled_line (raw t) (negb (enabled t)))) w
              (toggle_content_no_cr w t _ Hin)) as [-> | ->];
    [|reflexivity].
  unfold other_lines.
  rewrite split_replace; [|exact Hne | exact Hlf | now apply toggled_line_no_lf].
  apply filter_map_frame. intros l Hl.
  destruct (contains l (raw t)) eqn:C.
  - right. split.
    + now rewrite (contains_raw_domain _ l t Hin C).
    + apply negb_false_iff. unfold is_domain_line.
      apply (is_iptv_line_super (toggled_line (raw t) (negb (enabled t)))).
      * now apply is_iptv_line_toggled.
      * now apply replace_contains_new.
  - left. now apply replace_absent.
Qed.

Lemma delete_lines_frame (text : str) (t : schedule) :
  In t (extract_iptv_schedules text) ->
  filter (fun l => negb (is_domain_line l))
    (filter (fun line => negb (contains line (raw t))) (split LF text))
  = other_lines text.
Proof.
  intros Hin. unfold other_lines. apply filter_absorb. intros l _ Hk.
  apply negb_false_iff in Hk. apply negb_false_iff.
  exact (contains_raw_domain _ l t Hin Hk).
Qed.

Lemma split_join_filter (text : str) (keep : str -> bool) :
  filter keep (split LF text) <> [] ->
  split LF (join [LF] (filter keep (split LF text)))
  = filter keep (split LF text).
Proof.
  intros Hne. apply split_join; [exact Hne|].
  intros l Hl. apply filter_In in Hl as [Hl _]. now apply split_pieces in Hl.
Qed.

Lemma delete_frame (schedule_id : Z) (w : world) :
  other_text_lines (crontab (snd (delete_schedule schedule_id w)))
  = other_text_lines (crontab w).
Proof.
  unfold delete_schedule, mbind, get_crontab.
  destruct (find_schedule _ _) as [t|] eqn:F; [|reflexivity].
  apply find_schedule_some in F as [Hin _].
  match goal with
  | |- context [set_crontab ?c w] =>
      destruct (set_crontab_cases c w (delete_content_no_cr w _))
        as [-> | ->]; [|reflexivity]
  end.
  unfold other_text_lines. rewrite <- (delete_lines_frame _ t Hin).
  destruct (filter (fun line => negb (contains line (raw t)))
              (split LF (crontab w))) as [|x xs] eqn:K.
  - reflexivity.
  - unfold other_lines. rewrite <- K.
    rewrite split_join_filter; [reflexivity | rewrite K; discriminate].
Qed.

Lemma split_line_lf (new : str) :
  ~ In LF new -> split LF (new ++ [LF]) = [new; []].
Proof.
  intros H. change (new ++ [LF]) with (new ++ LF :: []).
  now rewrite split_app_sep, split_nosep.
Qed.

(** The segments of the table [add_schedule] writes. *)
Lemma add_schedule_segments (s : new_schedule) (w : world) :
  ~ In LF (build_crontab_line s) ->
  exists content ls,
    add_schedule s w = set_crontab content w
    /\ split LF content = ls ++ [build_crontab_line s; []]
    /\ (split LF (crontab w) = ls /\ ~ terminated (crontab w)
        \/ split LF (crontab w) = ls ++ [[]])
    /\ (~ In CR (build_crontab_line s) -> ~ In CR content).
Proof.
  intros Hlf. unfold add_schedule, mbind, get_crontab.
  pose proof (crontab_no_cr w) as Hcr.
  assert (Hlast : ~ In CR (build_crontab_line s) ->
                  ~ In CR (build_crontab_line s ++ [LF])).
  { intros Hb H. apply in_app_or in H. destruct H as [H | [H | []]];
      [contradiction | now apply CR_not_LF]. }
  destruct (crontab w) as [|c t] eqn:T.
  - eexists. exists []. split; [reflexivity|]. split; [|split].
    + simpl app. now apply split_line_lf.
    + now right.
    + exact Hlast.
  - destruct (endswith (c :: t) [LF]) eqn:E; cbn [negb].
    + apply endswith_spec in E as [r Hr]. rewrite Hr. rewrite Hr in Hcr.
      eexists. exists (split LF r). split; [reflexivity|]. split; [|split].
      * rewrite <- app_assoc. change ([LF] ++ build_crontab_line s ++ [LF])
          with (LF :: build_crontab_line s ++ [LF]).
        now rewrite split_app_sep, split_line_lf.
      * right. change (r ++ [LF]) with (r ++ LF :: []).
        now rewrite split_app_sep.
      * intros Hb H. apply in_app_or in H. destruct H as [H | H];
          [contradiction | now apply (Hlast Hb)].
    + eexists. exists (split LF (c :: t)). split; [reflexivity|].
      split; [|split].
      * rewrite <- app_assoc. change ([LF] ++ build_crontab_line s ++ [LF])
          with (LF :: build_crontab_line s ++ [LF]).
        now rewrite split_app_sep, split_line_lf.
      * left. split; [reflexivity|]. intros [H | H]; congruence.
      * intros Hb H. apply in_app_or in H. destruct H as [H | H];
          [|now apply (Hlast Hb)].
        apply in_app_or in H. destruct H as [H | [H | []]];
          [contradiction | now apply CR_not_LF].
Qed.

Lemma add_frame (s : new_schedule) (w : world) :
  ~ In LF (build_crontab_line s) ->
  ~ In CR (build_crontab_line s) ->
  is_domain_line (build_crontab_line s) = true ->
  other_text_lines (crontab (snd (add_schedule s w)))
  = other_text_lines (crontab w).
Proof.
  intros Hlf Hcr Hdom.
  destruct (add_schedule_segments s w Hlf)
    as [content [ls [-> [Hs [Hw Hc]]]]].
  destruct (set_crontab_cases content w (Hc Hcr)) as [-> | ->];
    [|reflexivity].
  unfold other_text_lines, other_lines. rewrite Hs.
  rewrite !filter_app. cbn [filter]. rewrite Hdom. cbn [negb].
  replace (is_domain_line []) with false by reflexivity. cbn [negb filter].
  rewrite app_nil_r.
  destruct Hw as [[-> _] | ->]; [reflexivity|].
  rewrite !filter_app. cbn [filter].
  replace (is_domain_line []) with false by reflexivity. cbn [negb filter].
  now rewrite app_nil_r.
Qed.

Lemma terminated_split (text : str) :
  terminated text -> exists ls, split LF text = ls ++ [[]].
Proof.
  intros [-> | H].
  - now exists [].
  - apply endswith_spec in H as [r ->]. exists (split LF r).
    change (r ++ [LF]) with (r ++ LF :: []). now rewrite split_app_sep.
Qed.

Lemma join_terminated (ls : list str) : terminated (join [LF] (ls ++ [[]])).
Proof.
  destruct ls as [|x ls]; [now left|]. right.
  rewrite join_snoc by discriminate. apply endswith_spec.
  exists (join [LF] (x :: ls)). now rewrite app_nil_r.
Qed.

(** On a terminated table the empty segments are kept as well. *)
Lemma delete_frame_terminated (schedule_id : Z) (w : world) :
  terminated (crontab w) ->
  other_lines (crontab (snd (delete_schedule schedule_id w)))
  = other_lines (crontab w)
  /\ terminated (crontab (snd (delete_schedule schedule_id w))).
Proof.
  intros Ht. unfold delete_schedule, mbind, get_crontab.
  destruct (find_schedule _ _) as [t|] eqn:F; [|now split].
  apply find_schedule_some in F as [Hin _].
  match goal with
  | |- context [set_crontab ?c w] =>
      destruct (set_crontab_cases c w (delete_content_no_cr w _))
        as [-> | ->]; [|now split]
  end.
  destruct (extracted_raw _ _ Hin) as [Hne _].
  destruct (terminated_split _ Ht) as [ls Hs].
  assert (K : filter (fun line => negb (contains line (raw t)))
                (split LF (crontab w))
              = filter (fun line => negb (contains line (raw t))) ls ++ [[]]).
  { rewrite Hs, filter_app. cbn [filter].
    now rewrite contains_nil by exact Hne. }
  split.
  - rewrite <- (delete_lines_frame _ t Hin). unfold other_lines.
    rewrite split_join_filter; [reflexivity|].
    rewrite K. intros E. now apply app_eq_nil in E as [_ E].
  - rewrite K. apply join_terminated.
Qed.

Lemma add_frame_terminated (s : new_schedule) (w : world) :
  ~ In LF (build_crontab_line s) ->
  ~ In CR (build_crontab_line s) ->
  is_domain_line (build_crontab_line s) = true ->
  terminated (crontab w) ->
  other_lines (crontab (snd (add_schedule s w))) = other_lines (crontab w).
Proof.
  intros Hlf Hcr Hdom Ht.
  destruct (add_schedule_segments s w Hlf)
    as [content [ls [-> [Hs [Hw Hc]]]]].
  destruct (set_crontab_cases content w (Hc Hcr)) as [-> | ->];
    [|reflexivity].
  destruct Hw as [[_ Hn] | Hw]; [contradiction|].
  unfold other_lines. rewrite Hs, Hw, !filter_app. cbn [filter].
  rewrite Hdom. reflexivity.
Qed.

Lemma char_in_app (c : ascii) (a b : str) :
  char_in c (a ++ b) = char_in c a || char_in c b.
Proof. unfold char_in. apply existsb_app. Qed.

(** The line [update_schedule] adds is one line, and a domain line. *)
Lemma updated_line_ok (u : updates) :
  fields_without LF u ->
  ~ In LF (build_crontab_line (updated_schedule u))
  /\ is_domain_line (build_crontab_line (updated_schedule u)) = true.
Proof.
  intros [H1 [H2 [H3 [H4 [H5 H6]]]]].
  apply char_in_false in H1, H2, H3, H4, H5, H6.
  set (path := path_join get_script_dir (lit "check_and_off.sh")).
  set (on_cmd := lit "/sbin/ip link set ens1 up && /usr/bin/logger "
         ++ [DQUOTE] ++ lit "IPTV RESTORED: manual schedule" ++ [DQUOTE]).
  assert (Hpath : char_in LF path = false
                  /\ contains path (lit "check_and_off.sh") = true).
  { subst path. unfold path_join. cbn [startswith lit list_ascii_of_string].
    replace (Ascii.eqb "/" "c") with false by reflexivity. cbn [andb].
    destruct get_script_dir as [|c dir] eqn:D; [split; reflexivity|].
    destruct (endswith (c :: dir) ["/"%char]).
    - rewrite char_in_app, H6. split; [reflexivity|].
      apply contains_app_l. reflexivity.
    - rewrite !char_in_app, H6. split; [reflexivity|].
      apply contains_app_l, contains_app_l. reflexivity. }
  assert (Hcmd : exists cmd mk,
    is_marker mk /\ char_in LF cmd = false /\ contains cmd mk = true
    /\ build_crontab_line (updated_schedule u)
       = (if negb (get (upd_enabled u) true) then lit "# " else [])
         ++ get (upd_minute u) (lit "0") ++ lit " "
         ++ get (upd_hour u) (lit "0") ++ lit " "
         ++ get (upd_day u) (lit "*") ++ lit " "
         ++ get (upd_month u) (lit "*") ++ lit " "
         ++ get (upd_weekday u) (lit "*") ++ lit " " ++ cmd).
  { unfold build_crontab_line, updated_schedule.
    cbn [new_action new_command new_enabled new_minute new_hour new_day
         new_month new_weekday get]. fold path. fold on_cmd.
    destruct (str_eqb (get (upd_action u) (lit "off")) (lit "off")) eqn:Eoff.
    - exists path, (lit "check_and_off.sh"). destruct Hpath as [P1 P2].
      repeat split; try assumption; [now right|].
      now destruct (negb (get (upd_enabled u) true)).
    - destruct (str_eqb (get (upd_action u) (lit "off")) (lit "on")) eqn:Eon.
      + exists on_cmd, (lit "ip link set ens1").
        repeat split; try reflexivity; [now left|].
        now destruct (negb (get (upd_enabled u) true)).
      + exists path, (lit "check_and_off.sh"). destruct Hpath as [P1 P2].
        repeat split; try assumption; [now right|].
        now destruct (negb (get (upd_enabled u) true)). }
  destruct Hcmd as [cmd [mk [Hmk [C1 [C2 ->]]]]]. split.
  - apply char_in_false. rewrite !char_in_app, H1, H2, H3, H4, H5, C1.
    now destruct (negb (get (upd_enabled u) true)).
  - apply (contains_marker_domain _ mk Hmk).
    repeat apply contains_app_l. exact C2.
Qed.

Lemma updated_line_no_cr (u : updates) :
  fields_without CR u ->
  ~ In CR (build_crontab_line (updated_schedule u)).
Proof.
  intros [H1 [H2 [H3 [H4 [H5 H6]]]]].
  apply char_in_false in H1, H2, H3, H4, H5, H6.
  set (path := path_join get_script_dir (lit "check_and_off.sh")).
  set (on_cmd := lit "/sbin/ip link set ens1 up && /usr/bin/logger "
         ++ [DQUOTE] ++ lit "IPTV RESTORED: manual schedule" ++ [DQUOTE]).
  assert (Hpath : char_in CR path = false
                  /\ contains path (lit "check_and_off.sh") = true).
  { subst path. unfold path_join. cbn [startswith lit list_ascii_of_string].
    replace (Ascii.eqb "/" "c") with false by reflexivity. cbn [andb].
    destruct get_script_dir as [|c dir] eqn:D; [split; reflexivity|].
    destruct (endswith (c :: dir) ["/"%char]).
    - rewrite char_in_app, H6. split; [reflexivity|].
      apply contains_app_l. reflexivity.
    - rewrite !char_in_app, H6. split; [reflexivity|].
      apply contains_app_l, contains_app_l. reflexivity. }
  assert (Hcmd : exists cmd mk,
    is_marker mk /\ char_in CR cmd = false /\ contains cmd mk = true
    /\ build_crontab_line (updated_schedule u)
       = (if negb (get (upd_enabled u) true) then lit "# " else [])
         ++ get (upd_minute u) (lit "0") ++ lit " "
         ++ get (upd_hour u) (lit "0") ++ lit " "
         ++ get (upd_day u) (lit "*") ++ lit " "
         ++ get (upd_month u) (lit "*") ++ lit " "
         ++ get (upd_weekday u) (lit "*") ++ lit " " ++ cmd).
  { unfold build_crontab_line, updated_schedule.
    cbn [new_action new_command new_enabled new_minute new_hour new_day
         new_month new_weekday get]. fold path. fold on_cmd.
    destruct (str_eqb (get (upd_action u) (lit "off")) (lit "off")) eqn:Eoff.
    - exists path, (lit "check_and_off.sh"). destruct Hpath as [P1 P2].
      repeat split; try assumption; [now right|].
      now destruct (negb (get (upd_enabled u) true)).
    - destruct (str_eqb (get (upd_action u) (lit "off")) (lit "on")) eqn:Eon.
      + exists on_cmd, (lit "ip link set ens1").
        repeat split; try reflexivity; [now left|].
        now destruct (negb (get (upd_enabled u) true)).
      + exists path, (lit "check_and_off.sh"). destruct Hpath as [P1 P2].
        repeat split; try assumption; [now right|].
        now destruct (negb (get (upd_enabled u) true)). }
  destruct Hcmd as [cmd [mk [Hmk [C1 [C2 ->]]]]].
  apply char_in_false. rewrite !char_in_app, H1, H2, H3, H4, H5, C1.
  now destruct (negb (get (upd_enabled u) true)).
Qed.

Lemma update_frame (schedule_id : Z) (u : updates) (w : world) :
  updates_one_line u ->
  other_text_lines (crontab (snd (update_schedule schedule_id u w)))
  = other_text_lines (crontab w)
  /\ (terminated (crontab w) ->
      other_lines (crontab (snd (update_schedule schedule_id u w)))
      = other_lines (crontab w)).
Proof.
  intros [Hu Hu']. destruct (updated_line_ok u Hu) as [Hlf Hdom].
  pose proof (updated_line_no_cr u Hu') as Hcr.
  pose proof (delete_frame schedule_id w) as D.
  pose proof (delete_frame_terminated schedule_id w) as DT.
  unfold update_schedule, mbind.
  destruct (delete_schedule schedule_id w) as [deleted w1]. simpl snd in *.
  destruct deleted; cbn [negb].
  - split.
    + now rewrite add_frame.
    + intros Ht. destruct (DT Ht) as [E T].
      now rewrite add_frame_terminated.
  - split; [exact D | intros Ht; exact (proj1 (DT Ht))].
Qed.

(** [toggle_schedule] leaves every line alone that does not hold the raw
    line of its target. *)
Lemma toggle_lines (schedule_id : Z) (w : world) (t : schedule) :
  find_schedule schedule_id (extract_iptv_schedules (crontab w)) = Some t ->
  Forall2 (fun l l' => contains l (raw t) = false -> l' = l)
    (split LF (crontab w))
    (split LF (crontab (snd (toggle_schedule schedule_id w)))).
Proof.
  intros F. unfold toggle_schedule, mbind, get_crontab. rewrite F.
  apply find_schedule_some in F. destruct F as [Hin _].
  destruct (extracted_raw _ _ Hin) as [Hne [_ [Hlf _]]].
  destruct (set_crontab_cases
              (replace (crontab w) (raw t)
                 (toggled_line (raw t) (negb (enabled t)))) w
              (toggle_content_no_cr w t _ Hin)) as [-> | ->].
  - rewrite split_replace;
      [|exact Hne | exact Hlf | now apply toggled_line_no_lf].
    apply Forall2_map_right. intros l _ C. now apply replace_absent.
  - rewrite <- (map_id (split LF (crontab w))) at 2.
    apply Forall2_map_right. reflexivity.
Qed.

(** A successful [delete_schedule] takes away the lines that hold the raw
    line of its target, and no other line with text in it. *)
Lemma delete_lines (schedule_id : Z) (w : world) (t : schedule) :
  find_schedule schedule_id (extract_iptv_schedules (crontab w)) = Some t ->
  fst (delete_schedule schedule_id w) = true ->
  text_lines (crontab (snd (delete_schedule schedule_id w)))
  = filter (fun l => negb (contains l (raw t))) (text_lines (crontab w)).
Proof.
  intros F. unfold delete_schedule, mbind, get_crontab. rewrite F.
  intros Hs. apply set_crontab_true in Hs; [|apply delete_content_no_cr].
  rewrite Hs. unfold text_lines. rewrite filter_comm.
  destruct (filter (fun l => negb (contains l (raw t)))
              (split LF (crontab w))) as [|x xs] eqn:K; [reflexivity|].
  rewrite <- K. rewrite split_join_filter; [reflexivity|].
  rewrite K. discriminate.
Qed.

End Extraction.

(** ** The registry operations on the table *)

Section Operations.

Context {host : Host}.

(** C8, amended: the lines that are kept are the lines that fail the
    marker test of the program ([is_domain_line]: a marker in the stripped
    line as it stands or with its [#] taken out); a line that holds a
    marker passes the test.  [toggle_schedule] keeps every line that fails
    the test, in order; it leaves every line alone that does not hold the
    raw line of its target, and a line that holds it passes the test.
    [delete_schedule] keeps every non-empty line that fails the test, and
    on a terminated table the empty ones too; when it succeeds, the lines
    with text that are left are those that do not hold the raw line of its
    target.  [add_schedule] keeps the lines of the same kind when the line
    it builds holds no line feed and no carriage return and passes the
    test, and so does [update_schedule] when its fields and the script
    directory hold no line feed and no carriage return. *)
Theorem registry_frame :
  (forall l, holds_marker l = true -> is_domain_line l = true)
  /\ (forall schedule_id w,
        other_lines (crontab (snd (toggle_schedule schedule_id w)))
        = other_lines (crontab w))
  /\ (forall schedule_id w t,
        find_schedule schedule_id (extract_iptv_schedules (crontab w))
        = Some t ->
        Forall2 (fun l l' => contains l (raw t) = false -> l' = l)
          (split LF (crontab w))
          (split LF (crontab (snd (toggle_schedule schedule_id w))))
        /\ (fst (delete_schedule schedule_id w) = true ->
            text_lines (crontab (snd (delete_schedule schedule_id w)))
            = filter (fun l => negb (contains l (raw t)))
                (text_lines (crontab w)))
        /\ (forall l, contains l (raw t) = true -> is_domain_line l = true))
  /\ (forall schedule_id w,
        other_text_lines (crontab (snd (delete_schedule schedule_id w)))
        = other_text_lines (crontab w)
        /\ (terminated (crontab w) ->
            other_lines (crontab (snd (delete_schedule schedule_id w)))
            = other_lines (crontab w)))
  /\ (forall s w,
        ~ In LF (build_crontab_line s) ->
        ~ In CR (build_crontab_line s) ->
        is_domain_line (build_crontab_line s) = true ->
        other_text_lines (crontab (snd (add_schedule s w)))
        = other_text_lines (crontab w)
        /\ (terminated (crontab w) ->
            other_lines (crontab (snd (add_schedule s w)))
            = other_lines (crontab w)))
  /\ (forall schedule_id u w,
        updates_one_line u ->
        other_text_lines (crontab (snd (update_schedule schedule_id u w)))
        = other_text_lines (crontab w)
        /\ (terminated (crontab w) ->
            other_lines (crontab (snd (update_schedule schedule_id u w)))
            = other_lines (crontab w))).
Proof.
  split; [|split; [exact toggle_frame|]; split; [|split; [|split]]].
  - intros l H. unfold holds_marker in H. apply orb_true_iff in H.
    destruct H as [H | H].
    + apply (contains_marker_domain l (lit "ip link set ens1"));
        [now left | exact H].
    + apply (contains_marker_domain l (lit "check_and_off.sh"));
        [now right | exact H].
  - intros schedule_id w t F. split; [now apply toggle_lines|].
    split; [now apply delete_lines|].
    intros l C. apply find_schedule_some in F. destruct F as [Hin _].
    exact (contains_raw_domain _ l t Hin C).
  - intros schedule_id w. split; [apply delete_frame|].
    intros Ht. exact (proj1 (delete_frame_terminated schedule_id w Ht)).
  - intros s w Hlf Hcr Hdom. split; [now apply add_frame|].
    intros Ht. now apply add_frame_terminated.
  - exact update_frame.
Qed.

Lemma find_app_none {A : Type} (p : A -> bool) (a b : list A) :
  find p a = None -> find p (a ++ b) = find p b.
Proof.
  induction a as [|x a IH]; [reflexivity|]. simpl.
  destruct (p x); [discriminate | exact IH].
Qed.

Lemma filter_id {A : Type} (p : A -> bool) (l : list A) :
  (forall x, In x l -> p x = true) -> filter p l = l.
Proof.
  induction l as [|x l IH]; intros H; [reflexivity|]. simpl.
  rewrite (H x (or_introl eq_refl)), IH; [reflexivity|].
  intros y Hy. apply H. now right.
Qed.

(** C4, amended: on a terminated table, when the built line holds no line
    feed and no carriage return and is extracted as the schedule [r], no
    domain line of the table contains its raw text and no schedule of the
    table has its id, an [add_schedule] and a [delete_schedule] of that id
    that both succeed leave the text of the table as it was. *)
Theorem add_then_delete_restores (s : new_schedule) (w : world)
  (r : schedule) :
  terminated (crontab w) ->
  ~ In LF (build_crontab_line s) ->
  ~ In CR (build_crontab_line s) ->
  is_domain_line (build_crontab_line s) = true ->
  parse_crontab_line (strip (build_crontab_line s)) = Some r ->
  (forall l, In l (split LF (crontab w)) -> is_domain_line l = true ->
             contains l (raw r) = false) ->
  (forall r', In r' (extract_iptv_schedules (crontab w)) -> id r' <> id r) ->
  fst (add_schedule s w) = true ->
  fst (delete_schedule (id r) (snd (add_schedule s w))) = true ->
  crontab (snd (delete_schedule (id r) (snd (add_schedule s w))))
  = crontab w.
Proof.
  intros Ht Hlf Hcr Hdom Hp Hother Hid Hadd Hdel.
  destruct (add_schedule_segments s w Hlf)
    as [content [ls [Ea [Hs [Hw Hclean]]]]].
  destruct Hw as [[_ Hn] | Hw]; [contradiction|].
  rewrite Ea in *. apply (set_crontab_true content w (Hclean Hcr)) in Hadd.
  set (w1 := snd (set_crontab content w)) in *.
  assert (Hex : extract_iptv_schedules content
                = extract_iptv_schedules (crontab w) ++ [r]).
  { unfold extract_iptv_schedules. rewrite Hs, Hw.
    change (ls ++ [build_crontab_line s; []])
      with (ls ++ [build_crontab_line s] ++ [[]]).
    rewrite !extract_lines_app.
    rewrite (extract_lines_one (build_crontab_line s) r Hdom Hp).
    replace (extract_lines [[]]) with (@nil schedule) by reflexivity.
    now rewrite !app_nil_r. }
  assert (Hin : In r (extract_iptv_schedules content)).
  { rewrite Hex. apply in_or_app. right. now left. }
  destruct (extracted_raw _ _ Hin) as [Hne _].
  destruct (parse_crontab_line_raw _ _ Hp) as [Hraw _].
  assert (Hfind : find_schedule (id r) (extract_iptv_schedules content)
                  = Some r).
  { rewrite Hex. unfold find_schedule. rewrite find_app_none.
    - simpl. now rewrite Z.eqb_refl.
    - apply (find_schedule_none (id r)). exact Hid. }
  assert (Hkeep : filter (fun line => negb (contains line (raw r)))
                    (split LF content) = split LF (crontab w)).
  { rewrite Hs, Hw.
    change (ls ++ [build_crontab_line s; []])
      with (ls ++ [build_crontab_line s] ++ [[]]).
    rewrite !filter_app. cbn [filter].
    assert (Hc : contains (build_crontab_line s) (raw r) = true)
      by (rewrite Hraw; apply contains_strip_of).
    rewrite Hc. cbn [negb].
    rewrite contains_nil by exact Hne. cbn [negb app].
    rewrite filter_id; [reflexivity|].
    intros l Hl. apply negb_true_iff.
    destruct (contains l (raw r)) eqn:C; [|reflexivity].
    rewrite Hother in C; [discriminate | |].
    - rewrite Hw. apply in_or_app. now left.
    - exact (contains_raw_domain _ l r Hin C). }
  revert Hdel. unfold delete_schedule, mbind, get_crontab.
  fold w1. rewrite Hadd, Hfind, Hkeep, join_split.
  intros Hdel. apply set_crontab_true; [apply crontab_no_cr | exact Hdel].
Qed.

End Operations.

Lemma registry_frame_witness :
  ~ In LF (@build_crontab_line Samples.sample_host Samples.new_off)
  /\ ~ In CR (@build_crontab_line Samples.sample_host Samples.new_off)
  /\ @is_domain_line
       (@build_crontab_line Samples.sample_host Samples.new_off) = true
  /\ other_text_lines
       (crontab (snd (@add_schedule Samples.sample_host Samples.new_off
                        (Samples.fresh Samples.line_other))))
     = other_text_lines (crontab (Samples.fresh Samples.line_other)).
Proof.
  assert (H1 : ~ In LF (@build_crontab_line Samples.sample_host
                          Samples.new_off)).
  { apply char_in_false. reflexivity. }
  assert (H1' : ~ In CR (@build_crontab_line Samples.sample_host
                           Samples.new_off)).
  { apply char_in_false. reflexivity. }
  assert (H2 : @is_domain_line
                 (@build_crontab_line Samples.sample_host Samples.new_off)
               = true) by reflexivity.
  split; [exact H1|]. split; [exact H1'|]. split; [exact H2|].
  exact (proj1 (proj1 (proj2 (proj2 (proj2 (proj2
                  (@registry_frame Samples.sample_host)))))
                  Samples.new_off (Samples.fresh Samples.line_other)
                  H1 H1' H2)).
Defined.

(** C8 as stated fails.  A line that holds no marker is not safe: the
    line with [e#ns1] holds none, is extracted as a schedule all the same,
    and [toggle_schedule] rewrites it.  [add_schedule] of a schedule whose
    command is not one of this system puts a line into the table that is
    not a domain line; so does a field that carries a line feed, or a
    carriage return that is read back as one, with the script of this
    system as the command. *)
Lemma registry_frame_counterexample :
  (holds_marker Samples.line_split_marker = false
   /\ fst (@toggle_schedule Samples.sample_host
             (Samples.id_of Samples.line_split_marker)
             (Samples.fresh (Samples.table_of [Samples.line_split_marker])))
      = true
   /\ split LF
        (crontab
           (snd (@toggle_schedule Samples.sample_host
                   (Samples.id_of Samples.line_split_marker)
                   (Samples.fresh
                      (Samples.table_of [Samples.line_split_marker])))))
      = [lit "# " ++ Samples.line_split_marker; []]
   /\ filter (fun l => negb (holds_marker l))
        (split LF
           (crontab
              (snd (@toggle_schedule Samples.sample_host
                      (Samples.id_of Samples.line_split_marker)
                      (Samples.fresh
                         (Samples.table_of [Samples.line_split_marker]))))))
      <> filter (fun l => negb (holds_marker l))
           (split LF
              (crontab
                 (Samples.fresh
                    (Samples.table_of [Samples.line_split_marker])))))
  /\ other_lines
       (crontab (snd (@add_schedule Samples.sample_host Samples.new_echo
                        (Samples.fresh []))))
     = [lit "0 0 * * * /bin/echo hi"; []]
  /\ other_lines (crontab (Samples.fresh [])) = [[]]
  /\ other_text_lines
       (crontab (snd (@add_schedule Samples.sample_host Samples.new_echo
                        (Samples.fresh []))))
     <> other_text_lines (crontab (Samples.fresh []))
  /\ other_text_lines
       (crontab (snd (@add_schedule Samples.sample_host Samples.new_two_lines
                        (Samples.fresh []))))
     = [lit "0 0 1"]
  /\ other_text_lines
       (crontab (snd (@add_schedule Samples.sample_host Samples.new_two_lines
                        (Samples.fresh []))))
     <> other_text_lines (crontab (Samples.fresh []))
  /\ ~ In LF (@build_crontab_line Samples.sample_host Samples.new_cr_day)
  /\ @is_domain_line
       (@build_crontab_line Samples.sample_host Samples.new_cr_day) = true
  /\ other_text_lines
       (crontab (snd (@add_schedule Samples.sample_host Samples.new_cr_day
                        (Samples.fresh []))))
     = [lit "0 0 1"]
  /\ other_text_lines
       (crontab (snd (@add_schedule Samples.sample_host Samples.new_cr_day
                        (Samples.fresh []))))
     <> other_text_lines (crontab (Samples.fresh [])).
Proof.
  split.
  { split; [reflexivity|]. split; [vm_compute; reflexivity|].
    split; [vm_compute; reflexivity|]. vm_compute. discriminate. }
  split; [vm_compute; reflexivity|]. split; [reflexivity|].
  split; [vm_compute; discriminate|].
  split; [vm_compute; reflexivity|]. split; [vm_compute; discriminate|].
  split; [apply char_in_false; reflexivity|].
  split; [vm_compute; reflexivity|].
  split; [vm_compute; reflexivity|]. vm_compute. discriminate.
Qed.

Lemma add_then_delete_restores_witness :
  terminated (crontab (Samples.fresh (Samples.table_of [Samples.line_other])))
  /\ ~ In LF (@build_crontab_line Samples.sample_host Samples.new_off)
  /\ ~ In CR (@build_crontab_line Samples.sample_host Samples.new_off)
  /\ @is_domain_line
       (@build_crontab_line Samples.sample_host Samples.new_off) = true
  /\ @parse_crontab_line Samples.sample_host
       (strip (@build_crontab_line Samples.sample_host Samples.new_off))
     = Some (Samples.parsed (lit "0 5 * * * /opt/iptv/check_and_off.sh"))
  /\ crontab
       (snd (@delete_schedule Samples.sample_host
               (id (Samples.parsed (lit "0 5 * * * /opt/iptv/check_and_off.sh")))
               (snd (@add_schedule Samples.sample_host Samples.new_off
                       (Samples.fresh
                          (Samples.table_of [Samples.line_other]))))))
     = crontab (Samples.fresh (Samples.table_of [Samples.line_other])).
Proof.
  assert (H1 : terminated
                 (crontab (Samples.fresh
                             (Samples.table_of [Samples.line_other]))))
    by (right; reflexivity).
  assert (H2 : ~ In LF (@build_crontab_line Samples.sample_host
                          Samples.new_off))
    by (apply char_in_false; reflexivity).
  assert (H2' : ~ In CR (@build_crontab_line Samples.sample_host
                           Samples.new_off))
    by (apply char_in_false; reflexivity).
  assert (H3 : @is_domain_line
                 (@build_crontab_line Samples.sample_host Samples.new_off)
               = true) by reflexivity.
  assert (H4 : @parse_crontab_line Samples.sample_host
                 (strip (@build_crontab_line Samples.sample_host
                           Samples.new_off))
               = Some (Samples.parsed
                         (lit "0 5 * * * /opt/iptv/check_and_off.sh")))
    by reflexivity.
  split; [exact H1|]. split; [exact H2|]. split; [exact H2'|].
  split; [exact H3|].
  split; [exact H4|].
  refine (@add_then_delete_restores Samples.sample_host Samples.new_off
            (Samples.fresh (Samples.table_of [Samples.line_other]))
            (Samples.parsed (lit "0 5 * * * /opt/iptv/check_and_off.sh"))
            H1 H2 H2' H3 H4 _ _ _ _).
  - intros l Hl Hd. vm_compute in Hl. destruct Hl as [<- | [<- | []]].
    + vm_compute in Hd. discriminate.
    + reflexivity.
  - intros r' Hr'. vm_compute in Hr'. destruct Hr'.
  - reflexivity.
  - vm_compute. reflexivity.
Defined.

(** C4 as stated fails on a table whose last line has no line feed: the
    add supplies one, and the delete leaves it.  It fails as well, on a
    terminated table, when the built line starts with a carriage return:
    the line is read back behind an empty line, which the delete
    leaves. *)
Lemma add_then_delete_counterexample :
  (forall l, In l (split LF (crontab (Samples.fresh Samples.line_other))) ->
             @is_domain_line l = true ->
             contains l (raw (Samples.parsed
                                (lit "0 5 * * * /opt/iptv/check_and_off.sh")))
             = false)
  /\ fst (@add_schedule Samples.sample_host Samples.new_off
            (Samples.fresh Samples.line_other)) = true
  /\ fst (@delete_schedule Samples.sample_host
            (id (Samples.parsed (lit "0 5 * * * /opt/iptv/check_and_off.sh")))
            (snd (@add_schedule Samples.sample_host Samples.new_off
                    (Samples.fresh Samples.line_other)))) = true
  /\ crontab
       (snd (@delete_schedule Samples.sample_host
               (id (Samples.parsed (lit "0 5 * * * /opt/iptv/check_and_off.sh")))
               (snd (@add_schedule Samples.sample_host Samples.new_off
                       (Samples.fresh Samples.line_other)))))
     = Samples.line_other ++ [LF]
  /\ crontab
       (snd (@delete_schedule Samples.sample_host
               (id (Samples.parsed (lit "0 5 * * * /opt/iptv/check_and_off.sh")))
               (snd (@add_schedule Samples.sample_host Samples.new_off
                       (Samples.fresh Samples.line_other)))))
     <> crontab (Samples.fresh Samples.line_other)
  /\ (terminated
        (crontab (Samples.fresh (Samples.table_of [Samples.line_other])))
      /\ ~ In LF (@build_crontab_line Samples.sample_host Samples.new_off_cr)
      /\ @is_domain_line
           (@build_crontab_line Samples.sample_host Samples.new_off_cr)
         = true
      /\ @parse_crontab_line Samples.sample_host
           (strip (@build_crontab_line Samples.sample_host
                     Samples.new_off_cr))
         = Some (Samples.parsed (lit "5 0 * * * /opt/iptv/check_and_off.sh"))
      /\ (forall l,
            In l (split LF
                    (crontab (Samples.fresh
                                (Samples.table_of [Samples.line_other])))) ->
            @is_domain_line l = true ->
            contains l (raw (Samples.parsed
                               (lit "5 0 * * * /opt/iptv/check_and_off.sh")))
            = false)
      /\ @extract_iptv_schedules Samples.sample_host
           (crontab (Samples.fresh (Samples.table_of [Samples.line_other])))
         = []
      /\ fst (@add_schedule Samples.sample_host Samples.new_off_cr
                (Samples.fresh (Samples.table_of [Samples.line_other])))
         = true
      /\ fst (@delete_schedule Samples.sample_host
                (id (Samples.parsed
                       (lit "5 0 * * * /opt/iptv/check_and_off.sh")))
                (snd (@add_schedule Samples.sample_host Samples.new_off_cr
                        (Samples.fresh
                           (Samples.table_of [Samples.line_other])))))
         = true
      /\ crontab
           (snd (@delete_schedule Samples.sample_host
                   (id (Samples.parsed
                          (lit "5 0 * * * /opt/iptv/check_and_off.sh")))
                   (snd (@add_schedule Samples.sample_host
                           Samples.new_off_cr
                           (Samples.fresh
                              (Samples.table_of [Samples.line_other]))))))
         = Samples.table_of [Samples.line_other; []]
      /\ Samples.table_of [Samples.line_other; []]
         <> crontab
              (Samples.fresh (Samples.table_of [Samples.line_other]))).
Proof.
  split; [|split; [|split; [|split; [|split]]]].
  - intros l Hl Hd. vm_compute in Hl. destruct Hl as [<- | []].
    vm_compute in Hd. discriminate.
  - reflexivity.
  - vm_compute. reflexivity.
  - vm_compute. reflexivity.
  - vm_compute. discriminate.
  - split; [right; reflexivity|].
    split; [apply char_in_false; reflexivity|].
    split; [vm_compute; reflexivity|]. split; [vm_compute; reflexivity|].
    split.
    { intros l Hl Hd. vm_compute in Hl. destruct Hl as [<- | [<- | []]].
      - vm_compute in Hd. discriminate.
      - reflexivity. }
    split; [vm_compute; reflexivity|].
    split; [vm_compute; reflexivity|]. split; [vm_compute; reflexivity|].
    split; [vm_compute; reflexivity|]. vm_compute. discriminate.
Qed.

(** ** Toggling *)

Section Toggle.

Context {host : Host}.

Lemma toggled_line_cases (t : schedule) :
  parse_crontab_line (raw t) = Some t ->
  toggled_line (raw t) (negb (enabled t))
  = if enabled t then lit "# " ++ raw t
    else lstrip_chars (lit "# ") (raw t).
Proof.
  intros Hp. destruct (parse_crontab_line_raw _ _ Hp) as [_ [_ He]].
  unfold toggled_line. destruct (enabled t); cbn [negb]; [|reflexivity].
  now rewrite <- He.
Qed.

(** C1, amended: for the first extracted schedule [t] with the given id,
    [toggle_schedule] hands to [set_crontab] the table in which every
    occurrence of the raw line of [t] is replaced: the new line is the raw
    line behind [# ] when [t] is enabled, and the raw line without its
    leading [#] and blanks when it is not.  The replacement works line by
    line: a line that is the raw line between whitespace becomes the new
    line between the same whitespace, wherever it stands in the table, and
    a line without the raw text is unchanged. *)
Theorem toggle_schedule_rewrites (schedule_id : Z) (w : world)
  (t : schedule) :
  find_schedule schedule_id (extract_iptv_schedules (crontab w)) = Some t ->
  exists new_line,
    new_line = (if enabled t then lit "# " ++ raw t
                else lstrip_chars (lit "# ") (raw t))
    /\ toggle_schedule schedule_id w
       = set_crontab (replace (crontab w) (raw t) new_line) w
    /\ split LF (replace (crontab w) (raw t) new_line)
       = map (fun l => replace l (raw t) new_line) (split LF (crontab w))
    /\ (forall a b, all_space a = true -> all_space b = true ->
          replace (a ++ raw t ++ b) (raw t) new_line = a ++ new_line ++ b)
    /\ (forall l, contains l (raw t) = false ->
          replace l (raw t) new_line = l)
    /\ (enabled t = true -> startswith (strip new_line) (lit "#") = true)
    /\ (enabled t = false -> first_nonspace new_line = true ->
          startswith (strip new_line) (lit "#") = false)
    /\ (fst (toggle_schedule schedule_id w) = true ->
          crontab (snd (toggle_schedule schedule_id w))
          = replace (crontab w) (raw t) new_line).
Proof.
  intros F. pose proof F as F'.
  apply find_schedule_some in F' as [Hin _].
  destruct (extracted_raw _ _ Hin) as [Hne [He [Hlf [Hi [Hp _]]]]].
  exists (toggled_line (raw t) (negb (enabled t))).
  assert (E : toggle_schedule schedule_id w
              = set_crontab (replace (crontab w) (raw t)
                               (toggled_line (raw t) (negb (enabled t)))) w).
  { unfold toggle_schedule, mbind, get_crontab. now rewrite F. }
  split; [now apply toggled_line_cases|]. split; [exact E|].
  split; [|split; [|split; [|split; [|split]]]].
  - apply split_replace; [exact Hne | exact Hlf |].
    now apply toggled_line_no_lf.
  - intros a b Ha Hb. apply replace_padded; try assumption.
    unfold edges_nonspace in He. now apply andb_true_iff in He as [He _].
  - intros l Hl. now apply replace_absent.
  - intros Hen. rewrite toggled_line_cases, Hen by exact Hp.
    destruct (strip_first "#"%char (" "%char :: raw t) eq_refl) as [x Hx].
    change (lit "# " ++ raw t) with ("#"%char :: " "%char :: raw t).
    now rewrite Hx.
  - intros Hen Hfirst. rewrite toggled_line_cases, Hen in * by exact Hp.
    destruct (lstrip_chars (lit "# ") (raw t)) as [|c rest] eqn:L;
      [discriminate|].
    assert (Hc : char_in c (lit "# ") = false)
      by exact (drop_while_head _ _ _ _ L).
    simpl in Hfirst. apply negb_true_iff in Hfirst.
    destruct (strip_first c rest Hfirst) as [x ->].
    change (lit "#") with ["#"%char]. cbn [startswith].
    rewrite andb_true_r. unfold char_in in Hc.
    change (lit "# ") with ["#"%char; " "%char] in Hc. cbn [existsb] in Hc.
    apply orb_false_iff in Hc as [Hc _]. now rewrite Ascii.eqb_sym.
  - rewrite E. apply set_crontab_true. now apply toggle_content_no_cr.
Qed.

End Toggle.

Lemma toggle_schedule_rewrites_witness :
  @find_schedule (Samples.id_of Samples.line_off)
    (@extract_iptv_schedules Samples.sample_host
       (crontab (Samples.fresh
                   (Samples.table_of [Samples.line_off; Samples.line_off]))))
  = Some (Samples.parsed Samples.line_off)
  /\ crontab
       (snd (@toggle_schedule Samples.sample_host
               (Samples.id_of Samples.line_off)
               (Samples.fresh
                  (Samples.table_of [Samples.line_off; Samples.line_off]))))
     = Samples.table_of [lit "# " ++ Samples.line_off;
                         lit "# " ++ Samples.line_off].
Proof.
  assert (H : @find_schedule (Samples.id_of Samples.line_off)
    (@extract_iptv_schedules Samples.sample_host
       (crontab (Samples.fresh
                   (Samples.table_of [Samples.line_off; Samples.line_off]))))
  = Some (Samples.parsed Samples.line_off)) by reflexivity.
  split; [exact H|].
  destruct (@toggle_schedule_rewrites Samples.sample_host
              (Samples.id_of Samples.line_off)
              (Samples.fresh
                 (Samples.table_of [Samples.line_off; Samples.line_off]))
              (Samples.parsed Samples.line_off) H)
    as [new_line [E1 [_ [_ [_ [_ [_ [_ E2]]]]]]]].
  rewrite E2 by reflexivity. rewrite E1. reflexivity.
Defined.

(** C1 as stated fails: with the same line twice in the table, both
    occurrences are rewritten, not the first one only. *)
Lemma toggle_schedule_rewrites_counterexample :
  crontab
    (snd (@toggle_schedule Samples.sample_host
            (Samples.id_of Samples.line_off)
            (Samples.fresh
               (Samples.table_of [Samples.line_off; Samples.line_off]))))
  = Samples.table_of [lit "# " ++ Samples.line_off;
                      lit "# " ++ Samples.line_off]
  /\ replace_first
       (Samples.table_of [Samples.line_off; Samples.line_off])
       Samples.line_off (lit "# " ++ Samples.line_off)
     = Samples.table_of [lit "# " ++ Samples.line_off; Samples.line_off]
  /\ crontab
       (snd (@toggle_schedule Samples.sample_host
               (Samples.id_of Samples.line_off)
               (Samples.fresh
                  (Samples.table_of [Samples.line_off; Samples.line_off]))))
     <> replace_first
          (Samples.table_of [Samples.line_off; Samples.line_off])
          Samples.line_off (lit "# " ++ Samples.line_off).
Proof.
  split; [vm_compute; reflexivity|]. split; [vm_compute; reflexivity|].
  vm_compute. discriminate.
Qed.

Section ToggleTwice.

Context {host : Host}.

Lemma toggle_schedule_found (schedule_id : Z) (w : world) (t : schedule) :
  find_schedule schedule_id (extract_iptv_schedules (crontab w)) = Some t ->
  toggle_schedule schedule_id w
  = set_crontab (replace (crontab w) (raw t)
                   (toggled_line (raw t) (negb (enabled t)))) w.
Proof.
  intros F. unfold toggle_schedule, mbind, get_crontab. now rewrite F.
Qed.



Lemma strip_padded (l : str) :
  exists a b, all_space a = true /\ all_space b = true
              /\ l = a ++ strip l ++ b.
Proof.
  destruct (strip_decompose l) as [a [b [E [Ha Hb]]]]. now exists a, b.
Qed.






End ToggleTwice.



(* ================================================================== *)
(** * Part III: further properties of the program *)
(* ================================================================== *)

(** ** More on the next run *)

Lemma weekday_range (d : Datetime.datetime) :
  (0 <= Datetime.weekday d <= 6)%Z.
Proof.
  unfold Datetime.weekday.
  pose proof (Z.mod_pos_bound (Datetime.ordinal d + 6) 7 ltac:(lia)). lia.
Qed.

(** The walk finds nothing when no day can match or the time of day is
    refused. *)
Lemma next_run_loop_nothing (n : nat) (weekdays : list Z) (h m : Z)
  (from_time c : Datetime.datetime) :
  (forall d, In d weekdays -> (d < 0 \/ 6 < d)%Z)
  \/ (forall s us, Datetime.time_fields_ok h m s us = false) ->
  match next_run_loop n weekdays h m from_time c with
  | Ok (Some _) => False
  | _ => True
  end.
Proof.
  intros H. revert c. induction n as [|n IH]; intros c; [exact I|].
  cbn [next_run_loop].
  assert (Hnext :
    match bind (Datetime.add_days c 1)
            (fun c' => next_run_loop n weekdays h m from_time c') with
    | Ok (Some _) => False
    | _ => True
    end).
  { destruct (Datetime.add_days c 1) as [c'|e]; cbn [bind]; [apply IH | exact I]. }
  destruct (int_in (Datetime.weekday c) weekdays) eqn:W; cbn [bind];
    [|exact Hnext].
  destruct H as [H | H].
  - apply int_in_spec in W. apply H in W.
    pose proof (weekday_range c). lia.
  - unfold Datetime.replace. rewrite H. exact I.
Qed.

Lemma time_fields_refused (h m : Z) :
  ~ ((0 <= h <= 23)%Z /\ (0 <= m <= 59)%Z) ->
  forall s us, Datetime.time_fields_ok h m s us = false.
Proof.
  intros H s us. destruct (Datetime.time_fields_ok h m s us) eqn:E;
    [|reflexivity]. apply time_fields_ok_spec in E. tauto.
Qed.

(** X1: a schedule whose hour, minute or weekday field does not parse, or
    whose hour or minute is out of range, has no next run, from any
    instant. *)
Theorem calculate_next_run_rejects (s : schedule)
  (from_time : Datetime.datetime) :
  (exists e, int (hour s) = Raise e)
  \/ (exists e, int (minute s) = Raise e)
  \/ (exists e, parse_weekday (weekday s) = Raise e)
  \/ (exists h m, int (hour s) = Ok h /\ int (minute s) = Ok m
                  /\ ~ ((0 <= h <= 23)%Z /\ (0 <= m <= 59)%Z)) ->
  calculate_next_run s from_time = None.
Proof.
  intros H. unfold calculate_next_run.
  destruct (int (hour s)) as [h|eh] eqn:Eh; cbn [bind]; [|reflexivity].
  destruct (int (minute s)) as [m|em] eqn:Em; cbn [bind]; [|reflexivity].
  destruct (parse_weekday (weekday s)) as [wds|ew] eqn:Ew; cbn [bind];
    [|reflexivity].
  destruct H as [[e H] | [[e H] | [[e H] | [h' [m' [H1 [H2 H3]]]]]]];
    try discriminate.
  injection H1 as <-. injection H2 as <-.
  destruct (Datetime.replace from_time None None (Some 0%Z) (Some 0%Z))
    as [c|e]; cbn [bind]; [|reflexivity].
  pose proof (next_run_loop_nothing 8 wds h m from_time c
                (or_intror (time_fields_refused h m H3))) as L.
  destruct (next_run_loop 8 wds h m from_time c) as [[r|]|e];
    [contradiction | reflexivity | reflexivity].
Qed.

Lemma calculate_next_run_rejects_witness :
  ((exists e, int (hour Samples.schedule_two_dashes) = Raise e)
   \/ (exists e, int (minute Samples.schedule_two_dashes) = Raise e)
   \/ (exists e,
         parse_weekday (weekday Samples.schedule_two_dashes) = Raise e)
   \/ (exists h m, int (hour Samples.schedule_two_dashes) = Ok h
                   /\ int (minute Samples.schedule_two_dashes) = Ok m
                   /\ ~ ((0 <= h <= 23)%Z /\ (0 <= m <= 59)%Z)))
  /\ calculate_next_run Samples.schedule_two_dashes Samples.afternoon = None.
Proof.
  assert (H : (exists e, int (hour Samples.schedule_two_dashes) = Raise e)
   \/ (exists e, int (minute Samples.schedule_two_dashes) = Raise e)
   \/ (exists e,
         parse_weekday (weekday Samples.schedule_two_dashes) = Raise e)
   \/ (exists h m, int (hour Samples.schedule_two_dashes) = Ok h
                   /\ int (minute Samples.schedule_two_dashes) = Ok m
                   /\ ~ ((0 <= h <= 23)%Z /\ (0 <= m <= 59)%Z))).
  { right. right. left. exists ValueError. reflexivity. }
  exact (conj H (calculate_next_run_rejects _ Samples.afternoon H)).
Defined.

(** X2: when the weekday field parses to a set with no number from 0 to 6
    in it (an empty set, as a range that runs backwards gives, or numbers
    that name no day), the schedule has no next run. *)
Theorem calculate_next_run_no_weekday (s : schedule)
  (from_time : Datetime.datetime) (weekdays : list Z) :
  parse_weekday (weekday s) = Ok weekdays ->
  (forall d, In d weekdays -> (d < 0 \/ 6 < d)%Z) ->
  calculate_next_run s from_time = None.
Proof.
  intros Hw Hd. unfold calculate_next_run.
  destruct (int (hour s)) as [h|eh]; cbn [bind]; [|reflexivity].
  destruct (int (minute s)) as [m|em]; cbn [bind]; [|reflexivity].
  rewrite Hw. cbn [bind].
  destruct (Datetime.replace from_time None None (Some 0%Z) (Some 0%Z))
    as [c|e]; cbn [bind]; [|reflexivity].
  pose proof (next_run_loop_nothing 8 weekdays h m from_time c
                (or_introl Hd)) as L.
  destruct (next_run_loop 8 weekdays h m from_time c) as [[r|]|e];
    [contradiction | reflexivity | reflexivity].
Qed.

Lemma calculate_next_run_no_weekday_witness :
  parse_weekday (weekday Samples.schedule_backwards) = Ok []
  /\ (forall d, In d (@nil Z) -> (d < 0 \/ 6 < d)%Z)
  /\ calculate_next_run Samples.schedule_backwards Samples.afternoon = None.
Proof.
  assert (H1 : parse_weekday (weekday Samples.schedule_backwards) = Ok [])
    by reflexivity.
  assert (H2 : forall d, In d (@nil Z) -> (d < 0 \/ 6 < d)%Z)
    by (intros d []).
  exact (conj H1 (conj H2
           (calculate_next_run_no_weekday _ Samples.afternoon [] H1 H2))).
Defined.

(** X3: with hour and minute in range, a weekday set that holds a day
    number from 0 to 6, and a week left before the last representable day,
    a next run exists: it is later than [from_time] and at most 7 days
    ahead.  The 8 days of the walk are enough. *)
Theorem calculate_next_run_total (s : schedule)
  (from_time : Datetime.datetime) (h m d : Z) (weekdays : list Z) :
  int (hour s) = Ok h -> int (minute s) = Ok m ->
  (0 <= h <= 23)%Z -> (0 <= m <= 59)%Z ->
  parse_weekday (weekday s) = Ok weekdays ->
  In d weekdays -> (0 <= d <= 6)%Z ->
  Datetime.valid from_time ->
  (Datetime.ordinal from_time + 7 <= Datetime.MAXORDINAL)%Z ->
  exists r,
    calculate_next_run s from_time = Some r
    /\ Datetime.ltb from_time r = true
    /\ (Datetime.ordinal from_time <= Datetime.ordinal r
        <= Datetime.ordinal from_time + 7)%Z
    /\ In (Datetime.weekday r) weekdays
    /\ Datetime.hour r = h /\ Datetime.minute r = m.
Proof.
  intros Hh Hm Hhr Hmr Hw Hin Hd [Hdate Ht] Hroom.
  pose proof Hdate as Hdate'. apply date_ok_spec in Hdate'.
  pose proof Ht as Ht'. apply time_fields_ok_spec in Ht'.
  (* a run instant on one of the next 7 days *)
  set (k := ((d - (Datetime.ordinal from_time) - 7) mod 7 + 1)%Z).
  assert (Hk : (1 <= k <= 7)%Z).
  { subst k. pose proof (Z.mod_pos_bound (d - (Datetime.ordinal from_time) - 7) 7 ltac:(lia)). lia. }
  set (c := Datetime.mk ((Datetime.ordinal from_time) + k) h m 0 0).
  assert (Hc : run_instant weekdays h m from_time c).
  { unfold run_instant, c. cbn [Datetime.hour Datetime.minute Datetime.second
      Datetime.microsecond]. repeat split.
    - apply date_ok_spec. simpl. lia.
    - apply time_fields_ok_spec. simpl. lia.
    - unfold Datetime.weekday. cbn [Datetime.ordinal].
      replace (((Datetime.ordinal from_time) + k + 6) mod 7)%Z with d; [exact Hin|].
      subst k. symmetry.
      replace ((Datetime.ordinal from_time) + ((d - (Datetime.ordinal from_time) - 7) mod 7 + 1) + 6)%Z
        with ((d - (Datetime.ordinal from_time) - 7) mod 7 + ((Datetime.ordinal from_time) + 7))%Z by lia.
      rewrite Zplus_mod_idemp_l.
      replace (d - (Datetime.ordinal from_time) - 7 + ((Datetime.ordinal from_time) + 7))%Z with d by lia.
      apply Z.mod_small. lia.
    - apply datetime_ltb_spec. left. simpl. lia. }
  unfold calculate_next_run. rewrite Hh, Hm, Hw. cbn [bind].
  unfold Datetime.replace.
  rewrite (proj2 (time_fields_ok_spec _ _ 0 0)) by lia. cbn [bind].
  pose proof (next_run_loop_spec weekdays h m from_time Hhr Hmr 8 0
                ltac:(lia)) as L.
  cbv beta zeta in L.
  assert (E : Datetime.mk ((Datetime.ordinal from_time) + 0)
                (Datetime.hour from_time) (Datetime.minute from_time) 0 0
              = Datetime.mk (Datetime.ordinal from_time)
                  (Datetime.hour from_time) (Datetime.minute from_time) 0 0)
    by (f_equal; lia).
  rewrite E in L. clear E.
  replace (Datetime.ordinal from_time + 0)%Z
    with (Datetime.ordinal from_time) in L by lia.
  specialize (L Hdate ltac:(intros; lia)).
  match type of L with
  | match ?X with _ => _ end => destruct X as [[r|]|e]
  end; cbv beta iota.
  - destruct L as [[Hv [Hwd [Hrh [Hrm [Hrs [Hru Hlt]]]]]] [Hwin Hmin]].
    exists r. repeat split; try assumption; lia.
  - specialize (L c Hc ltac:(simpl; lia)). simpl in L. lia.
  - exfalso. apply (L c Hc). simpl. lia.
Qed.

Lemma calculate_next_run_total_witness :
  int (hour Samples.schedule_off) = Ok 17%Z
  /\ int (minute Samples.schedule_off) = Ok 0%Z
  /\ parse_weekday (weekday Samples.schedule_off) = Ok [0; 1; 2; 3; 4]%Z
  /\ Datetime.valid Samples.afternoon
  /\ exists r,
       calculate_next_run Samples.schedule_off Samples.afternoon = Some r
       /\ Datetime.ltb Samples.afternoon r = true
       /\ (Datetime.ordinal Samples.afternoon <= Datetime.ordinal r
           <= Datetime.ordinal Samples.afternoon + 7)%Z
       /\ In (Datetime.weekday r) [0; 1; 2; 3; 4]%Z
       /\ Datetime.hour r = 17%Z /\ Datetime.minute r = 0%Z.
Proof.
  assert (H1 : int (hour Samples.schedule_off) = Ok 17%Z) by reflexivity.
  assert (H2 : int (minute Samples.schedule_off) = Ok 0%Z) by reflexivity.
  assert (H3 : parse_weekday (weekday Samples.schedule_off)
               = Ok [0; 1; 2; 3; 4]%Z) by reflexivity.
  assert (H4 : Datetime.valid Samples.afternoon) by (split; reflexivity).
  refine (conj H1 (conj H2 (conj H3 (conj H4
    (calculate_next_run_total Samples.schedule_off Samples.afternoon
       17 0 3 [0; 1; 2; 3; 4]%Z H1 H2 _ _ H3 _ _ H4 _))))).
  - lia.
  - lia.
  - simpl. tauto.
  - lia.
  - vm_compute. discriminate.
Defined.

Lemma next_run_loop_step (n : nat) (weekdays : list Z) (h m : Z)
  (from_time c : Datetime.datetime) :
  next_run_loop (S n) weekdays h m from_time c
  = bind
      (if int_in (Datetime.weekday c) weekdays then
         bind (Datetime.replace c (Some h) (Some m) None None)
           (fun run_time =>
              Ok (if Datetime.ltb from_time run_time then Some run_time
                  else None))
       else Ok None)
      (fun found =>
         match found with
         | Some run_time => Ok (Some run_time)
         | None =>
             bind (Datetime.add_days c 1)
               (fun c' => next_run_loop n weekdays h m from_time c')
         end).
Proof. reflexivity. Qed.

Lemma int_in_every_day (c : Datetime.datetime) :
  int_in (Datetime.weekday c) (range 0 7) = true.
Proof.
  apply int_in_spec, in_range. pose proof (weekday_range c). lia.
Qed.

(** X4: a schedule for every day ([*]) runs today at its time when that is
    still ahead, and otherwise tomorrow (unless today is the last
    representable day). *)
Theorem calculate_next_run_everyday (s : schedule)
  (from_time : Datetime.datetime) (h m : Z) :
  weekday s = lit "*" ->
  int (hour s) = Ok h -> int (minute s) = Ok m ->
  (0 <= h <= 23)%Z -> (0 <= m <= 59)%Z ->
  Datetime.valid from_time ->
  calculate_next_run s from_time
  = if Datetime.ltb from_time
         (Datetime.mk (Datetime.ordinal from_time) h m 0 0)
    then Some (Datetime.mk (Datetime.ordinal from_time) h m 0 0)
    else if Datetime.date_ok (Datetime.ordinal from_time + 1)
         then Some (Datetime.mk (Datetime.ordinal from_time + 1) h m 0 0)
         else None.
Proof.
  intros Hw Hh Hm Hhr Hmr [Hd Ht]. apply time_fields_ok_spec in Ht.
  assert (Hok : Datetime.time_fields_ok h m 0 0 = true)
    by (apply time_fields_ok_spec; lia).
  unfold calculate_next_run. rewrite Hh, Hm, Hw.
  replace (parse_weekday (lit "*")) with (Ok (range 0 7)) by reflexivity.
  cbn [bind]. unfold Datetime.replace at 1.
  rewrite (proj2 (time_fields_ok_spec _ _ 0 0)) by lia. cbn [bind].
  change 8%nat with (S 7). rewrite next_run_loop_step, int_in_every_day.
  unfold Datetime.replace at 1.
  cbn [Datetime.second Datetime.microsecond Datetime.ordinal].
  rewrite Hok. cbn [bind].
  destruct (Datetime.ltb from_time
              (Datetime.mk (Datetime.ordinal from_time) h m 0 0)) eqn:L;
    cbn [bind]; [reflexivity|].
  unfold Datetime.add_days. cbn [Datetime.ordinal Datetime.hour
    Datetime.minute Datetime.second Datetime.microsecond].
  destruct (Datetime.date_ok (Datetime.ordinal from_time + 1)) eqn:D;
    cbn [bind]; [|reflexivity].
  change 7%nat with (S 6). rewrite next_run_loop_step, int_in_every_day.
  unfold Datetime.replace at 1.
  cbn [Datetime.second Datetime.microsecond Datetime.ordinal].
  rewrite Hok. cbn [bind].
  replace (Datetime.ltb from_time
             (Datetime.mk (Datetime.ordinal from_time + 1) h m 0 0))
    with true; [reflexivity|].
  symmetry. apply datetime_ltb_spec. left. simpl. lia.
Qed.

Lemma calculate_next_run_everyday_witness :
  weekday Samples.schedule_on = lit "*"
  /\ int (hour Samples.schedule_on) = Ok 7%Z
  /\ int (minute Samples.schedule_on) = Ok 30%Z
  /\ Datetime.valid Samples.afternoon
  /\ calculate_next_run Samples.schedule_on Samples.afternoon
     = Some (Datetime.mk 738889 7 30 0 0).
Proof.
  assert (H1 : weekday Samples.schedule_on = lit "*") by reflexivity.
  assert (H2 : int (hour Samples.schedule_on) = Ok 7%Z) by reflexivity.
  assert (H3 : int (minute Samples.schedule_on) = Ok 30%Z) by reflexivity.
  assert (H4 : Datetime.valid Samples.afternoon) by (split; reflexivity).
  refine (conj H1 (conj H2 (conj H3 (conj H4 _)))).
  rewrite (calculate_next_run_everyday Samples.schedule_on Samples.afternoon
             7 30 H1 H2 H3 ltac:(lia) ltac:(lia) H4).
  reflexivity.
Defined.

(** ** The weekday field *)

Lemma contains_char (t : str) (c : ascii) :
  contains t [c] = true <-> In c t.
Proof.
  rewrite contains_spec. split.
  - intros [a [b ->]]. apply in_or_app. right. now left.
  - intros H. apply in_split in H. destruct H as [a [b ->]]. now exists a, b.
Qed.

Lemma split_two (sep : ascii) (t start stop : str) :
  split sep t = [start; stop]
  <-> t = start ++ sep :: stop /\ ~ In sep start /\ ~ In sep stop.
Proof.
  split.
  - intros E. split; [|split].
    + rewrite <- (join_split sep t), E. reflexivity.
    + apply (split_pieces sep t). rewrite E. now left.
    + apply (split_pieces sep t). rewrite E. right. now left.
  - intros [-> [Ha Hb]].
    rewrite split_app_sep, !split_nosep by assumption. reflexivity.
Qed.

Lemma int_error (t : str) (e : exn) : int t = Raise e -> e = ValueError.
Proof.
  unfold int.
  destruct (_ <? _)%nat; [congruence|].
  destruct (parse_digits _ _ _); congruence.
Qed.

Lemma parse_weekday_part_error (t : str) (e : exn) :
  parse_weekday_part t = Raise e -> e = ValueError.
Proof.
  unfold parse_weekday_part.
  destruct (contains t (lit "-")).
  - destruct (split "-" t) as [|a [|b [|c l]]]; try congruence.
    destruct (int a) eqn:Ea; cbn [bind].
    + destruct (int b) eqn:Eb; cbn [bind]; [congruence|].
      intros [= <-]. now apply int_error in Eb.
    + intros [= <-]. now apply int_error in Ea.
  - destruct (int t) eqn:Et; cbn [bind]; [congruence|].
    intros [= <-]. now apply int_error in Et.
Qed.

Lemma parse_weekday_part_spec (t : str) (l : list Z) :
  parse_weekday_part t = Ok l <-> Spec.weekday_term t l.
Proof.
  unfold parse_weekday_part, Spec.weekday_term.
  change (lit "-") with ["-"%char].
  destruct (contains t ["-"%char]) eqn:C.
  - apply contains_char in C. split.
    + intros H. right.
      destruct (split "-" t) as [|a [|b [|c r]]] eqn:S; try discriminate.
      apply split_two in S. destruct S as [-> [Ha Hb]].
      destruct (int a) as [x|] eqn:Ea; cbn [bind] in H; [|discriminate].
      destruct (int b) as [y|] eqn:Eb; cbn [bind] in H; [|discriminate].
      injection H as <-. exists a, b, x, y. tauto.
    + intros [[Hn _] | [a [b [x [y [-> [Ha [Hb [Ea [Eb ->]]]]]]]]]];
        [contradiction|].
      rewrite (proj2 (split_two "-" _ a b)) by tauto.
      rewrite Ea, Eb. reflexivity.
  - assert (Hn : ~ In "-"%char t).
    { intros H. apply contains_char in H. congruence. }
    split.
    + intros H. left. split; [exact Hn|].
      destruct (int t) as [v|] eqn:Et; cbn [bind] in H; [|discriminate].
      injection H as <-. now exists v.
    + intros [[_ [v [Et ->]]] | [a [b [x [y [-> _]]]]]].
      * rewrite Et. reflexivity.
      * exfalso. apply Hn. apply in_or_app. right. now left.
Qed.

Lemma parse_weekday_parts_spec (parts : list str) (ws : list Z) :
  parse_weekday_parts parts [] = Ok ws
  <-> exists sets, Forall2 Spec.weekday_term parts sets
                   /\ ws = List.concat sets.
Proof.
  revert ws. induction parts as [|p parts IH]; intros ws.
  - simpl. split.
    + intros [= <-]. exists []. split; [constructor | reflexivity].
    + intros [sets [HF ->]]. inversion HF. reflexivity.
  - cbn [parse_weekday_parts]. split.
    + destruct (parse_weekday_part p) as [l|] eqn:Ep; cbn [bind];
        [|discriminate].
      rewrite parse_weekday_parts_acc.
      destruct (parse_weekday_parts parts []) as [r|] eqn:Er; cbn [bind];
        [|discriminate].
      intros [= <-]. destruct (proj1 (IH r) eq_refl) as [sets [HF ->]].
      exists (l :: sets). split; [|reflexivity].
      constructor; [now apply parse_weekday_part_spec | exact HF].
    + intros [sets [HF ->]]. inversion HF as [|t l ps ss Ht HF' E1 E2].
      subst. apply parse_weekday_part_spec in Ht. rewrite Ht. cbn [bind].
      rewrite parse_weekday_parts_acc.
      rewrite (proj2 (IH (List.concat ss))) by now exists ss.
      reflexivity.
Qed.

Lemma parse_weekday_parts_error (parts : list str) (acc : list Z) (e : exn) :
  parse_weekday_parts parts acc = Raise e -> e = ValueError.
Proof.
  revert acc. induction parts as [|p parts IH]; intros acc; simpl;
    [discriminate|].
  destruct (parse_weekday_part p) as [l|e'] eqn:Ep; cbn [bind].
  - apply IH.
  - intros [= <-]. now apply parse_weekday_part_error in Ep.
Qed.

(** X5: a weekday field other than [*] is read exactly when each of its
    comma-separated terms is an integer literal or two integer literals
    joined by one dash; the result is the concatenation of the terms'
    lists, in order, and every other field raises [ValueError]. *)
Theorem parse_weekday_terms (weekday_str : str) :
  weekday_str <> lit "*" ->
  (forall ws,
     parse_weekday weekday_str = Ok ws
     <-> exists sets,
           Forall2 Spec.weekday_term (split "," weekday_str) sets
           /\ ws = List.concat sets)
  /\ (forall e, parse_weekday weekday_str = Raise e -> e = ValueError).
Proof.
  intros Hs. unfold parse_weekday.
  rewrite (proj2 (str_eqb_neq _ _) Hs). split.
  - intros ws. apply parse_weekday_parts_spec.
  - intros e. apply parse_weekday_parts_error.
Qed.

Lemma parse_weekday_terms_witness :
  lit "1-5,0" <> lit "*"
  /\ (forall ws,
        parse_weekday (lit "1-5,0") = Ok ws
        <-> exists sets,
              Forall2 Spec.weekday_term (split "," (lit "1-5,0")) sets
              /\ ws = List.concat sets)
  /\ (forall e, parse_weekday (lit "1-5,0") = Raise e -> e = ValueError).
Proof.
  assert (H : lit "1-5,0" <> lit "*") by discriminate.
  exact (conj H (parse_weekday_terms (lit "1-5,0") H)).
Defined.

(** ** The record of a parsed line *)

Lemma split_ws_tokens (s t : str) :
  In t (split_ws s) -> t <> [] /\ no_space t = true.
Proof.
  revert t. induction s as [|c s IH]; intros t; [intros []|].
  destruct (isspace c) eqn:E.
  - rewrite split_ws_space by exact E. apply IH.
  - destruct (split_ws_cons c s E)
      as [[-> S] | [[d [s' [-> [D S]]]] | [d [s' [w [ws [-> [D [S1 S2]]]]]]]]].
    + rewrite S. intros [<- | []]. split; [discriminate|].
      unfold no_space. simpl. now rewrite E.
    + rewrite S. intros [<- | H]; [|now apply IH].
      split; [discriminate|]. unfold no_space. simpl. now rewrite E.
    + rewrite S2. rewrite S1 in IH. intros [<- | H].
      * split; [discriminate|].
        destruct (IH w (or_introl eq_refl)) as [_ Hw].
        unfold no_space in *. simpl. now rewrite E, Hw.
      * apply IH. now right.
Qed.

Lemma split_ws_single (f : str) :
  f <> [] -> no_space f = true -> split_ws f = [f].
Proof.
  intros Hne Hf.
  rewrite <- (split_ws_trailing f (lit " ")) by reflexivity.
  change (f ++ lit " ") with (f ++ lit " " ++ []).
  now rewrite split_ws_field.
Qed.

Lemma split_ws_join (tokens : list str) :
  (forall t, In t tokens -> t <> [] /\ no_space t = true) ->
  split_ws (join (lit " ") tokens) = tokens.
Proof.
  induction tokens as [|x l IH]; intros H; [reflexivity|].
  destruct (H x (or_introl eq_refl)) as [Hx1 Hx2].
  destruct l as [|y l].
  - now apply split_ws_single.
  - rewrite join_cons, split_ws_field by assumption.
    rewrite IH; [reflexivity|]. intros t Ht. apply H. now right.
Qed.

Lemma startswith_hash (line : str) :
  startswith (strip line) (lit "#") = true
  <-> exists a rest, all_space a = true /\ line = a ++ "#"%char :: rest.
Proof.
  rewrite startswith_spec. split.
  - intros [r Hr]. destruct (strip_decompose line) as [a [b [Hl [Ha _]]]].
    exists a, (r ++ b). split; [exact Ha|]. rewrite Hl at 1. rewrite Hr.
    reflexivity.
  - intros [a [rest [Ha ->]]].
    destruct (strip_first "#"%char rest eq_refl) as [t Ht].
    exists t. change (lit "#" ++ t) with ("#"%char :: t). rewrite <- Ht.
    rewrite <- (app_nil_r ("#"%char :: rest)) at 1.
    now apply strip_around.
Qed.

Section ParseRecord.

Context {host : Host}.

(** The shape of the result of [parse_crontab_line]. *)
Lemma parse_crontab_line_shape (line : str) :
  match parse_crontab_line line with
  | None =>
      (List.length (split_ws (lstrip_chars (lit "# ") line)) < 6)%nat
  | Some r =>
      split_ws (lstrip_chars (lit "# ") line)
        = minute r :: hour r :: day r :: month r :: weekday r
            :: split_ws (command r)
      /\ split_ws (command r) <> []
      /\ command r = join (lit " ") (split_ws (command r))
      /\ raw r = line
      /\ (0 <= id r < 2 ^ 31)%Z
      /\ action r = (if contains (command r) (lit "up") then lit "on"
                     else lit "off")
      /\ (enabled r = false
          <-> exists a rest, all_space a = true
                             /\ line = a ++ "#"%char :: rest)
  end.
Proof.
  pose proof (split_ws_strip (lstrip_chars (lit "# ") line)) as Hs.
  pose proof (split_ws_tokens (lstrip_chars (lit "# ") line)) as Htok.
  destruct (split_ws (lstrip_chars (lit "# ") line))
    as [|m [|h [|d [|mo [|w [|x xs]]]]]] eqn:S;
    try (unfold parse_crontab_line; rewrite Hs; cbn; lia).
  destruct (parse_crontab_line_tokens line m h d mo w x xs Hs)
    as [r [-> [-> [-> [-> [-> [-> [Hc [Ha [He [Hr Hi]]]]]]]]]]].
  assert (Hrest : split_ws (command r) = x :: xs).
  { rewrite Hc. apply split_ws_join. intros t Ht. apply Htok.
    do 5 right. exact Ht. }
  rewrite Hrest. split; [reflexivity|]. split; [discriminate|].
  split; [exact Hc|]. split; [exact Hr|]. split; [|split].
  - rewrite Hi. change 2147483647%Z with (Z.ones 31).
    rewrite Z.land_ones by lia. apply Z.mod_pos_bound. lia.
  - rewrite Hc. exact Ha.
  - rewrite He, negb_false_iff. apply startswith_hash.
Qed.

(** X6: [parse_crontab_line] refuses a line exactly when the line, without
    its leading [#] and blanks, has fewer than six whitespace-separated
    tokens.  Otherwise the five time fields are the first five tokens, the
    command is the remaining tokens joined by single blanks, the record
    keeps the line as [raw], its id lies in 0 .. 2^31 - 1, its action is
    [on] exactly when the command holds [up] and [off] otherwise, and it is
    disabled exactly when the first non-whitespace character of the line
    is [#]. *)
Theorem parse_crontab_line_record (line : str) :
  match parse_crontab_line line with
  | None =>
      (List.length (split_ws (lstrip_chars (lit "# ") line)) < 6)%nat
  | Some r =>
      split_ws (lstrip_chars (lit "# ") line)
        = minute r :: hour r :: day r :: month r :: weekday r
            :: split_ws (command r)
      /\ split_ws (command r) <> []
      /\ command r = join (lit " ") (split_ws (command r))
      /\ raw r = line
      /\ (0 <= id r < 2 ^ 31)%Z
      /\ action r = (if contains (command r) (lit "up") then lit "on"
                     else lit "off")
      /\ (enabled r = false
          <-> exists a rest, all_space a = true
                             /\ line = a ++ "#"%char :: rest)
  end.
Proof. exact (parse_crontab_line_shape line). Qed.

End ParseRecord.

(** ** Comment marks and the extraction *)

Lemma lstrip_chars_app (chars p s : str) :
  (forall c, In c p -> char_in c chars = true) ->
  lstrip_chars chars (p ++ s) = lstrip_chars chars s.
Proof.
  intros H. induction p as [|c p IH]; [reflexivity|].
  unfold lstrip_chars in *. simpl.
  rewrite (H c) by now left. apply IH. intros d Hd. apply H. now right.
Qed.

Section Marks.

Context {host : Host}.

(** Marks put before a line do not change its entry. *)
Lemma parse_crontab_line_prefixed (p line : str) :
  (forall c, In c p -> c = "#"%char \/ c = " "%char) ->
  match parse_crontab_line line, parse_crontab_line (p ++ line) with
  | Some r, Some r' => same_entry r r' /\ raw r' = p ++ raw r
  | None, None => True
  | _, _ => False
  end.
Proof.
  intros Hp.
  assert (E : lstrip_chars (lit "# ") (p ++ line)
              = lstrip_chars (lit "# ") line).
  { apply lstrip_chars_app. intros c Hc.
    destruct (Hp c Hc) as [-> | ->]; reflexivity. }
  pose proof (parse_crontab_line_shape line) as H1.
  pose proof (parse_crontab_line_shape (p ++ line)) as H2.
  rewrite E in H2.
  destruct (parse_crontab_line line) as [r|],
           (parse_crontab_line (p ++ line)) as [r'|].
  - destruct H1 as [T1 [_ [C1 [R1 [_ [A1 _]]]]]].
    destruct H2 as [T2 [_ [C2 [R2 [_ [A2 _]]]]]].
    rewrite T1 in T2. injection T2 as Em Eh Ed Emo Ew Ec.
    assert (Ecmd : command r = command r') by (rewrite C1, C2; now rewrite Ec).
    split; [|now rewrite R1, R2].
    unfold same_entry. repeat split; try assumption.
    rewrite A1, A2, Ecmd. reflexivity.
  - destruct H1 as [T1 [N1 _]]. rewrite T1 in H2.
    destruct (split_ws (command r)); [congruence|]. simpl in H2. lia.
  - destruct H2 as [T2 [N2 _]]. rewrite T2 in H1.
    destruct (split_ws (command r')); [congruence|]. simpl in H1. lia.
  - exact I.
Qed.

(** X7: comment marks and blanks put before a line change neither whether
    the line parses nor the entry it parses to: the time fields, the
    command and the action stay, so disabling a line with [#] touches
    only the flag, the id and the raw text. *)
Theorem parse_crontab_line_marks (p line : str) :
  (forall c, In c p -> c = "#"%char \/ c = " "%char) ->
  match parse_crontab_line line, parse_crontab_line (p ++ line) with
  | Some r, Some r' => same_entry r r' /\ raw r' = p ++ raw r
  | None, None => True
  | _, _ => False
  end.
Proof. exact (parse_crontab_line_prefixed p line). Qed.

Lemma extract_lines_raws (rs : list schedule) :
  (forall r, In r rs -> extract_lines [raw r] = [r]) ->
  extract_lines (map raw rs) = rs.
Proof.
  induction rs as [|r rs IH]; intros H; [reflexivity|].
  change (map raw (r :: rs)) with ([raw r] ++ map raw rs).
  rewrite extract_lines_app, (H r) by now left.
  rewrite IH; [reflexivity|]. intros x Hx. apply H. now right.
Qed.

(** X8: the extraction is a round trip on its own output: the table made
    of the raw lines of the extracted records, one per line, extracts to
    the same records in the same order. *)
Theorem extract_raw_lines (text : str) :
  extract_iptv_schedules
    (join [LF] (map raw (extract_iptv_schedules text)))
  = extract_iptv_schedules text.
Proof.
  set (rs := extract_iptv_schedules text).
  assert (H : forall r, In r rs ->
                ~ In LF (raw r) /\ extract_lines [raw r] = [r]).
  { intros r Hr. destruct (extracted_raw text r Hr)
      as [Hne [He [Hl [Hi [Hp _]]]]].
    split; [exact Hl|]. apply extract_lines_one; rewrite strip_fixed by exact He;
      assumption. }
  unfold extract_iptv_schedules at 1.
  destruct rs as [|r rs'] eqn:E; [reflexivity|].
  rewrite split_join.
  - apply extract_lines_raws. intros x Hx. now apply H.
  - discriminate.
  - intros l Hl. apply in_map_iff in Hl. destruct Hl as [x [<- Hx]].
    now apply H.
Qed.

(** X9: the extraction works line by line: the records of two tables put
    one after the other, with a line feed between them, are the records of
    the first followed by the records of the second. *)
Theorem extract_concat (t1 t2 : str) :
  extract_iptv_schedules (t1 ++ LF :: t2)
  = extract_iptv_schedules t1 ++ extract_iptv_schedules t2.
Proof.
  unfold extract_iptv_schedules.
  now rewrite split_app_sep, extract_lines_app.
Qed.

End Marks.

Lemma parse_crontab_line_marks_witness :
  (forall c, In c (lit "# ") -> c = "#"%char \/ c = " "%char)
  /\ match parse_crontab_line (host := Samples.sample_host) Samples.line_off,
           parse_crontab_line (host := Samples.sample_host)
             (lit "# " ++ Samples.line_off) with
     | Some r, Some r' => same_entry r r' /\ raw r' = lit "# " ++ raw r
     | None, None => True
     | _, _ => False
     end.
Proof.
  assert (H : forall c, In c (lit "# ") -> c = "#"%char \/ c = " "%char).
  { intros c [<- | [<- | []]]; [now left | now right]. }
  exact (conj H (@parse_crontab_line_marks Samples.sample_host (lit "# ")
                   Samples.line_off H)).
Defined.

(** ** What the operations do to the extracted records *)

Lemma filter_none {A : Type} (p : A -> bool) (l : list A) :
  (forall x, In x l -> p x = false) -> filter p l = [].
Proof.
  induction l as [|x l IH]; intros H; [reflexivity|]. simpl.
  rewrite (H x) by now left. apply IH. intros y Hy. apply H. now right.
Qed.

Section Records.

Context {host : Host}.

Lemma extract_lines_single_raw (l : str) (r : schedule) :
  In r (extract_lines [l]) -> raw r = strip l.
Proof.
  intros H. destruct (extract_lines_in [l] r H) as [l' [[<- | []] [_ [_ Hp]]]].
  now apply parse_crontab_line_raw in Hp.
Qed.

Lemma extract_lines_filter (x : str) (lines : list str) :
  edges_nonspace x = true ->
  extract_lines (filter (fun l => negb (contains l x)) lines)
  = filter (fun r => negb (contains (raw r) x)) (extract_lines lines).
Proof.
  intros Hx. induction lines as [|l lines IH]; [reflexivity|].
  change (l :: lines) with ([l] ++ lines) at 2.
  rewrite extract_lines_app, filter_app. cbn [filter].
  assert (Hr : forall r, In r (extract_lines [l]) ->
                 contains (raw r) x = contains l x).
  { intros r Hr. rewrite (extract_lines_single_raw l r Hr).
    now apply contains_strip. }
  destruct (contains l x) eqn:C; cbn [negb].
  - rewrite IH, (filter_none _ (extract_lines [l])); [reflexivity|].
    intros r Hin. now rewrite (Hr r Hin).
  - change (l :: filter (fun l0 => negb (contains l0 x)) lines)
      with ([l] ++ filter (fun l0 => negb (contains l0 x)) lines).
    rewrite extract_lines_app, IH, (filter_id _ (extract_lines [l]));
      [reflexivity|].
    intros r Hin. now rewrite (Hr r Hin).
Qed.

Lemma extract_join_filter (x text : str) :
  edges_nonspace x = true ->
  extract_iptv_schedules
    (join [LF] (filter (fun l => negb (contains l x)) (split LF text)))
  = filter (fun r => negb (contains (raw r) x)) (extract_iptv_schedules text).
Proof.
  intros Hx. unfold extract_iptv_schedules at 1.
  destruct (filter (fun l => negb (contains l x)) (split LF text)) eqn:F.
  - unfold extract_iptv_schedules. rewrite <- extract_lines_filter, F
      by exact Hx. reflexivity.
  - rewrite <- F, split_join_filter by (rewrite F; discriminate).
    now apply extract_lines_filter.
Qed.

(** The table [add_schedule] hands to [crontab] for the line [new_line]. *)
Lemma add_content (table new_line : str) :
  let content :=
    match table with
    | [] => table
    | _ :: _ => if negb (endswith table [LF]) then table ++ [LF] else table
    end ++ new_line ++ [LF] in
  extract_iptv_schedules content
  = extract_iptv_schedules table ++ extract_iptv_schedules new_line
  /\ terminated content
  /\ startswith content table = true
  /\ (~ In CR table -> ~ In CR new_line -> ~ In CR content).
Proof.
  assert (Hnl : extract_iptv_schedules (new_line ++ [LF])
                = extract_iptv_schedules new_line).
  { unfold extract_iptv_schedules.
    rewrite split_app_sep, extract_lines_app. apply app_nil_r. }
  cbv zeta. split; [|split; [|split]].
  - destruct table as [|c table']; [exact Hnl|].
    destruct (endswith (c :: table') [LF]) eqn:E; cbn [negb].
    + apply endswith_spec in E. destruct E as [r E]. rewrite E.
      rewrite <- app_assoc. change ([LF] ++ new_line ++ [LF])
        with (LF :: (new_line ++ [LF])).
      unfold extract_iptv_schedules.
      rewrite !split_app_sep, !extract_lines_app.
      change (extract_lines (split LF [])) with (@nil schedule).
      now rewrite !app_nil_r.
    + rewrite <- app_assoc. change ([LF] ++ new_line ++ [LF])
        with (LF :: (new_line ++ [LF])).
      unfold extract_iptv_schedules.
      rewrite !split_app_sep, !extract_lines_app.
      change (extract_lines (split LF [])) with (@nil schedule).
      now rewrite !app_nil_r.
  - right. apply endswith_spec.
    eexists. rewrite app_assoc. reflexivity.
  - apply startswith_spec. destruct table as [|c table']; [now eexists|].
    destruct (negb (endswith (c :: table') [LF])).
    + eexists. rewrite <- app_assoc. reflexivity.
    + eexists. reflexivity.
  - intros Ht Hn H.
    assert (Hlf : ~ In CR [LF]) by (intros [E | []]; now apply CR_not_LF).
    apply in_app_or in H. destruct H as [H | H].
    + destruct table as [|c table']; [contradiction|].
      destruct (negb (endswith (c :: table') [LF])); [|contradiction].
      apply in_app_or in H. destruct H as [H | H]; contradiction.
    + apply in_app_or in H. destruct H as [H | H]; contradiction.
Qed.

Lemma add_schedule_result (s : new_schedule) (w : world) :
  (fst (add_schedule s w) = true ->
   ~ In CR (build_crontab_line s) ->
   extract_iptv_schedules (crontab (snd (add_schedule s w)))
   = extract_iptv_schedules (crontab w)
     ++ extract_iptv_schedules (build_crontab_line s)
   /\ terminated (crontab (snd (add_schedule s w)))
   /\ startswith (crontab (snd (add_schedule s w))) (crontab w) = true)
  /\ (fst (add_schedule s w) = false ->
      crontab (snd (add_schedule s w)) = crontab w).
Proof.
  unfold add_schedule, mbind, get_crontab. cbv zeta.
  pose proof (add_content (crontab w) (build_crontab_line s)) as H.
  cbv zeta in H. destruct H as [H1 [H2 [H3 H4]]]. split.
  - intros Hs Hcr.
    match goal with
    | |- context [set_crontab ?c w] =>
        assert (E : crontab (snd (set_crontab c w)) = c)
          by (apply set_crontab_true;
              [apply H4; [apply crontab_no_cr | exact Hcr] | exact Hs])
    end.
    rewrite E. split; [exact H1|]. split; [exact H2 | exact H3].
  - unfold set_crontab. destruct (crontab_accepts _); [discriminate|].
    reflexivity.
Qed.

Lemma delete_schedule_result (schedule_id : Z) (w : world) :
  fst (delete_schedule schedule_id w) = true ->
  exists t,
    In t (extract_iptv_schedules (crontab w)) /\ id t = schedule_id
    /\ crontab (snd (delete_schedule schedule_id w))
       = join [LF] (filter (fun l => negb (contains l (raw t)))
                      (split LF (crontab w)))
    /\ extract_iptv_schedules (crontab (snd (delete_schedule schedule_id w)))
       = filter (fun r => negb (contains (raw r) (raw t)))
           (extract_iptv_schedules (crontab w)).
Proof.
  unfold delete_schedule, mbind, get_crontab.
  destruct (find_schedule schedule_id (extract_iptv_schedules (crontab w)))
    as [t|] eqn:F; [|discriminate].
  intros Hs. apply set_crontab_true in Hs;
    [|apply delete_content_no_cr].
  destruct (find_schedule_some _ _ _ F) as [Hin Hid].
  exists t. split; [exact Hin|]. split; [exact Hid|]. split; [exact Hs|].
  rewrite Hs. apply extract_join_filter.
  now destruct (extracted_raw _ _ Hin) as [_ [He _]].
Qed.

(** X10: a successful [add_schedule] of a line without a carriage return
    puts the records of the line it built after the records the table
    had, in that place and order; the old table is a prefix of the new
    one, which ends with a line feed.  A refused installation leaves the
    table as it was. *)
Theorem add_schedule_appends (s : new_schedule) (w : world) :
  (fst (add_schedule s w) = true ->
   ~ In CR (build_crontab_line s) ->
   extract_iptv_schedules (crontab (snd (add_schedule s w)))
   = extract_iptv_schedules (crontab w)
     ++ extract_iptv_schedules (build_crontab_line s)
   /\ terminated (crontab (snd (add_schedule s w)))
   /\ startswith (crontab (snd (add_schedule s w))) (crontab w) = true)
  /\ (fst (add_schedule s w) = false ->
      crontab (snd (add_schedule s w)) = crontab w).
Proof. exact (add_schedule_result s w). Qed.

(** X11: a successful [delete_schedule] removes from the extracted
    records exactly those whose raw line contains the raw line of the
    target (a record with the given id): the target itself, and with it
    every record whose line holds the target's line, such as a copy
    behind a comment mark.  The others stay, in order. *)
Theorem delete_schedule_removes (schedule_id : Z) (w : world) :
  fst (delete_schedule schedule_id w) = true ->
  exists t,
    In t (extract_iptv_schedules (crontab w)) /\ id t = schedule_id
    /\ extract_iptv_schedules (crontab (snd (delete_schedule schedule_id w)))
       = filter (fun r => negb (contains (raw r) (raw t)))
           (extract_iptv_schedules (crontab w))
    /\ ~ In t (extract_iptv_schedules
                 (crontab (snd (delete_schedule schedule_id w)))).
Proof.
  intros H. destruct (delete_schedule_result schedule_id w H)
    as [t [Hin [Hid [_ He]]]].
  exists t. repeat split; try assumption.
  rewrite He. intros Hf. apply filter_In in Hf. destruct Hf as [_ Hf].
  now rewrite contains_refl in Hf.
Qed.

(** X12: a successful [update_schedule] whose new line holds no carriage
    return leaves the records that a delete of the id leaves, followed by
    the records of the line built from the updates. *)
Theorem update_schedule_replaces (schedule_id : Z) (u : updates) (w : world) :
  ~ In CR (build_crontab_line (updated_schedule u)) ->
  fst (update_schedule schedule_id u w) = true ->
  exists t,
    In t (extract_iptv_schedules (crontab w)) /\ id t = schedule_id
    /\ extract_iptv_schedules
         (crontab (snd (update_schedule schedule_id u w)))
       = filter (fun r => negb (contains (raw r) (raw t)))
           (extract_iptv_schedules (crontab w))
         ++ extract_iptv_schedules
              (build_crontab_line (updated_schedule u)).
Proof.
  intros Hcr. unfold update_schedule, mbind.
  pose proof (delete_schedule_result schedule_id w) as D.
  destruct (delete_schedule schedule_id w) as [d w1]. cbn [fst snd] in D.
  destruct d; cbn [negb]; [|discriminate].
  destruct (D eq_refl) as [t [Hin [Hid [_ He]]]].
  intros Ha. exists t. split; [exact Hin|]. split; [exact Hid|].
  destruct (add_schedule_result (updated_schedule u) w1) as [A _].
  destruct (A Ha Hcr) as [Hx _]. now rewrite Hx, He.
Qed.

(** X13: [update_schedule] is not one step: when the delete is installed
    and the new line is refused, it returns false and the table is left
    as the delete made it, so the target is gone. *)
Theorem update_schedule_half_done (schedule_id : Z) (u : updates)
  (w : world) :
  fst (delete_schedule schedule_id w) = true ->
  fst (add_schedule (updated_schedule u)
         (snd (delete_schedule schedule_id w))) = false ->
  fst (update_schedule schedule_id u w) = false
  /\ exists t,
       In t (extract_iptv_schedules (crontab w)) /\ id t = schedule_id
       /\ crontab (snd (update_schedule schedule_id u w))
          = join [LF] (filter (fun l => negb (contains l (raw t)))
                         (split LF (crontab w)))
       /\ ~ In t (extract_iptv_schedules
                    (crontab (snd (update_schedule schedule_id u w)))).
Proof.
  intros Hd Ha.
  destruct (delete_schedule_result schedule_id w Hd)
    as [t [Hin [Hid [Hc He]]]].
  destruct (add_schedule_result (updated_schedule u)
              (snd (delete_schedule schedule_id w))) as [_ A].
  specialize (A Ha).
  unfold update_schedule, mbind in *.
  destruct (delete_schedule schedule_id w) as [d w1]. cbn [fst snd] in *.
  subst d. cbn [negb]. split; [exact Ha|].
  exists t. split; [exact Hin|]. split; [exact Hid|].
  rewrite A. split; [exact Hc|].
  rewrite He. intros Hf. apply filter_In in Hf. destruct Hf as [_ Hf].
  now rewrite contains_refl in Hf.
Qed.

End Records.

Lemma delete_schedule_removes_witness :
  fst (@delete_schedule Samples.sample_host
         (Samples.id_of Samples.line_off) Samples.mixed_table) = true
  /\ exists t,
       In t (@extract_iptv_schedules Samples.sample_host
               (crontab Samples.mixed_table))
       /\ id t = Samples.id_of Samples.line_off
       /\ @extract_iptv_schedules Samples.sample_host
            (crontab (snd (@delete_schedule Samples.sample_host
                             (Samples.id_of Samples.line_off)
                             Samples.mixed_table)))
          = filter (fun r => negb (contains (raw r) (raw t)))
              (@extract_iptv_schedules Samples.sample_host
                 (crontab Samples.mixed_table))
       /\ ~ In t (@extract_iptv_schedules Samples.sample_host
                    (crontab (snd (@delete_schedule Samples.sample_host
                                     (Samples.id_of Samples.line_off)
                                     Samples.mixed_table)))).
Proof.
  assert (H : fst (@delete_schedule Samples.sample_host
                     (Samples.id_of Samples.line_off) Samples.mixed_table)
              = true) by (vm_compute; reflexivity).
  exact (conj H (@delete_schedule_removes Samples.sample_host
                   (Samples.id_of Samples.line_off) Samples.mixed_table H)).
Defined.

Lemma update_schedule_replaces_witness :
  ~ In CR (@build_crontab_line Samples.sample_host
             (@updated_schedule Samples.sample_host
                Samples.updates_minute_99))
  /\ fst (@update_schedule Samples.sample_host
         (Samples.id_of Samples.line_off) Samples.updates_minute_99
         Samples.mixed_table) = true
  /\ exists t,
       In t (@extract_iptv_schedules Samples.sample_host
               (crontab Samples.mixed_table))
       /\ id t = Samples.id_of Samples.line_off
       /\ @extract_iptv_schedules Samples.sample_host
            (crontab (snd (@update_schedule Samples.sample_host
                             (Samples.id_of Samples.line_off)
                             Samples.updates_minute_99 Samples.mixed_table)))
          = filter (fun r => negb (contains (raw r) (raw t)))
              (@extract_iptv_schedules Samples.sample_host
                 (crontab Samples.mixed_table))
            ++ @extract_iptv_schedules Samples.sample_host
                 (@build_crontab_line Samples.sample_host
                    (@updated_schedule Samples.sample_host
                       Samples.updates_minute_99)).
Proof.
  assert (H0 : ~ In CR (@build_crontab_line Samples.sample_host
                          (@updated_schedule Samples.sample_host
                             Samples.updates_minute_99)))
    by (apply char_in_false; reflexivity).
  assert (H : fst (@update_schedule Samples.sample_host
                     (Samples.id_of Samples.line_off)
                     Samples.updates_minute_99 Samples.mixed_table)
              = true) by (vm_compute; reflexivity).
  exact (conj H0 (conj H (@update_schedule_replaces Samples.sample_host
                            (Samples.id_of Samples.line_off)
                            Samples.updates_minute_99 Samples.mixed_table
                            H0 H))).
Defined.

Lemma update_schedule_half_done_witness :
  fst (@delete_schedule Samples.strict_host
         (Samples.id_of Samples.line_off) Samples.mixed_table) = true
  /\ fst (@add_schedule Samples.strict_host
            (@updated_schedule Samples.strict_host Samples.updates_minute_99)
            (snd (@delete_schedule Samples.strict_host
                    (Samples.id_of Samples.line_off) Samples.mixed_table)))
     = false
  /\ fst (@update_schedule Samples.strict_host
            (Samples.id_of Samples.line_off) Samples.updates_minute_99
            Samples.mixed_table) = false
  /\ exists t,
       In t (@extract_iptv_schedules Samples.strict_host
               (crontab Samples.mixed_table))
       /\ id t = Samples.id_of Samples.line_off
       /\ crontab (snd (@update_schedule Samples.strict_host
                          (Samples.id_of Samples.line_off)
                          Samples.updates_minute_99 Samples.mixed_table))
          = join [LF] (filter (fun l => negb (contains l (raw t)))
                         (split LF (crontab Samples.mixed_table)))
       /\ ~ In t (@extract_iptv_schedules Samples.strict_host
                    (crontab (snd (@update_schedule Samples.strict_host
                                     (Samples.id_of Samples.line_off)
                                     Samples.updates_minute_99
                                     Samples.mixed_table)))).
Proof.
  assert (H1 : fst (@delete_schedule Samples.strict_host
                      (Samples.id_of Samples.line_off) Samples.mixed_table)
               = true) by (vm_compute; reflexivity).
  assert (H2 : fst (@add_schedule Samples.strict_host
                      (@updated_schedule Samples.strict_host
                         Samples.updates_minute_99)
                      (snd (@delete_schedule Samples.strict_host
                              (Samples.id_of Samples.line_off)
                              Samples.mixed_table))) = false)
    by (vm_compute; reflexivity).
  exact (conj H1 (conj H2 (@update_schedule_half_done Samples.strict_host
                             (Samples.id_of Samples.line_off)
                             Samples.updates_minute_99 Samples.mixed_table
                             H1 H2))).
Defined.

(** ** The next schedule of an action *)

Lemma datetime_lt_le (a b c : Datetime.datetime) :
  Datetime.ltb a b = true -> Datetime.ltb c b = false ->
  Datetime.ltb a c = true.
Proof.
  intros Hab Hbc. destruct (Datetime.ltb a c) eqn:E; [reflexivity|].
  pose proof (datetime_le_trans b c a Hbc E). congruence.
Qed.

Lemma datetime_lt_trans (a b c : Datetime.datetime) :
  Datetime.ltb a b = true -> Datetime.ltb b c = true ->
  Datetime.ltb a c = true.
Proof.
  intros Hab Hbc. apply (datetime_lt_le a b c Hab).
  now apply datetime_ltb_asym.
Qed.

Lemma str_eqb_eq (a b : str) : str_eqb a b = true <-> a = b.
Proof.
  unfold str_eqb. destruct (list_eq_dec ascii_dec a b); split; congruence.
Qed.

(** One turn of the loop keeps [best] the first of the earliest. *)
Lemma next_schedule_loop_spec (the_action : str) (now : Datetime.datetime)
  (l pre : list schedule) (best : option next_schedule) :
  earliest_first the_action now pre best ->
  earliest_first the_action now (pre ++ l)
    (next_schedule_loop the_action now l best).
Proof.
  revert pre best. induction l as [|s l IH]; intros pre best Hb.
  - simpl. now rewrite app_nil_r.
  - assert (Hskip : (forall t, ~ eligible the_action now s t) ->
                    earliest_first the_action now (pre ++ [s]) best).
    { intros Hn. destruct best as [b|]; simpl in *.
      - destruct Hb as [l1 [l2 [-> [He [H1 H2]]]]].
        exists l1, (l2 ++ [s]). split.
        + now rewrite <- app_assoc.
        + split; [exact He|]. split; [exact H1|].
          intros s' t Hin Hel. apply in_app_or in Hin.
          destruct Hin as [Hin | [<- | []]]; [now apply (H2 s') |].
          now apply Hn in Hel.
      - intros s' t Hin Hel. apply in_app_or in Hin.
        destruct Hin as [Hin | [<- | []]]; [now apply (Hb s' t) |].
        now apply Hn in Hel. }
    replace (pre ++ s :: l) with ((pre ++ [s]) ++ l)
      by now rewrite <- app_assoc.
    cbn [next_schedule_loop].
    destruct (enabled s) eqn:En; cbn [negb].
    2:{ apply IH, Hskip. intros t [H _]. congruence. }
    destruct (str_eqb (action s) the_action) eqn:Ea; cbn [negb].
    2:{ apply IH, Hskip. intros t [_ [H _]].
        apply str_eqb_neq in Ea. contradiction. }
    apply str_eqb_eq in Ea.
    destruct (calculate_next_run s now) as [t|] eqn:Ec.
    2:{ apply IH, Hskip. intros t [_ [_ H]]. congruence. }
    assert (Hel : eligible the_action now s t) by (repeat split; assumption).
    destruct best as [b|].
    + destruct (Datetime.ltb t (next_time b)) eqn:L; apply IH.
      * simpl in Hb. destruct Hb as [l1 [l2 [-> [Hbe [H1 H2]]]]].
        simpl. exists (l1 ++ next_of b :: l2), []. split; [reflexivity|].
        split; [exact Hel|]. split; [|intros s' t' []].
        intros s' t' Hin Hel'. apply in_app_or in Hin.
        destruct Hin as [Hin | [<- | Hin]].
        -- apply (datetime_lt_trans _ (next_time b)); [exact L|].
           now apply (H1 s').
        -- destruct Hbe as [_ [_ Hbe]], Hel' as [_ [_ Hel']].
           rewrite Hbe in Hel'. now injection Hel' as <-.
        -- apply (datetime_lt_le _ (next_time b)); [exact L|].
           now apply (H2 s').
      * simpl in Hb. destruct Hb as [l1 [l2 [-> [Hbe [H1 H2]]]]].
        simpl. exists l1, (l2 ++ [s]). split.
        -- now rewrite <- app_assoc.
        -- split; [exact Hbe|]. split; [exact H1|].
           intros s' t' Hin Hel'. apply in_app_or in Hin.
           destruct Hin as [Hin | [<- | []]]; [now apply (H2 s') |].
           destruct Hel' as [_ [_ Hel']]. rewrite Ec in Hel'.
           now injection Hel' as <-.
    + apply IH. simpl. exists pre, []. split; [reflexivity|].
      split; [exact Hel|]. split; [|intros s' t' []].
      intros s' t' Hin Hel'. now apply (Hb s' t') in Hin.
Qed.

Section NextSchedule.

Context {host : Host}.

(** X14: [get_next_schedule_by_action] changes nothing and returns the
    first of the earliest: nothing when no schedule of the list (the
    given one, or the records of the table) is enabled, of that action
    and with a next run; otherwise such a schedule with its next run,
    later than no other such schedule, and the first in the list among
    those that run at that instant. *)
Theorem get_next_schedule_by_action_earliest (the_action : str)
  (schedules : option (list schedule)) (now : Datetime.datetime)
  (w : world) :
  exists res,
    get_next_schedule_by_action the_action schedules now w = (res, w)
    /\ earliest_first the_action now
         (match schedules with
          | Some l => l
          | None => extract_iptv_schedules (crontab w)
          end) res.
Proof.
  destruct schedules as [l|]; eexists; (split; [reflexivity|]).
  - apply (next_schedule_loop_spec the_action now l [] None).
    intros s t [].
  - apply (next_schedule_loop_spec the_action now
             (extract_iptv_schedules (crontab w)) [] None).
    intros s t [].
Qed.

(** X15: [get_next_schedules] reads the table once and returns, from
    that one reading, the first of the earliest on schedules and the
    first of the earliest off schedules; the table is unchanged. *)
Theorem get_next_schedules_pair (now_on now_off : Datetime.datetime)
  (w : world) :
  exists next_on next_off,
    get_next_schedules now_on now_off w = ((next_on, next_off), w)
    /\ earliest_first (lit "on") now_on
         (extract_iptv_schedules (crontab w)) next_on
    /\ earliest_first (lit "off") now_off
         (extract_iptv_schedules (crontab w)) next_off
    /\ get_next_schedule now_off w = (next_off, w).
Proof.
  do 2 eexists. split; [reflexivity|]. split; [|split; [|reflexivity]].
  - apply (next_schedule_loop_spec (lit "on") now_on
             (extract_iptv_schedules (crontab w)) [] None).
    intros s t [].
  - apply (next_schedule_loop_spec (lit "off") now_off
             (extract_iptv_schedules (crontab w)) [] None).
    intros s t [].
Qed.

End NextSchedule.

(** ** [app.py]: the interface status and the override timer *)

Lemma startswith_before_sep (sep : ascii) (sub a b : str) :
  ~ In sep sub -> sub <> [] ->
  startswith (a ++ sep :: b) sub = startswith a sub.
Proof.
  intros Hn Hne. revert a.
  induction sub as [|x sub IH]; intros a; [congruence|].
  assert (Hx : x <> sep) by (intros ->; apply Hn; now left).
  destruct a as [|c a]; simpl.
  - destruct (Ascii.eqb x sep) eqn:E; [|reflexivity].
    apply Ascii.eqb_eq in E. contradiction.
  - destruct sub as [|y sub'].
    + reflexivity.
    + rewrite IH; [reflexivity | | discriminate].
      intros H. apply Hn. now right.
Qed.

Lemma contains_across_sep (sep : ascii) (sub a b : str) :
  ~ In sep sub -> sub <> [] ->
  contains (a ++ sep :: b) sub = contains a sub || contains b sub.
Proof.
  intros Hn Hne. induction a as [|c a IH].
  - rewrite (contains_nil sub Hne). cbn [app orb].
    destruct sub as [|x sub']; [congruence|].
    apply contains_skip. intros ->. apply Hn. now left.
  - rewrite <- app_comm_cons. cbn [contains].
    rewrite IH, <- orb_assoc. f_equal.
    exact (startswith_before_sep sep sub (c :: a) b Hn Hne).
Qed.

Lemma contains_lines (sub text : str) :
  ~ In LF sub -> sub <> [] ->
  existsb (fun l => contains l sub) (split LF text) = contains text sub.
Proof.
  intros Hn Hne.
  assert (H : forall n text, (List.length text < n)%nat ->
                existsb (fun l => contains l sub) (split LF text)
                = contains text sub).
  { clear text. induction n as [|n IH]; intros text Hlen; [lia|].
    destruct (in_dec ascii_dec LF text) as [Hin|Hout].
    - apply in_split in Hin. destruct Hin as [a [b ->]].
      rewrite length_app in Hlen. simpl in Hlen.
      rewrite split_app_sep, existsb_app, !IH by lia.
      symmetry. now apply contains_across_sep.
    - rewrite split_nosep by exact Hout. simpl. apply orb_false_r. }
  apply (H (S (List.length text))). lia.
Qed.

Lemma status_of_lines_app (l1 l2 : list str) :
  App.status_of_lines (l1 ++ l2)
  = if existsb (fun l => contains l (lit "ens1:")) l1
    then App.status_of_lines l1 else App.status_of_lines l2.
Proof.
  induction l1 as [|l l1 IH]; [reflexivity|].
  cbn [app App.status_of_lines existsb].
  destruct (contains l (lit "ens1:")); [reflexivity | exact IH].
Qed.

Lemma status_of_lines_unknown (ls : list str) :
  App.status_of_lines ls = lit "unknown"
  <-> existsb (fun l => contains l (lit "ens1:")) ls = false.
Proof.
  induction ls as [|l ls IH]; [split; reflexivity|].
  cbn [App.status_of_lines existsb].
  destruct (contains l (lit "ens1:")); [|exact IH].
  destruct (contains l (lit "UP")); split; discriminate.
Qed.

(** X16: [parse_iptv_status] answers [on], [off] or [unknown]; it answers
    [unknown] exactly when the output does not hold [ens1:]; on one line
    that holds [ens1:] it answers [on] when the line holds [UP] and [off]
    otherwise; and on two outputs joined by a line feed it is the answer
    of the first when the first holds [ens1:], and the answer of the
    second otherwise.  [get_current_status] answers [unknown] exactly
    when the status command failed or its output does not hold
    [ens1:]. *)
Theorem parse_iptv_status_law :
  (forall output,
     App.parse_iptv_status output = lit "on"
     \/ App.parse_iptv_status output = lit "off"
     \/ App.parse_iptv_status output = lit "unknown")
  /\ (forall output,
        App.parse_iptv_status output = lit "unknown"
        <-> contains output (lit "ens1:") = false)
  /\ (forall line,
        ~ In LF line -> contains line (lit "ens1:") = true ->
        App.parse_iptv_status line
        = if contains line (lit "UP") then lit "on" else lit "off")
  /\ (forall a b,
        App.parse_iptv_status (a ++ LF :: b)
        = if contains a (lit "ens1:") then App.parse_iptv_status a
          else App.parse_iptv_status b)
  /\ (forall result,
        App.get_current_status result = lit "unknown"
        <-> App.success result = false
            \/ contains (App.stdout result) (lit "ens1:") = false).
Proof.
  assert (Hn : ~ In LF (lit "ens1:")) by (apply char_in_false; reflexivity).
  assert (Hne : lit "ens1:" <> []) by discriminate.
  assert (Hu : forall output,
             App.parse_iptv_status output = lit "unknown"
             <-> contains output (lit "ens1:") = false).
  { intros output. unfold App.parse_iptv_status.
    rewrite status_of_lines_unknown. now rewrite contains_lines. }
  split; [|split; [exact Hu|split; [|split]]].
  - intros output. unfold App.parse_iptv_status.
    induction (split LF output) as [|l ls IH]; [now right; right|].
    cbn [App.status_of_lines].
    destruct (contains l (lit "ens1:")); [|exact IH].
    destruct (contains l (lit "UP")); [now left | now right; left].
  - intros line Hl Hc. unfold App.parse_iptv_status.
    rewrite split_nosep by exact Hl. cbn [App.status_of_lines].
    now rewrite Hc.
  - intros a b. unfold App.parse_iptv_status.
    rewrite split_app_sep, status_of_lines_app.
    now rewrite contains_lines.
  - intros result. unfold App.get_current_status.
    destruct (App.success result).
    + rewrite Hu. split; [now right | intros [H|H]; [discriminate|exact H]].
    + split; [now left | reflexivity].
Qed.

(** X17: [get_timer_status] reports a remaining time exactly when
    [should_skip_crontab_off] of [app.py], asked at the same instant,
    says that the scheduled off is to be skipped; the remaining time is
    not negative; the state changes only when an end time that has
    passed is cleared, which does not change the answer of either
    function at that instant or later. *)
Theorem get_timer_status_agrees (st : App.state) (now : Q) :
  (fst (App.get_timer_status st now) <> None
   <-> App.should_skip_crontab_off st now = Ok true)
  /\ (forall n, fst (App.get_timer_status st now) = Some n -> (0 <= n)%Z)
  /\ (fst (App.get_timer_status st now) <> None ->
      snd (App.get_timer_status st now) = st)
  /\ (fst (App.get_timer_status st now) = None ->
      App.timer_end_time (snd (App.get_timer_status st now)) = None)
  /\ (forall later, (now <= later)%Q ->
        App.should_skip_crontab_off (snd (App.get_timer_status st now)) later
        = App.should_skip_crontab_off st later
        /\ fst (App.get_timer_status (snd (App.get_timer_status st now))
                  later)
           = fst (App.get_timer_status st later)).
Proof.
  unfold App.get_timer_status, App.should_skip_crontab_off.
  destruct st as [[end_time|]]; cbn [App.timer_end_time].
  2:{ cbn [fst snd App.timer_end_time].
      split; [split; [congruence | discriminate]|].
      split; [discriminate|]. split; [congruence|].
      split; [reflexivity|]. intros later _. split; reflexivity. }
  destruct (Qle_bool (end_time - now) 0) eqn:E;
    cbn [fst snd negb App.timer_end_time].
  - split; [split; [congruence | discriminate]|].
    split; [discriminate|]. split; [congruence|].
    split; [reflexivity|]. intros later Hl.
    assert (L : Qle_bool (end_time - later) 0 = true).
    { apply Qle_bool_iff. apply Qle_bool_iff in E.
      unfold Qminus in *.
      apply (Qle_trans _ (end_time + - now)); [|exact E].
      apply Qplus_le_r. now apply Qopp_le_compat. }
    rewrite L. split; reflexivity.
  - split; [split; [reflexivity | discriminate]|].
    split; [|split; [reflexivity|split; [discriminate|]]].
    + intros n [= <-].
      assert (P : (0 <= end_time - now)%Q).
      { apply Qnot_lt_le. intros H. apply Qlt_le_weak in H.
        apply Qle_bool_iff in H. congruence. }
      exact (Qfloor_resp_le 0 (end_time - now) P).
    + intros later _. split; reflexivity.
Qed.

(** ** The next run as time passes *)

Lemma calculate_next_run_fields (s : schedule)
  (from_time r : Datetime.datetime) :
  calculate_next_run s from_time = Some r ->
  exists h m weekdays,
    int (hour s) = Ok h /\ int (minute s) = Ok m
    /\ parse_weekday (weekday s) = Ok weekdays
    /\ (0 <= h <= 23)%Z /\ (0 <= m <= 59)%Z.
Proof.
  unfold calculate_next_run.
  destruct (int (hour s)) as [h|eh]; cbn [bind]; [|discriminate].
  destruct (int (minute s)) as [m|em]; cbn [bind]; [|discriminate].
  destruct (parse_weekday (weekday s)) as [wds|ew]; cbn [bind];
    [|discriminate].
  destruct (Datetime.replace from_time None None (Some 0%Z) (Some 0%Z))
    as [c|e]; cbn [bind]; [|discriminate].
  intros H. exists h, m, wds. repeat split; try reflexivity.
  all: destruct (Z_le_dec 0 h), (Z_le_dec h 23), (Z_le_dec 0 m),
         (Z_le_dec m 59); try assumption; exfalso.
  all: pose proof (next_run_loop_nothing 8 wds h m from_time c
                     (or_intror (time_fields_refused h m ltac:(lia)))) as L;
       destruct (next_run_loop 8 wds h m from_time c) as [[x|]|e];
       [contradiction | discriminate | discriminate].
Qed.

(** The next run is the earliest candidate. *)
Lemma calculate_next_run_spec (s : schedule)
  (from_time : Datetime.datetime) (h m : Z) (weekdays : list Z) :
  int (hour s) = Ok h -> int (minute s) = Ok m ->
  (0 <= h <= 23)%Z -> (0 <= m <= 59)%Z ->
  parse_weekday (weekday s) = Ok weekdays ->
  Datetime.valid from_time ->
  match calculate_next_run s from_time with
  | Some r =>
      run_candidate weekdays h m from_time r
      /\ forall r', run_candidate weekdays h m from_time r' ->
                    Datetime.ltb r' r = false
  | None => forall r', ~ run_candidate weekdays h m from_time r'
  end.
Proof.
  intros Hh Hm Hhr Hmr Hw Hv.
  unfold calculate_next_run. rewrite Hh, Hm, Hw. cbn [bind].
  destruct Hv as [Hd Ht]. pose proof Ht as Ht'.
  apply time_fields_ok_spec in Ht'.
  unfold Datetime.replace.
  rewrite (proj2 (time_fields_ok_spec _ _ 0 0)) by lia. cbn [bind].
  pose proof (next_run_loop_spec weekdays h m from_time Hhr Hmr 8 0
                ltac:(lia)) as L.
  cbv zeta in L.
  rewrite Z.add_0_r in L. specialize (L Hd ltac:(intros; lia)).
  assert (E : Datetime.mk (Datetime.ordinal from_time + 0)
                (Datetime.hour from_time) (Datetime.minute from_time) 0 0
              = Datetime.mk (Datetime.ordinal from_time)
                  (Datetime.hour from_time) (Datetime.minute from_time) 0 0)
    by (f_equal; lia).
  rewrite E in L. clear E.
  match type of L with
  | match ?X with _ => _ end => destruct X as [[r|]|e]
  end; cbv beta iota.
  - destruct L as [Hr [Hwin Hmin]]. split.
    + split; [exact Hr | lia].
    + intros r' [Hr' Hwin']. apply Hmin; [exact Hr' | lia].
  - intros r' [Hr' Hwin']. specialize (L r' Hr'). lia.
  - intros r' [Hr' Hwin']. apply (L r' Hr'). lia.
Qed.

Lemma datetime_le_antisym (a b : Datetime.datetime) :
  Datetime.ltb a b = false -> Datetime.ltb b a = false -> a = b.
Proof.
  intros H1 H2. apply datetime_ltb_false in H1, H2.
  rewrite datetime_ltb_spec in H1, H2.
  destruct a, b; simpl in *. f_equal; lia.
Qed.

Lemma datetime_ltb_ordinal (a b : Datetime.datetime) :
  Datetime.ltb a b = true -> (Datetime.ordinal a <= Datetime.ordinal b)%Z.
Proof. rewrite datetime_ltb_spec. lia. Qed.

Lemma datetime_le_ordinal (a b : Datetime.datetime) :
  Datetime.ltb b a = false -> (Datetime.ordinal a <= Datetime.ordinal b)%Z.
Proof.
  intros H. apply datetime_ltb_false in H. rewrite datetime_ltb_spec in H.
  lia.
Qed.

(** X18: the next run stays the next run until it is reached: when the
    next run from [from_time] is [r], then from every instant from
    [from_time] on and before [r] the next run is [r] again. *)
Theorem calculate_next_run_stable (s : schedule)
  (from_time later r : Datetime.datetime) :
  Datetime.valid from_time -> Datetime.valid later ->
  calculate_next_run s from_time = Some r ->
  Datetime.ltb later from_time = false ->
  Datetime.ltb later r = true ->
  calculate_next_run s later = Some r.
Proof.
  intros Hv Hv' Hr Hle Hlt.
  destruct (calculate_next_run_fields s from_time r Hr)
    as [h [m [wds [Hh [Hm [Hw [Hhr Hmr]]]]]]].
  pose proof (calculate_next_run_spec s from_time h m wds Hh Hm Hhr Hmr Hw Hv)
    as S1.
  pose proof (calculate_next_run_spec s later h m wds Hh Hm Hhr Hmr Hw Hv')
    as S2.
  rewrite Hr in S1. destruct S1 as [[Hri Hwin] Hmin].
  pose proof (datetime_le_ordinal _ _ Hle) as Ho.
  pose proof (datetime_ltb_ordinal _ _ Hlt) as Ho'.
  assert (Hc : run_candidate wds h m later r).
  { split; [|lia].
    destruct Hri as [A [B [C [D [E [F _]]]]]].
    split; [exact A|]. repeat split; assumption. }
  destruct (calculate_next_run s later) as [r'|].
  - destruct S2 as [[Hri' Hwin'] Hmin'].
    f_equal. apply datetime_le_antisym.
    + apply Hmin. split.
      * destruct Hri' as [A [B [C [D [E [F G]]]]]].
        split; [exact A|]. repeat split; try assumption.
        destruct (Datetime.ltb from_time r') eqn:X; [reflexivity|].
        pose proof (datetime_le_trans _ _ _ X Hle). congruence.
      * pose proof (datetime_le_ordinal _ _ (Hmin' r Hc)). lia.
    + now apply Hmin'.
  - exfalso. exact (S2 r Hc).
Qed.

Lemma calculate_next_run_stable_witness :
  Datetime.valid Samples.afternoon
  /\ Datetime.valid (Datetime.mk 738889 7 29 59 0)
  /\ calculate_next_run Samples.schedule_on Samples.afternoon
     = Some (Datetime.mk 738889 7 30 0 0)
  /\ Datetime.ltb (Datetime.mk 738889 7 29 59 0) Samples.afternoon = false
  /\ Datetime.ltb (Datetime.mk 738889 7 29 59 0)
       (Datetime.mk 738889 7 30 0 0) = true
  /\ calculate_next_run Samples.schedule_on (Datetime.mk 738889 7 29 59 0)
     = Some (Datetime.mk 738889 7 30 0 0).
Proof.
  assert (H1 : Datetime.valid Samples.afternoon) by (split; reflexivity).
  assert (H2 : Datetime.valid (Datetime.mk 738889 7 29 59 0))
    by (split; reflexivity).
  assert (H3 : calculate_next_run Samples.schedule_on Samples.afternoon
               = Some (Datetime.mk 738889 7 30 0 0)) by reflexivity.
  assert (H4 : Datetime.ltb (Datetime.mk 738889 7 29 59 0) Samples.afternoon
               = false) by reflexivity.
  assert (H5 : Datetime.ltb (Datetime.mk 738889 7 29 59 0)
                 (Datetime.mk 738889 7 30 0 0) = true) by reflexivity.
  exact (conj H1 (conj H2 (conj H3 (conj H4 (conj H5
           (calculate_next_run_stable Samples.schedule_on Samples.afternoon
              (Datetime.mk 738889 7 29 59 0) (Datetime.mk 738889 7 30 0 0)
              H1 H2 H3 H4 H5)))))).
Defined.

(** ** The next schedule and the sorted list *)

Lemma find_split {A : Type} (p : A -> bool) (l : list A) (x : A) :
  find p l = Some x ->
  exists l1 l2, l = l1 ++ x :: l2 /\ p x = true
                /\ forall y, In y l1 -> p y = false.
Proof.
  induction l as [|a l IH]; [discriminate|]. simpl.
  destruct (p a) eqn:E.
  - intros [= <-]. exists [], l. split; [reflexivity|].
    split; [exact E | intros y []].
  - intros H. destruct (IH H) as [l1 [l2 [-> [Hx Hn]]]].
    exists (a :: l1), l2. split; [reflexivity|]. split; [exact Hx|].
    intros y [<- | Hy]; [exact E | now apply Hn].
Qed.

Lemma eligibleb_spec (the_action : str) (now : Datetime.datetime)
  (s : schedule) :
  eligibleb the_action now s = true
  <-> exists t, eligible the_action now s t.
Proof.
  unfold eligibleb, eligible. rewrite !andb_true_iff, str_eqb_eq. split.
  - intros [[He Ha] Hc].
    destruct (calculate_next_run s now) as [t|]; [|discriminate].
    exists t. tauto.
  - intros [t [He [Ha Hc]]]. rewrite Hc. tauto.
Qed.

Lemma eligible_key (the_action : str) (now : Datetime.datetime)
  (s : schedule) (t : Datetime.datetime) :
  eligible the_action now s t -> sort_key now s = t.
Proof. intros [_ [_ H]]. unfold sort_key. now rewrite H. Qed.

(** The first eligible schedule of the sorted list is the first of the
    earliest of the list. *)
Lemma first_of_sorted (the_action : str) (now : Datetime.datetime)
  (l : list schedule) (res : option next_schedule) :
  earliest_first the_action now l res ->
  res = match find (eligibleb the_action now)
                (list_sort Datetime.ltb (sort_key now) l) with
        | Some s => Some (mk_next_schedule s (sort_key now s))
        | None => None
        end.
Proof.
  intros Hres.
  set (out := list_sort Datetime.ltb (sort_key now) l).
  assert (Hperm : Permutation l out) by apply list_sort_perm.
  destruct (find (eligibleb the_action now) out) as [e'|] eqn:F.
  - destruct (find_split _ _ _ F) as [o1 [o2 [Hout [Pe' Ho1]]]].
    apply eligibleb_spec in Pe'. destruct Pe' as [t' Ee'].
    assert (Hin' : In e' l).
    { apply (Permutation_in e' (Permutation_sym Hperm)).
      rewrite Hout. apply in_or_app. right. now left. }
    destruct res as [[e t]|].
    2:{ exfalso. exact (Hres e' t' Hin' Ee'). }
    simpl in Hres. destruct Hres as [l1 [l2 [Hl [Ee [H1 H2]]]]].
    rewrite (eligible_key _ _ _ _ Ee').
    (* the key of e' is the earliest instant *)
    assert (Hle : Datetime.ltb t' t = false).
    { rewrite Hl in Hin'. apply in_app_or in Hin'.
      destruct Hin' as [Hi | [<- | Hi]].
      - apply datetime_ltb_asym. now apply (H1 e').
      - destruct Ee as [_ [_ Ee]], Ee' as [_ [_ Ee']].
        rewrite Ee in Ee'. injection Ee' as <-.
        destruct (Datetime.ltb t t) eqn:X; [|reflexivity].
        pose proof (datetime_ltb_asym _ _ X). congruence.
      - now apply (H2 e'). }
    assert (Hge : Datetime.ltb t t' = false).
    { assert (Hin : In e out).
      { apply (Permutation_in e Hperm). rewrite Hl.
        apply in_or_app. right. now left. }
      rewrite Hout in Hin. apply in_app_or in Hin.
      destruct Hin as [Hi | [<- | Hi]].
      - apply Ho1 in Hi.
        assert (X : eligibleb the_action now e = true)
          by (apply eligibleb_spec; now exists t).
        congruence.
      - destruct Ee as [_ [_ Ee]], Ee' as [_ [_ Ee']].
        rewrite Ee in Ee'. injection Ee' as <-.
        destruct (Datetime.ltb t t) eqn:X; [|reflexivity].
        pose proof (datetime_ltb_asym _ _ X). congruence.
      - assert (S : StronglySorted
                      (fun a b => Datetime.ltb (sort_key now b)
                                    (sort_key now a) = false) out).
        { apply list_sort_sorted.
          - exact datetime_ltb_asym.
          - exact datetime_le_trans. }
        rewrite Hout in S. apply StronglySorted_after in S.
        rewrite Forall_forall in S. specialize (S e Hi). cbv beta in S.
        now rewrite (eligible_key _ _ _ _ Ee),
          (eligible_key _ _ _ _ Ee') in S. }
    assert (Et : t' = t) by now apply datetime_le_antisym.
    subst t'.
    (* among the schedules of that key, the order is the order of l *)
    pose proof (list_sort_stable _ _ Datetime.ltb (sort_key now)
                  Datetime.eqb datetime_ltb_asym datetime_eqb_eq t l) as St.
    fold out in St.
    apply (f_equal (filter (eligibleb the_action now))) in St.
    rewrite Hout, Hl in St. rewrite !filter_app in St.
    rewrite (filter_none _ (filter _ o1)) in St.
    2:{ intros y Hy. apply filter_In in Hy. now apply Ho1. }
    rewrite (filter_none _ (filter _ l1)) in St.
    2:{ intros y Hy. apply filter_In in Hy. destruct Hy as [Hy Hk].
        destruct (eligibleb the_action now y) eqn:X; [|reflexivity].
        apply eligibleb_spec in X. destruct X as [ty Ey].
        pose proof (H1 y ty Hy Ey) as Hlt.
        apply datetime_eqb_eq in Hk.
        rewrite (eligible_key _ _ _ _ Ey) in Hk. subst ty.
        pose proof (datetime_ltb_asym _ _ Hlt). congruence. }
    cbn [filter app] in St.
    rewrite (eligible_key _ _ _ _ Ee), (eligible_key _ _ _ _ Ee') in St.
    rewrite (proj2 (datetime_eqb_eq t t) eq_refl) in St.
    cbn [filter] in St.
    rewrite (proj2 (eligibleb_spec _ _ e) (ex_intro _ t Ee)) in St.
    rewrite (proj2 (eligibleb_spec _ _ e') (ex_intro _ t Ee')) in St.
    now injection St as ->.
  - destruct res as [[e t]|]; [|reflexivity]. exfalso.
    simpl in Hres. destruct Hres as [l1 [l2 [Hl [Ee _]]]].
    assert (Hin : In e out).
    { apply (Permutation_in e Hperm). rewrite Hl.
      apply in_or_app. right. now left. }
    pose proof (find_none _ _ F e Hin) as X.
    rewrite (proj2 (eligibleb_spec _ _ e) (ex_intro _ t Ee)) in X.
    discriminate.
Qed.

Section NextAndList.

Context {host : Host}.

(** X19: the next schedule of an action is the first schedule of the
    list of [get_all_schedules] (taken at the same instant) that is
    enabled, of that action and with a next run, together with that run;
    there is none exactly when the list has no such schedule. *)
Theorem next_schedule_heads_list (the_action : str)
  (now : Datetime.datetime) (w : world) :
  fst (get_next_schedule_by_action the_action None now w)
  = match find (eligibleb the_action now) (fst (get_all_schedules now w)) with
    | Some s => Some (mk_next_schedule s (sort_key now s))
    | None => None
    end.
Proof.
  apply first_of_sorted.
  apply (next_schedule_loop_spec the_action now
           (extract_iptv_schedules (crontab w)) [] None).
  intros s t [].
Qed.

End NextAndList.

(** ** Disabling a record *)

Lemma edges_nonspace_marked (x : str) :
  edges_nonspace x = true -> edges_nonspace (lit "# " ++ x) = true.
Proof.
  unfold edges_nonspace. rewrite !andb_true_iff. intros [_ H].
  split; [reflexivity|]. rewrite rev_app_distr.
  destruct (rev x) as [|c r]; [discriminate | exact H].
Qed.

Lemma map_fixed {A : Type} (f : A -> A) (l : list A) :
  (forall x, In x l -> f x = x) -> map f l = l.
Proof.
  induction l as [|x l IH]; intros H; [reflexivity|]. simpl.
  rewrite (H x) by now left. f_equal. apply IH. intros y Hy. apply H.
  now right.
Qed.

Section Disable.

Context {host : Host}.

(** The records of the lines after the replacement that disables [t]. *)
Lemma extract_lines_disabled (t t' : schedule) (lines : list str) :
  edges_nonspace (raw t) = true ->
  is_iptv_line (raw t) = true ->
  parse_crontab_line (raw t) = Some t ->
  parse_crontab_line (lit "# " ++ raw t) = Some t' ->
  (forall l, In l lines -> contains l (raw t) = true -> strip l = raw t) ->
  extract_lines (map (fun l => replace l (raw t) (lit "# " ++ raw t)) lines)
  = map (fun r => if str_eqb (raw r) (raw t) then t' else r)
      (extract_lines lines).
Proof.
  intros He Hi Hp Hp' Hwhole.
  assert (Hne : raw t <> []) by (destruct (raw t); [discriminate|discriminate]).
  assert (Hf : first_nonspace (raw t) = true).
  { unfold edges_nonspace in He. now apply andb_true_iff in He. }
  induction lines as [|l lines IH]; [reflexivity|].
  change (l :: lines) with ([l] ++ lines).
  rewrite map_app, !extract_lines_app, map_app.
  rewrite IH by (intros x Hx; apply Hwhole; now right).
  f_equal. cbn [map].
  destruct (contains l (raw t)) eqn:C.
  - pose proof (Hwhole l (or_introl eq_refl) C) as Hs.
    destruct (strip_padded l) as [a [b [Ha [Hb Hl]]]]. rewrite Hs in Hl.
    rewrite (extract_lines_one l t) by (rewrite Hs; assumption).
    rewrite Hl at 1. rewrite replace_padded by assumption.
    assert (Hs' : strip (a ++ (lit "# " ++ raw t) ++ b) = lit "# " ++ raw t).
    { apply strip_unique; try assumption. right.
      now apply edges_nonspace_marked. }
    rewrite (extract_lines_one _ t'); rewrite ?Hs'.
    + cbn [map]. now rewrite (proj2 (str_eqb_eq _ _) eq_refl).
    + apply (is_iptv_line_super (raw t)); [exact Hi|].
      apply contains_app_l, contains_refl.
    + exact Hp'.
  - rewrite replace_absent by assumption.
    symmetry. apply map_fixed. intros r Hr.
    destruct (str_eqb (raw r) (raw t)) eqn:E; [|reflexivity].
    apply str_eqb_eq in E. rewrite (extract_lines_single_raw l r Hr) in E.
    pose proof (contains_strip_of l) as X. rewrite E in X. congruence.
Qed.

Lemma toggle_schedule_disable_result (schedule_id : Z) (w : world)
  (t : schedule) :
  find_schedule schedule_id (extract_iptv_schedules (crontab w)) = Some t ->
  enabled t = true ->
  (forall l, In l (split LF (crontab w)) ->
             contains l (raw t) = true -> strip l = raw t) ->
  fst (toggle_schedule schedule_id w) = true ->
  exists t',
    parse_crontab_line (lit "# " ++ raw t) = Some t'
    /\ same_entry t t' /\ enabled t' = false
    /\ extract_iptv_schedules (crontab (snd (toggle_schedule schedule_id w)))
       = map (fun r => if str_eqb (raw r) (raw t) then t' else r)
           (extract_iptv_schedules (crontab w)).
Proof.
  intros F En Hwhole Hs.
  destruct (find_schedule_some _ _ _ F) as [Hin _].
  destruct (extracted_raw _ _ Hin) as [Hne [He [Hlf [Hi [Hp _]]]]].
  rewrite (toggle_schedule_found _ _ _ F) in *.
  apply set_crontab_true in Hs; [|now apply toggle_content_no_cr].
  rewrite Hs.
  rewrite (toggled_line_cases t Hp), En.
  assert (Hmarks : forall c, In c (lit "# ") -> c = "#"%char \/ c = " "%char).
  { intros c [<- | [<- | []]]; [now left | now right]. }
  pose proof (parse_crontab_line_prefixed (lit "# ") (raw t) Hmarks) as M.
  rewrite Hp in M.
  destruct (parse_crontab_line (lit "# " ++ raw t)) as [t'|] eqn:Hp';
    [|contradiction].
  destruct M as [Hsame _]. exists t'. split; [reflexivity|].
  split; [exact Hsame|]. split.
  - pose proof (parse_crontab_line_shape (lit "# " ++ raw t)) as S.
    rewrite Hp' in S. destruct S as [_ [_ [_ [_ [_ [_ S]]]]]].
    apply S. exists [], (" "%char :: raw t). split; reflexivity.
  - unfold extract_iptv_schedules.
    rewrite split_replace.
    + now apply extract_lines_disabled.
    + exact Hne.
    + exact Hlf.
    + intros [H | [H | H]]; [discriminate | discriminate | contradiction].
Qed.

(** X20: disabling changes the flag and nothing else of the entry: when
    the target of [toggle_schedule] is enabled and its line occurs in the
    table only as a whole line, a successful toggle leaves every other
    record as it was, in place, and puts in the target's place the
    record of the line behind [# ], which is disabled and has the same
    time fields, command and action. *)
Theorem toggle_schedule_disables (schedule_id : Z) (w : world)
  (t : schedule) :
  find_schedule schedule_id (extract_iptv_schedules (crontab w)) = Some t ->
  enabled t = true ->
  (forall l, In l (split LF (crontab w)) ->
             contains l (raw t) = true -> strip l = raw t) ->
  fst (toggle_schedule schedule_id w) = true ->
  exists t',
    parse_crontab_line (lit "# " ++ raw t) = Some t'
    /\ same_entry t t' /\ enabled t' = false
    /\ extract_iptv_schedules (crontab (snd (toggle_schedule schedule_id w)))
       = map (fun r => if str_eqb (raw r) (raw t) then t' else r)
           (extract_iptv_schedules (crontab w)).
Proof. exact (toggle_schedule_disable_result schedule_id w t). Qed.

End Disable.

Lemma toggle_schedule_disables_witness :
  @find_schedule (Samples.id_of Samples.line_off)
    (@extract_iptv_schedules Samples.sample_host
       (crontab Samples.mixed_table))
  = Some (Samples.parsed Samples.line_off)
  /\ enabled (Samples.parsed Samples.line_off) = true
  /\ (forall l, In l (split LF (crontab Samples.mixed_table)) ->
        contains l (raw (Samples.parsed Samples.line_off)) = true ->
        strip l = raw (Samples.parsed Samples.line_off))
  /\ fst (@toggle_schedule Samples.sample_host
            (Samples.id_of Samples.line_off) Samples.mixed_table) = true
  /\ exists t',
       @parse_crontab_line Samples.sample_host
         (lit "# " ++ raw (Samples.parsed Samples.line_off)) = Some t'
       /\ same_entry (Samples.parsed Samples.line_off) t'
       /\ enabled t' = false
       /\ @extract_iptv_schedules Samples.sample_host
            (crontab (snd (@toggle_schedule Samples.sample_host
                             (Samples.id_of Samples.line_off)
                             Samples.mixed_table)))
          = map (fun r =>
                   if str_eqb (raw r) (raw (Samples.parsed Samples.line_off))
                   then t' else r)
              (@extract_iptv_schedules Samples.sample_host
                 (crontab Samples.mixed_table)).
Proof.
  assert (H1 : @find_schedule (Samples.id_of Samples.line_off)
                 (@extract_iptv_schedules Samples.sample_host
                    (crontab Samples.mixed_table))
               = Some (Samples.parsed Samples.line_off))
    by (vm_compute; reflexivity).
  assert (H2 : enabled (Samples.parsed Samples.line_off) = true)
    by reflexivity.
  assert (H3 : forall l, In l (split LF (crontab Samples.mixed_table)) ->
                 contains l (raw (Samples.parsed Samples.line_off)) = true ->
                 strip l = raw (Samples.parsed Samples.line_off)).
  { assert (E : split LF (crontab Samples.mixed_table)
                = [Samples.line_on; Samples.line_other; Samples.line_off; []])
      by (vm_compute; reflexivity).
    rewrite E. intros l [<- | [<- | [<- | [<- | []]]]] C;
      try (vm_compute in C; discriminate C).
    vm_compute. reflexivity. }
  assert (H4 : fst (@toggle_schedule Samples.sample_host
                      (Samples.id_of Samples.line_off) Samples.mixed_table)
               = true) by (vm_compute; reflexivity).
  exact (conj H1 (conj H2 (conj H3 (conj H4
           (@toggle_schedule_disables Samples.sample_host
              (Samples.id_of Samples.line_off) Samples.mixed_table
              (Samples.parsed Samples.line_off) H1 H2 H3 H4))))).
Defined.
